(** * PyBeam QA: the CT analysis worker and its worksheet handlers

    A shallow embedding of [core/analysis/ct.py] (the [PHANTOM] enumeration,
    [QCTAnalysis] and [QCTAnalysisWorker.analyze]) and of the result handlers
    of [ui/linac_qa/ct_widgets.py] ([analysis_failed], [show_analysis_results],
    [generate_report]), with the properties the specification states about
    them.

    Python objects are modelled as a small universe of dynamic values;
    exceptions are explicit outcomes; the Qt signals of the worker are the
    events of a trace; floats are IEEE binary64 values ([spec_float] of the
    standard library) and [format(x, ".Nf")] is the correctly rounded
    fixed-point rendering of their exact value. *)

From Stdlib Require Import ZArith List String Ascii Bool Lia.
From Stdlib Require Import SpecFloat DecimalString.
Import ListNotations.
Local Open Scope string_scope.
#[local] Set Warnings "-register-all".

(** ** Exceptions and outcomes *)

(** An exception object: its class name, its message and the notes attached
    to it.  Every exception of the model is an instance of [Exception], of a
    class other than [SyntaxError] (whose formatted representation has
    location lines in front of what is modelled here). *)
Record exn : Type := mkExn {
  exn_class : string;
  exn_message : string;
  exn_notes : list string
}.

Definition newline : string := String (ascii_of_nat 10) EmptyString.

Definition newline_char : ascii := ascii_of_nat 10.

(** [s.split(c)] for a one-character separator: the pieces between the
    separators, at least one piece. *)
Fixpoint split_on (c : ascii) (s : string) : list string :=
  match s with
  | EmptyString => [EmptyString]
  | String a rest =>
      if Ascii.eqb a c then EmptyString :: split_on c rest
      else match split_on c rest with
           | piece :: pieces => String a piece :: pieces
           | [] => [String a EmptyString]
           end
  end.

(** The first string of the formatted exception: "Class: message" and a
    newline, with the whole message, or only "Class" and a newline when the
    message is empty. *)
Definition final_exc_line (e : exn) : string :=
  if String.eqb (exn_message e) ""
  then exn_class e ++ newline
  else exn_class e ++ ": " ++ exn_message e ++ newline.

(** The strings a note adds: one per line of the note. *)
Definition note_lines (note : string) : list string :=
  map (fun l => l ++ newline) (split_on newline_char note).

(** [traceback.format_exception_only(err)]: the string "Class: message",
    then the lines of the notes. *)
Definition format_exception_only (e : exn) : list string :=
  final_exc_line e :: flat_map note_lines (exn_notes e).

Definition AttributeError (msg : string) : exn := mkExn "AttributeError" msg [].
Definition TypeError (msg : string) : exn := mkExn "TypeError" msg [].
Definition ValueError (msg : string) : exn := mkExn "ValueError" msg [].
Definition IndexError (msg : string) : exn := mkExn "IndexError" msg [].
Definition OverflowError (msg : string) : exn := mkExn "OverflowError" msg [].
Definition UnboundLocalError (msg : string) : exn :=
  mkExn "UnboundLocalError" msg [].
Definition UnsupportedPhantom (msg : string) : exn :=
  mkExn "UnsupportedPhantom" msg [].

(** The outcome of evaluating a Python expression or statement. *)
Inductive py (A : Type) : Type :=
| Returns (a : A)
| Raises (e : exn).
Arguments Returns {A} a.
Arguments Raises {A} e.

Definition py_bind {A B} (m : py A) (k : A -> py B) : py B :=
  match m with
  | Returns a => k a
  | Raises e => Raises e
  end.

Declare Scope py_scope.
Delimit Scope py_scope with py.
Notation "x <- m ;; k" := (py_bind m (fun x => k))
  (at level 61, m at next level, right associativity) : py_scope.
Notation "m ;;; k" := (py_bind m (fun _ => k))
  (at level 61, right associativity) : py_scope.

(** [xs[-1]] on a list. *)
Definition index_last {A} (xs : list A) : py A :=
  match rev xs with
  | [] => Raises (IndexError "list index out of range")
  | x :: _ => Returns x
  end.

(** ** Floats and fixed-point formatting *)

Definition prec64 : Z := 53.
Definition emax64 : Z := 1024.

(** A decimal literal [n / 10^k] read as a binary64 float: both operands are
    exact, so the correctly rounded quotient is the float nearest to the
    decimal. *)
Definition float_of_Z (n : Z) : spec_float :=
  binary_normalize prec64 emax64 n 0 false.

Definition float_literal (neg : bool) (digits : positive) (k : nat) : spec_float :=
  let q := SFdiv prec64 emax64 (float_of_Z (Zpos digits))
                               (float_of_Z (10 ^ Z.of_nat k)) in
  if neg then SFopp q else q.

(** Nearest integer to [num / den], ties to even ([den > 0], [num >= 0]). *)
Definition div_round_half_even (num den : Z) : Z :=
  let q := (num / den)%Z in
  let r := (num mod den)%Z in
  match (2 * r ?= den)%Z with
  | Lt => q
  | Gt => (q + 1)%Z
  | Eq => if Z.even q then q else (q + 1)%Z
  end.

(** [|x| * 10^p] rounded to the nearest integer, for a finite [x = m * 2^e]. *)
Definition scaled_magnitude (p : nat) (m : positive) (e : Z) : Z :=
  let scaled := (Zpos m * 10 ^ Z.of_nat p)%Z in
  if (0 <=? e)%Z then (scaled * 2 ^ e)%Z
  else div_round_half_even scaled (2 ^ (- e)).

Definition digit_char (d : Z) : ascii := ascii_of_nat (48 + Z.to_nat d).

(** The [p] low decimal digits of [n], most significant first. *)
Fixpoint frac_digits (p : nat) (n : Z) : string :=
  match p with
  | O => ""
  | S p' => frac_digits p' (n / 10) ++ String (digit_char (n mod 10)) ""
  end.

Definition str_of_nonneg (n : Z) : string :=
  NilZero.string_of_uint (N.to_uint (Z.to_N n)).

(** [str(n)] for an integer. *)
Definition str_of_int (n : Z) : string :=
  if (n <? 0)%Z then "-" ++ str_of_nonneg (- n) else str_of_nonneg n.

Definition fixed_digits (p : nat) (n : Z) : string :=
  let ip := str_of_nonneg (n / 10 ^ Z.of_nat p) in
  match p with
  | O => ip
  | _ => ip ++ "." ++ frac_digits p n
  end.

(** [format(x, ".pf")] for a float [x]. *)
Definition format_f (p : nat) (x : spec_float) : string :=
  match x with
  | S754_zero s => (if s then "-" else "") ++ fixed_digits p 0
  | S754_finite s m e =>
      (if s then "-" else "") ++ fixed_digits p (scaled_magnitude p m e)
  | S754_infinity s => if s then "-inf" else "inf"
  | S754_nan => "nan"
  end.


(** ** Python values *)

(** Dictionary keys: strings or integers. *)
Inductive pykey : Type :=
| KStr (s : string)
| KInt (n : Z).

(** The dynamic values the analysis touches: [None], floats, integers,
    booleans, strings, insertion-ordered dictionaries, plain objects (a
    record of attributes, of a class without a [__format__] of its own) and
    bound methods of the external analysis library.  Values of other
    classes, such as [Decimal], are not among them. *)
Inductive pyval : Type :=
| PyNone
| PyFloat (x : spec_float)
| PyInt (n : Z)
| PyBool (b : bool)
| PyStr (s : string)
| PyDict (items : list (pykey * pyval))
| PyObj (attrs : list (string * pyval))
| PyMethod.

Fixpoint assoc {A} (name : string) (attrs : list (string * A)) : option A :=
  match attrs with
  | [] => None
  | (n, v) :: rest => if String.eqb n name then Some v else assoc name rest
  end.

(** [obj.name] *)
Definition getattr (obj : pyval) (name : string) : py pyval :=
  match obj with
  | PyObj attrs =>
      match assoc name attrs with
      | Some v => Returns v
      | None => Raises (AttributeError ("object has no attribute '" ++ name ++ "'"))
      end
  | _ => Raises (AttributeError ("object has no attribute '" ++ name ++ "'"))
  end.

(** [hasattr(obj, name)]: whether [getattr] succeeds. *)
Definition hasattr (obj : pyval) (name : string) : bool :=
  match getattr obj name with
  | Returns _ => true
  | Raises _ => false
  end.

(** [d.items()], [d.keys()] and [d.values()]. *)
Definition dict_items (d : pyval) : py (list (pykey * pyval)) :=
  match d with
  | PyDict items => Returns items
  | _ => Raises (AttributeError "object has no attribute 'items'")
  end.

Definition dict_keys (d : pyval) : py (list pykey) :=
  match d with
  | PyDict items => Returns (map fst items)
  | _ => Raises (AttributeError "object has no attribute 'keys'")
  end.

Definition dict_values (d : pyval) : py (list pyval) :=
  match d with
  | PyDict items => Returns (map snd items)
  | _ => Raises (AttributeError "object has no attribute 'values'")
  end.

(** [f()] for a method of the external library: it returns normally. *)
Definition call (f : pyval) : py unit :=
  match f with
  | PyMethod => Returns tt
  | _ => Raises (TypeError "object is not callable")
  end.

(** [str(k)] for a key, as an f-string field renders it. *)
Definition str_of_key (k : pykey) : string :=
  match k with
  | KStr s => s
  | KInt n => str_of_int n
  end.

Definition key_eqb (k1 k2 : pykey) : bool :=
  match k1, k2 with
  | KStr a, KStr b => String.eqb a b
  | KInt a, KInt b => Z.eqb a b
  | _, _ => false
  end.

(** [float(n)] for an integer: the nearest float, [OverflowError] beyond the
    range of the floats. *)
Definition float_of_int (n : Z) : py spec_float :=
  match float_of_Z n with
  | S754_infinity _ =>
      Raises (OverflowError "int too large to convert to float")
  | x => Returns x
  end.

(** The f-string field [{v:.pf}]: a float is formatted as it is, an integer
    or a boolean as the float it converts to ([OverflowError] for an integer
    beyond the floats); a string raises [ValueError] and [None], a
    dictionary, a plain object or a method raise [TypeError]. *)
Definition format_spec_f (p : nat) (v : pyval) : py string :=
  match v with
  | PyFloat x => Returns (format_f p x)
  | PyInt n => py_bind (float_of_int n) (fun x => Returns (format_f p x))
  | PyBool b =>
      py_bind (float_of_int (if b then 1 else 0))
              (fun x => Returns (format_f p x))
  | PyStr _ => Raises (ValueError "Unknown format code 'f' for object of type 'str'")
  | _ => Raises (TypeError "unsupported format string passed to __format__")
  end.

(** The values [min], [max] and [np.linspace] take as numbers. *)
Definition is_real (v : pyval) : bool :=
  match v with
  | PyFloat _ | PyInt _ | PyBool _ => true
  | _ => false
  end.

(** [for x in xs: acc = body(x, acc)], stopping at the first exception. *)
Fixpoint py_for {A S} (xs : list A) (acc : S) (body : A -> S -> py S) : py S :=
  match xs with
  | [] => Returns acc
  | x :: rest => py_bind (body x acc) (fun acc' => py_for rest acc' body)
  end.

(** [enumerate(xs)] *)
Fixpoint enumerate_from {A} (i : Z) (xs : list A) : list (Z * A) :=
  match xs with
  | [] => []
  | x :: rest => (i, x) :: enumerate_from (i + 1) rest
  end.
Definition enumerate {A} (xs : list A) : list (Z * A) := enumerate_from 0 xs.

(** ** The phantom registry *)

(** [class PHANTOM(enum.Enum)] *)
Inductive PHANTOM : Type :=
| CATPHAN_503
| CATPHAN_504
| CATPHAN_600
| CATPHAN_604.

Definition PHANTOM_value (p : PHANTOM) : string :=
  match p with
  | CATPHAN_503 => "CatPhan 503"
  | CATPHAN_504 => "CatPhan 504"
  | CATPHAN_600 => "CatPhan 600"
  | CATPHAN_604 => "CatPhan 604"
  end.

(** The analyzer classes of the external library. *)
Inductive CatPhan : Type :=
| CatPhan503
| CatPhan504
| CatPhan600
| CatPhan604.

(** What the worker holds in [_phantom_type]: a member of [PHANTOM], or any
    other object ([value_str] is [str(obj.value)] when the object has a
    [value] attribute).  The annotation [phantom_type: PHANTOM] is not
    enforced. *)
Inductive phantom_type : Type :=
| Member (p : PHANTOM)
| NonMember (value_str : option string).

Definition PHANTOM_eqb (a b : PHANTOM) : bool :=
  match a, b with
  | CATPHAN_503, CATPHAN_503 | CATPHAN_504, CATPHAN_504
  | CATPHAN_600, CATPHAN_600 | CATPHAN_604, CATPHAN_604 => true
  | _, _ => false
  end.

(** [self._phantom_type == PHANTOM.X] *)
Definition is_member (pt : phantom_type) (p : PHANTOM) : bool :=
  match pt with
  | Member q => PHANTOM_eqb q p
  | NonMember _ => false
  end.

(** The [if]/[elif]/[else] chain of [analyze] that picks the analyzer class. *)
Definition analyzer_class (pt : phantom_type) : CatPhan :=
  if is_member pt CATPHAN_503 then CatPhan503
  else if is_member pt CATPHAN_504 then CatPhan504
  else if is_member pt CATPHAN_600 then CatPhan600
  else if is_member pt CATPHAN_604 then CatPhan604
  else (* Default to CatPhan504 *) CatPhan504.

(** Resolution as an outcome: the chain has no raising branch. *)
Definition resolve (pt : phantom_type) : py CatPhan :=
  Returns (analyzer_class pt).

(** [self._phantom_type.value] rendered in an f-string. *)
Definition phantom_type_value (pt : phantom_type) : py string :=
  match pt with
  | Member p => Returns (PHANTOM_value p)
  | NonMember (Some s) => Returns s
  | NonMember None => Raises (AttributeError "object has no attribute 'value'")
  end.

(** ** Summary rows *)

Definition row : Type := list string.

(** [summary_text.append(r)] *)
Definition append (summary_text : list row) (r : row) : list row :=
  (summary_text ++ [r])%list.

Local Open Scope py_scope.

(** The body of the loop over [data.hu_linearity.items()]. *)
Definition linearity_step (entry : pykey * pyval) (summary_text : list row)
  : py (list row) :=
  let '(material, values) := entry in
  if negb (key_eqb material (KStr "background")) then
    v <- getattr values "value" ;;
    sv <- format_spec_f 2 v ;;
    n <- getattr values "nominal" ;;
    sn <- format_spec_f 2 n ;;
    Returns (append summary_text ["  " ++ str_of_key material ++ ":";
               sv ++ " HU (Expected: " ++ sn ++ " HU)"])
  else Returns summary_text.

Definition uniformity_step (entry : pykey * pyval) (summary_text : list row)
  : py (list row) :=
  let '(position, value) := entry in
  sv <- format_spec_f 2 value ;;
  Returns (append summary_text ["  " ++ str_of_key position ++ ":"; sv ++ " HU"]).

Definition mtf_step (entry : pykey * pyval) (summary_text : list row)
  : py (list row) :=
  let '(percent, lp_mm) := entry in
  sv <- format_spec_f 2 lp_mm ;;
  Returns (append summary_text ["  MTF " ++ str_of_key percent ++ "%:"; sv ++ " lp/mm"]).

Definition low_contrast_step (entry : Z * pyval) (summary_text : list row)
  : py (list row) :=
  let '(i, contrast) := entry in
  sv <- format_spec_f 4 contrast ;;
  Returns (append summary_text ["  ROI " ++ str_of_int (i + 1) ++ ":"; sv]).

(** The summary part of [QCTAnalysisWorker.analyze]: from
    [summary_text = []] to the last [append]. *)
Definition summarize (pt : phantom_type) (data : pyval) : py (list row) :=
  let summary_text : list row := [] in
  v <- phantom_type_value pt ;;
  let summary_text := append summary_text ["Phantom Type:"; v] in
  let summary_text := append summary_text [""; ""] in
  (* HU Linearity *)
  summary_text <-
    (if hasattr data "hu_linearity" then
       let summary_text := append summary_text ["HU Linearity:"; ""] in
       d <- getattr data "hu_linearity" ;;
       items <- dict_items d ;;
       py_for items summary_text linearity_step
     else Returns summary_text) ;;
  let summary_text := append summary_text [""; ""] in
  (* Uniformity *)
  summary_text <-
    (if hasattr data "uniformity" then
       let summary_text := append summary_text ["HU Uniformity:"; ""] in
       d <- getattr data "uniformity" ;;
       items <- dict_items d ;;
       summary_text <- py_for items summary_text uniformity_step ;;
       if hasattr data "uniformity_index" then
         u <- getattr data "uniformity_index" ;;
         su <- format_spec_f 2 u ;;
         Returns (append summary_text ["Uniformity Index:"; su])
       else Returns summary_text
     else Returns summary_text) ;;
  let summary_text := append summary_text [""; ""] in
  (* Spatial Resolution (MTF) *)
  summary_text <-
    (if hasattr data "mtf" then
       let summary_text := append summary_text ["Spatial Resolution:"; ""] in
       d <- getattr data "mtf" ;;
       items <- dict_items d ;;
       py_for items summary_text mtf_step
     else Returns summary_text) ;;
  let summary_text := append summary_text [""; ""] in
  (* Low contrast *)
  summary_text <-
    (if hasattr data "low_contrast" then
       let summary_text := append summary_text ["Low Contrast:"; ""] in
       d <- getattr data "low_contrast" ;;
       values <- dict_values d ;;
       summary_text <- py_for (enumerate values) summary_text low_contrast_step ;;
       if hasattr data "low_contrast_visibility" then
         c <- getattr data "low_contrast_visibility" ;;
         sc <- format_spec_f 4 c ;;
         Returns (append summary_text ["Low Contrast Visibility:"; sc])
       else Returns summary_text
     else Returns summary_text) ;;
  Returns summary_text.

(** ** QCTAnalysis: the plots of an analysed phantom *)

(** [s.lower()], on ASCII letters. *)
Definition lower_ascii (c : ascii) : ascii :=
  let n := nat_of_ascii c in
  if andb (65 <=? n)%nat (n <=? 90)%nat then ascii_of_nat (n + 32) else c.

Fixpoint lower (s : string) : string :=
  match s with
  | EmptyString => EmptyString
  | String c rest => String (lower_ascii c) (lower rest)
  end.

(** [name.lower()] for a dictionary key. *)
Definition key_lower (k : pykey) : py string :=
  match k with
  | KStr s => Returns (lower s)
  | KInt _ => Raises (AttributeError "'int' object has no attribute 'lower'")
  end.

(** [sub in s] *)
Definition contains (sub s : string) : bool :=
  match String.index 0 sub s with
  | Some _ => true
  | None => false
  end.

(** What is drawn into one plot of the interactive grid. *)
Inductive plot_item : Type :=
| expected_line (x_data : list pyval)
| measured_points (x_data y_data : list pyval)
| bar_graph (positions : list pykey) (values : list pyval)
| mtf_curve (lp_mm mtf_data : pyval)
| level_line (level : spec_float) (color : string)
| contrast_points (roi_nums : list Z) (contrasts : list pyval).

(** The 2x2 grid of [analyzed_image_plot_widget]. *)
Record plot_grid : Type := mkGrid {
  hu_linearity_plot : list plot_item;
  uniformity_plot : list plot_item;
  mtf_plot : list plot_item;
  low_contrast_plot : list plot_item
}.

(** A page image of the report, by what was drawn on it. *)
Inductive figure : Type :=
| linearity_figure
| uniformity_figure (roi_names : list pykey) (roi_values : list pyval)
| mtf_figure
| low_contrast_figure (roi_labels : list pykey) (contrasts : list pyval).

Module QCTAnalysis.

Record t : Type := mk { _phantom : pyval }.

(** [min(x_data)], [max(x_data)] and [np.linspace] over them. *)
Definition linspace_min_max (x_data : list pyval) : py unit :=
  match x_data with
  | [] => Raises (ValueError "min() arg is an empty sequence")
  | _ => if forallb is_real x_data then Returns tt
         else Raises (TypeError "unsupported operand type(s)")
  end.

Definition linearity_roi (entry : pykey * pyval)
                         (acc : list pyval * list pyval)
  : py (list pyval * list pyval) :=
  let '(name, roi) := entry in
  let '(x_data, y_data) := acc in
  if negb (orb (key_eqb name (KStr "background")) (key_eqb name (KStr "air")))
  then
    x <- getattr roi "nominal_val" ;;
    y <- getattr roi "pixel_value" ;;
    Returns ((x_data ++ [x])%list, (y_data ++ [y])%list)
  else Returns acc.

Definition uniformity_roi (entry : pykey * pyval)
                          (acc : list pykey * list pyval)
  : py (list pykey * list pyval) :=
  let '(name, roi) := entry in
  let '(positions, values) := acc in
  v <- getattr roi "pixel_value" ;;
  Returns ((positions ++ [name])%list, (values ++ [v])%list).

Definition low_contrast_roi (entry : pykey * pyval)
                            (acc : list pyval * list Z * Z)
  : py (list pyval * list Z * Z) :=
  let '(name, roi) := entry in
  let '(contrasts, roi_nums, i) := acc in
  l <- key_lower name ;;
  if negb (contains "bg" l) then
    c <- getattr roi "contrast" ;;
    Returns ((contrasts ++ [c])%list, (roi_nums ++ [i])%list, (i + 1)%Z)
  else Returns acc.

(** [qplot_analyzed_image]: [None] when it returns before plotting. *)
Definition qplot_analyzed_image (HAS_PYQTGRAPH : bool) (self : t)
  : py (option plot_grid) :=
  if negb HAS_PYQTGRAPH then Returns None else
  let phantom := _phantom self in
  (* HU Linearity plot *)
  hu <-
    (if hasattr phantom "ctp404" then
       m <- getattr phantom "ctp404" ;;
       if hasattr m "rois" then
         rois <- getattr m "rois" ;;
         items <- dict_items rois ;;
         xy <- py_for items ([], []) linearity_roi ;;
         let '(x_data, y_data) := xy in
         linspace_min_max x_data ;;;
         Returns [expected_line x_data; measured_points x_data y_data]
       else Returns []
     else Returns []) ;;
  (* Uniformity plot *)
  un <-
    (if hasattr phantom "ctp486" then
       m <- getattr phantom "ctp486" ;;
       if hasattr m "rois" then
         rois <- getattr m "rois" ;;
         items <- dict_items rois ;;
         pv <- py_for items ([], []) uniformity_roi ;;
         let '(positions, values) := pv in
         Returns [bar_graph positions values]
       else Returns []
     else Returns []) ;;
  (* MTF plot *)
  mt <-
    (if hasattr phantom "ctp528" then
       m <- getattr phantom "ctp528" ;;
       if hasattr m "mtf" then
         mtf <- getattr m "mtf" ;;
         mtf_data <- getattr mtf "mtf" ;;
         mtf <- getattr m "mtf" ;;
         lp_mm <- getattr mtf "lp_mm" ;;
         Returns [mtf_curve lp_mm mtf_data;
                  level_line (float_literal false 5 1) "r";
                  level_line (float_literal false 1 1) "g"]
       else Returns []
     else Returns []) ;;
  (* Low contrast plot *)
  lc <-
    (if hasattr phantom "ctp515" then
       m <- getattr phantom "ctp515" ;;
       if hasattr m "rois" then
         rois <- getattr m "rois" ;;
         items <- dict_items rois ;;
         acc <- py_for items ([], [], 0%Z) low_contrast_roi ;;
         let '(contrasts, roi_nums, _) := acc in
         Returns [contrast_points roi_nums contrasts]
       else Returns []
     else Returns []) ;;
  Returns (Some (mkGrid hu un mt lc)).

(** The local names of [get_publishable_plots]: [plt] is bound by the
    [import] statement of the [ctp404] branch and by nothing else. *)
Record locals : Type := mkLocals {
  plt : bool;
  plots : list figure
}.

(** A use of the local name [plt]. *)
Definition use_plt (l : locals) : py unit :=
  if plt l then Returns tt
  else Raises (UnboundLocalError
    "cannot access local variable 'plt' where it is not associated with a value").

Definition pixel_value_of (roi : pyval) (acc : list pyval) : py (list pyval) :=
  v <- getattr roi "pixel_value" ;;
  Returns (acc ++ [v])%list.

Definition report_contrast (entry : pykey * pyval)
                           (acc : list pyval * list pykey)
  : py (list pyval * list pykey) :=
  let '(name, roi) := entry in
  let '(contrasts, roi_labels) := acc in
  l <- key_lower name ;;
  if negb (contains "bg" l) then
    c <- getattr roi "contrast" ;;
    Returns ((contrasts ++ [c])%list, (roi_labels ++ [name])%list)
  else Returns acc.

Definition get_publishable_plots (self : t) : py (list figure) :=
  let phantom := _phantom self in
  let l := mkLocals false [] in
  (* HU Linearity *)
  l <-
    (if hasattr phantom "ctp404" then
       m <- getattr phantom "ctp404" ;;
       f <- getattr m "plot_linearity" ;;
       call f ;;;
       (* import matplotlib.pyplot as plt *)
       let l := mkLocals true (plots l) in
       use_plt l ;;;
       Returns (mkLocals (plt l) (plots l ++ [linearity_figure])%list)
     else Returns l) ;;
  (* Uniformity *)
  l <-
    (if hasattr phantom "ctp486" then
       use_plt l ;;;
       m <- getattr phantom "ctp486" ;;
       f <- getattr m "results_data" ;;
       call f ;;;
       rois <- getattr m "rois" ;;
       roi_names <- dict_keys rois ;;
       rois <- getattr m "rois" ;;
       rs <- dict_values rois ;;
       roi_values <- py_for rs [] pixel_value_of ;;
       Returns (mkLocals (plt l)
                  (plots l ++ [uniformity_figure roi_names roi_values])%list)
     else Returns l) ;;
  (* MTF *)
  l <-
    (if hasattr phantom "ctp528" then
       m <- getattr phantom "ctp528" ;;
       f <- getattr m "plot_mtf" ;;
       call f ;;;
       use_plt l ;;;
       Returns (mkLocals (plt l) (plots l ++ [mtf_figure])%list)
     else Returns l) ;;
  (* Low Contrast *)
  l <-
    (if hasattr phantom "ctp515" then
       use_plt l ;;;
       m <- getattr phantom "ctp515" ;;
       rois <- getattr m "rois" ;;
       items <- dict_items rois ;;
       cl <- py_for items ([], []) report_contrast ;;
       let '(contrasts, roi_labels) := cl in
       Returns (mkLocals (plt l)
                  (plots l ++ [low_contrast_figure roi_labels contrasts])%list)
     else Returns l) ;;
  Returns (plots l).

End QCTAnalysis.

(** ** Code that emits: a trace of emissions next to the outcome *)

Definition traced (E A : Type) : Type := list E -> list E * py A.

Definition emit {E} (e : E) : traced E unit :=
  fun tr => ((tr ++ [e])%list, Returns tt).

Definition lift {E A} (m : py A) : traced E A := fun tr => (tr, m).

Definition raise {E A} (e : exn) : traced E A := fun tr => (tr, Raises e).

Definition traced_bind {E A B} (m : traced E A) (k : A -> traced E B)
  : traced E B :=
  fun tr =>
    match m tr with
    | (tr', Returns a) => k a tr'
    | (tr', Raises e) => (tr', Raises e)
    end.

(** [try: body  except Exception as err: handler(err)] *)
Definition try_except {E A} (body : traced E A) (handler : exn -> traced E A)
  : traced E A :=
  fun tr =>
    match body tr with
    | (tr', Returns a) => (tr', Returns a)
    | (tr', Raises e) => handler e tr'
    end.

Declare Scope traced_scope.
Delimit Scope traced_scope with traced.
Notation "x <- m ;; k" := (traced_bind m (fun x => k))
  (at level 61, m at next level, right associativity) : traced_scope.
Notation "m ;;; k" := (traced_bind m (fun _ => k))
  (at level 61, right associativity) : traced_scope.

(** ** The analysis worker *)

(** The external analysis library, as the worker uses it: loading an archive
    with an analyzer class, the measurement pass (which gives the analysed
    phantom) and the results object of an analysed phantom. *)
Record pylinac : Type := mkLib {
  from_zip : CatPhan -> string -> py pyval;
  phantom_analyze : pyval -> py pyval;
  results_data : pyval -> py pyval
}.

(** The [results] dictionary sent with [analysis_results_ready]. *)
Record results : Type := mkResults {
  summary_text : list row;
  ct_analysis_obj : QCTAnalysis.t
}.

Module QCTAnalysisWorker.

(** The signals of the worker. *)
Inductive signal : Type :=
| analysis_progress (message : string)
| analysis_results_ready (r : results)
| thread_finished
| analysis_failed (error_message : string).

Record t : Type := mk {
  _path : string;
  _phantom_type : phantom_type
}.

Local Open Scope traced_scope.

Definition analyze (lib : pylinac) (self : t) : traced signal unit :=
  try_except
    (emit (analysis_progress "Loading CT dataset...") ;;;
     (* Load and analyze the CT dataset based on phantom type *)
     phantom <- lift (from_zip lib (analyzer_class (_phantom_type self))
                                   (_path self)) ;;
     emit (analysis_progress "Analyzing CT dataset...") ;;;
     (* Analyze the phantom *)
     phantom <- lift (phantom_analyze lib phantom) ;;
     (* Create QCTAnalysis object *)
     let ct_analysis := QCTAnalysis.mk phantom in
     (* Get the results data and format it for display *)
     data <- lift (results_data lib phantom) ;;
     summary_text <- lift (summarize (_phantom_type self) data) ;;
     (* Create results dict *)
     let results := mkResults summary_text ct_analysis in
     emit (analysis_results_ready results) ;;;
     emit thread_finished)
    (fun err =>
       line <- lift (index_last (format_exception_only err)) ;;
       emit (analysis_failed line) ;;;
       emit thread_finished ;;;
       raise err).

(** One run: the signals emitted, in order, and how [analyze] ends. *)
Definition run (lib : pylinac) (self : t) : list signal * py unit :=
  analyze lib self [].

End QCTAnalysisWorker.

(** ** The worksheet *)

(** Modelled from the spec: the states of [AnalysisInfoLabel]
    ([ui.util_widgets.statusbar]), of which the worksheet uses the names. *)
Inductive AnalysisInfoLabel : Type := IDLE | IN_PROGRESS | SUCCESS | FAILURE.

(** Modelled from the spec: [SimpleReport] ([core.tools.report]), a document
    of a title, a date, tables and images, in the order they were added. *)
Record SimpleReport : Type := mkReport {
  title : string;
  date : string;
  tables : list (string * list row);
  images : list (string * figure)
}.

Definition add_table (report : SimpleReport) (name : string) (rows : list row)
  : SimpleReport :=
  mkReport (title report) (date report)
           (tables report ++ [(name, rows)])%list (images report).

Definition add_image (report : SimpleReport) (name : string) (img : figure)
  : SimpleReport :=
  mkReport (title report) (date report) (tables report)
           (images report ++ [(name, img)])%list.

(** [platform.system()] *)
Inductive system : Type := Windows | Darwin | OtherSystem.

Module QCTAnalysisWorksheet.

(** The dictionary kept with a list item. *)
Record itemData : Type := mkItem {
  file_path : string;
  analysis_data : option results
}.

(** The buttons and indicators the handlers switch. *)
Record controls : Type := mkControls {
  analyzeBtn_text : string;
  analyzeBtn_enabled : bool;
  addDatasetBtn_enabled : bool;
  advancedViewBtn_enabled : bool;
  genReportBtn_enabled : bool;
  analysis_progress_bar_shown : bool;
  analysis_message_label_shown : bool;
  outcomeFrame_shown : bool
}.

(** The worksheet.  The [itemData] dictionaries are shared objects: they
    live in [objects] and are referred to by position, from the list items
    ([datasetListWidget]) and from [selected_dataset].  The advanced view
    window is left out. *)
Record t : Type := mk {
  objects : list itemData;
  datasetListWidget : list nat;
  selected_dataset : list nat;
  analysis_in_progress : bool;
  analysis_state : AnalysisInfoLabel;
  analysis_message : option string;
  form_layout : list (string * string);
  analysis_info_signal : list (AnalysisInfoLabel * option string);
  error_dialogs : list string;
  widgets : controls
}.

(** [analysis_failed(error_message)] *)
Definition analysis_failed (self : t) (error_message : string) : t :=
  let w := widgets self in
  {| objects := objects self;
     datasetListWidget := datasetListWidget self;
     selected_dataset := selected_dataset self;
     analysis_in_progress := false;
     analysis_state := FAILURE;
     analysis_message := Some error_message;
     form_layout := form_layout self;
     analysis_info_signal :=
       (analysis_info_signal self ++ [(FAILURE, Some error_message)])%list;
     error_dialogs := (error_dialogs self ++ [error_message])%list;
     widgets :=
       {| analyzeBtn_text := "Analyze CT dataset";
          analyzeBtn_enabled := true;
          addDatasetBtn_enabled := true;
          advancedViewBtn_enabled := advancedViewBtn_enabled w;
          genReportBtn_enabled := genReportBtn_enabled w;
          analysis_progress_bar_shown := false;
          analysis_message_label_shown := false;
          outcomeFrame_shown := outcomeFrame_shown w |} |}.

(** [obj["analysis_data"] = r] on the object at [ref]. *)
Fixpoint set_analysis_data (objs : list itemData) (ref : nat) (r : results)
  : list itemData :=
  match objs, ref with
  | [], _ => []
  | o :: rest, O => mkItem (file_path o) (Some r) :: rest
  | o :: rest, S ref' => o :: set_analysis_data rest ref' r
  end.

Definition file_path_of (objs : list itemData) (ref : nat) : option string :=
  option_map file_path (nth_error objs ref).

Definition option_string_eqb (a b : option string) : bool :=
  match a, b with
  | Some x, Some y => String.eqb x y
  | _, _ => false
  end.

(** The loop over the list items: the first item whose data has the file
    path of [dataset] gets [dataset] as its data. *)
Fixpoint update_first_item (objs : list itemData) (items : list nat)
                           (dataset : nat) : list nat :=
  match items with
  | [] => []
  | item :: rest =>
      if option_string_eqb (file_path_of objs item) (file_path_of objs dataset)
      then dataset :: rest
      else item :: update_first_item objs rest dataset
  end.

(** The rows of a summary that have exactly two fields. *)
Definition two_field_rows (summary_text : list row) : list row :=
  filter (fun r => (List.length r =? 2)%nat) summary_text.

Definition form_rows (summary_text : list row) : list (string * string) :=
  flat_map (fun r => match r with
                     | [label; value] => [(label, value)]
                     | _ => []
                     end) summary_text.

(** [show_analysis_results(results)] *)
Definition show_analysis_results (self : t) (r : results) : t :=
  let w := widgets self in
  let '(objs, items) :=
    match selected_dataset self with
    | dataset :: _ =>
        let objs := set_analysis_data (objects self) dataset r in
        (objs, update_first_item objs (datasetListWidget self) dataset)
    | [] => (objects self, datasetListWidget self)
    end in
  {| objects := objs;
     datasetListWidget := items;
     selected_dataset := selected_dataset self;
     analysis_in_progress := false;
     analysis_state := SUCCESS;
     analysis_message := None;
     form_layout := (form_layout self ++ form_rows (summary_text r))%list;
     analysis_info_signal :=
       (analysis_info_signal self ++ [(SUCCESS, None)])%list;
     error_dialogs := error_dialogs self;
     widgets :=
       {| analyzeBtn_text := "Analyze CT dataset";
          analyzeBtn_enabled := true;
          addDatasetBtn_enabled := true;
          advancedViewBtn_enabled := true;
          genReportBtn_enabled := true;
          analysis_progress_bar_shown := false;
          analysis_message_label_shown := false;
          outcomeFrame_shown := true |} |}.

(** The cached result of the dataset object at [ref]. *)
Definition cached_result (self : t) (ref : nat) : option results :=
  match nth_error (objects self) ref with
  | Some o => analysis_data o
  | None => None
  end.

(** What [generate_report] does outside the worksheet. *)
Inductive effect : Type :=
| saved (report : SimpleReport) (path : string)
| opened (command : string) (path : string).

Definition add_plot (entry : Z * figure) (report : SimpleReport)
  : py SimpleReport :=
  let '(i, plot) := entry in
  Returns (add_image report ("Plot " ++ str_of_int (i + 1)) plot).

Local Open Scope traced_scope.

(** [generate_report()].  [chosen_path] is the answer of the save dialog
    (empty when cancelled), [today] the ISO date, [save] the writing of the
    document by [SimpleReport.save]. *)
Definition generate_report (save : SimpleReport -> string -> py unit)
                           (platform : system) (today : string)
                           (chosen_path : string) (self : t)
  : traced effect unit :=
  match selected_dataset self with
  | [] => lift (Returns tt)
  | dataset :: _ =>
      match cached_result self dataset with
      | None => lift (Returns tt)
      | Some data =>
          if String.eqb chosen_path "" then lift (Returns tt) else
          (* Create a simple report *)
          let report := mkReport "CT Analysis Report" today [] [] in
          (* Add summary text *)
          let summary_table := two_field_rows (summary_text data) in
          let report := add_table report "Analysis Results" summary_table in
          (* Add plots *)
          plot_images <-
            lift (QCTAnalysis.get_publishable_plots (ct_analysis_obj data)) ;;
          report <- lift (py_for (enumerate plot_images) report add_plot) ;;
          (* Save report *)
          lift (save report chosen_path) ;;;
          emit (saved report chosen_path) ;;;
          (* Open the report *)
          match platform with
          | Windows => raise (mkExn "NameError" "name 'os' is not defined" [])
          | Darwin => emit (opened "open" chosen_path)
          | OtherSystem => emit (opened "xdg-open" chosen_path)
          end
      end
  end.

End QCTAnalysisWorksheet.

(** ** The layout of the summary, block by block

    A second description of the summary rows, in the words of the
    specification: a header, then four blocks separated by blank rows, each
    block being empty when its group is absent.  [summarize] is compared with
    it below. *)

Local Open Scope py_scope.

Definition blank : row := [""; ""].

(** The rows of all the entries, in order. *)
Fixpoint collect {A} (f : A -> py (list row)) (xs : list A) : py (list row) :=
  match xs with
  | [] => Returns []
  | x :: rest =>
      r <- f x ;;
      rs <- collect f rest ;;
      Returns (r ++ rs)%list
  end.

Definition linearity_row (entry : pykey * pyval) : py (list row) :=
  if key_eqb (fst entry) (KStr "background") then Returns []
  else
    v <- getattr (snd entry) "value" ;;
    sv <- format_spec_f 2 v ;;
    n <- getattr (snd entry) "nominal" ;;
    sn <- format_spec_f 2 n ;;
    Returns [["  " ++ str_of_key (fst entry) ++ ":";
              sv ++ " HU (Expected: " ++ sn ++ " HU)"]].

Definition uniformity_row (entry : pykey * pyval) : py (list row) :=
  sv <- format_spec_f 2 (snd entry) ;;
  Returns [["  " ++ str_of_key (fst entry) ++ ":"; sv ++ " HU"]].

Definition mtf_row (entry : pykey * pyval) : py (list row) :=
  sv <- format_spec_f 2 (snd entry) ;;
  Returns [["  MTF " ++ str_of_key (fst entry) ++ "%:"; sv ++ " lp/mm"]].

Definition low_contrast_row (entry : Z * pyval) : py (list row) :=
  sv <- format_spec_f 4 (snd entry) ;;
  Returns [["  ROI " ++ str_of_int (fst entry + 1) ++ ":"; sv]].

(** The row of an aggregate value, when the results object has it. *)
Definition aggregate_row (data : pyval) (name label : string) (p : nat)
  : py (list row) :=
  if hasattr data name then
    v <- getattr data name ;;
    s <- format_spec_f p v ;;
    Returns [[label; s]]
  else Returns [].

Definition linearity_block (data : pyval) : py (list row) :=
  if hasattr data "hu_linearity" then
    d <- getattr data "hu_linearity" ;;
    items <- dict_items d ;;
    rows <- collect linearity_row items ;;
    Returns (["HU Linearity:"; ""] :: rows)
  else Returns [].

Definition uniformity_block (data : pyval) : py (list row) :=
  if hasattr data "uniformity" then
    d <- getattr data "uniformity" ;;
    items <- dict_items d ;;
    rows <- collect uniformity_row items ;;
    index <- aggregate_row data "uniformity_index" "Uniformity Index:" 2 ;;
    Returns (["HU Uniformity:"; ""] :: rows ++ index)%list
  else Returns [].

Definition mtf_block (data : pyval) : py (list row) :=
  if hasattr data "mtf" then
    d <- getattr data "mtf" ;;
    items <- dict_items d ;;
    rows <- collect mtf_row items ;;
    Returns (["Spatial Resolution:"; ""] :: rows)
  else Returns [].

Definition low_contrast_block (data : pyval) : py (list row) :=
  if hasattr data "low_contrast" then
    d <- getattr data "low_contrast" ;;
    values <- dict_values d ;;
    rows <- collect low_contrast_row (enumerate values) ;;
    visibility <- aggregate_row data "low_contrast_visibility"
                                "Low Contrast Visibility:" 4 ;;
    Returns (["Low Contrast:"; ""] :: rows ++ visibility)%list
  else Returns [].

Definition summary_layout (pt : phantom_type) (data : pyval) : py (list row) :=
  v <- phantom_type_value pt ;;
  lin <- linearity_block data ;;
  uni <- uniformity_block data ;;
  mtf <- mtf_block data ;;
  lc <- low_contrast_block data ;;
  Returns ([["Phantom Type:"; v]; blank] ++ lin ++ [blank] ++ uni ++ [blank]
           ++ mtf ++ [blank] ++ lc)%list.

(** ** Predicates of the statements *)

Definition is_progress (s : QCTAnalysisWorker.signal) : bool :=
  match s with QCTAnalysisWorker.analysis_progress _ => true | _ => false end.

Definition is_result (s : QCTAnalysisWorker.signal) : bool :=
  match s with QCTAnalysisWorker.analysis_results_ready _ => true | _ => false end.

Definition is_failure (s : QCTAnalysisWorker.signal) : bool :=
  match s with QCTAnalysisWorker.analysis_failed _ => true | _ => false end.

Definition is_finished (s : QCTAnalysisWorker.signal) : bool :=
  match s with QCTAnalysisWorker.thread_finished => true | _ => false end.

Definition count {A} (p : A -> bool) (xs : list A) : nat :=
  List.length (filter p xs).

(** The step of the pipeline that raises [e], if any. *)
Inductive pipeline_raises (lib : pylinac) (self : QCTAnalysisWorker.t) (e : exn)
  : Prop :=
| load_raises :
    from_zip lib (analyzer_class (QCTAnalysisWorker._phantom_type self))
                 (QCTAnalysisWorker._path self) = Raises e ->
    pipeline_raises lib self e
| analyze_raises ph :
    from_zip lib (analyzer_class (QCTAnalysisWorker._phantom_type self))
                 (QCTAnalysisWorker._path self) = Returns ph ->
    phantom_analyze lib ph = Raises e ->
    pipeline_raises lib self e
| results_data_raises ph ph' :
    from_zip lib (analyzer_class (QCTAnalysisWorker._phantom_type self))
                 (QCTAnalysisWorker._path self) = Returns ph ->
    phantom_analyze lib ph = Returns ph' ->
    results_data lib ph' = Raises e ->
    pipeline_raises lib self e
| summarize_raises ph ph' data :
    from_zip lib (analyzer_class (QCTAnalysisWorker._phantom_type self))
                 (QCTAnalysisWorker._path self) = Returns ph ->
    phantom_analyze lib ph = Returns ph' ->
    results_data lib ph' = Returns data ->
    summarize (QCTAnalysisWorker._phantom_type self) data = Raises e ->
    pipeline_raises lib self e.

(** The load, analyze and summarize steps of [analyze] without the signals:
    the result of the run, or the exception of the first step that raises. *)
Definition pipeline (lib : pylinac) (self : QCTAnalysisWorker.t) : py results :=
  py_bind (from_zip lib (analyzer_class (QCTAnalysisWorker._phantom_type self))
                        (QCTAnalysisWorker._path self)) (fun ph =>
  py_bind (phantom_analyze lib ph) (fun ph' =>
  py_bind (results_data lib ph') (fun data =>
  py_bind (summarize (QCTAnalysisWorker._phantom_type self) data) (fun rows =>
  Returns (mkResults rows (QCTAnalysis.mk ph')))))).

(** The text of the failure signal for an exception: the last string of its
    formatted representation, which is the "Class: message" string with the
    whole message when the exception has no notes, and the last line of the
    last note otherwise. *)
Definition failure_text (e : exn) : string :=
  match rev (exn_notes e) with
  | [] => final_exc_line e
  | note :: _ => last (split_on newline_char note) "" ++ newline
  end.

(** Whether a text has a line break inside. *)
Fixpoint has_newline (s : string) : bool :=
  match s with
  | EmptyString => false
  | String a rest => orb (Ascii.eqb a newline_char) (has_newline rest)
  end.

(** [line] is the last line of [text]: no line break inside, and what is in
    front of it in [text] is empty or ends with a line break. *)
Definition is_last_line_of (text line : string) : Prop :=
  has_newline line = false /\
  exists before,
    text = before ++ line /\
    (before = "" \/ exists b, before = b ++ newline).






(** [n] is the integer nearest to [num / den], and the even one of the two
    nearest when [num / den] is halfway between them. *)
Definition nearest_even (num den n : Z) : Prop :=
  (2 * Z.abs (n * den - num) <= den)%Z /\
  ((2 * Z.abs (n * den - num) = den)%Z -> Z.even n = true).






(** A row is a (label, value) pair. *)
Definition is_pair (r : row) : Prop := List.length r = 2%nat.

(** The label of a row. *)
Definition label (r : row) : string := nth 0 r "".

(** The labels of the rows: the fixed titles, the indented labels of the
    entries, and the label of an aggregate only when the results object has
    that aggregate. *)
Definition summary_label (data : pyval) (l : string) : Prop :=
  In l ["Phantom Type:"; ""; "HU Linearity:"; "HU Uniformity:";
        "Spatial Resolution:"; "Low Contrast:"] \/
  (exists s, l = "  " ++ s) \/
  (l = "Uniformity Index:" /\ hasattr data "uniformity_index" = true) \/
  (l = "Low Contrast Visibility:" /\
   hasattr data "low_contrast_visibility" = true).

(** A number that the rows can render: a float, a boolean, or an integer
    within the range of the floats. *)
Definition is_number (v : pyval) : bool :=
  match v with
  | PyFloat _ | PyBool _ => true
  | PyInt n => match float_of_Z n with S754_infinity _ => false | _ => true end
  | _ => false
  end.

(** Results objects whose present groups are complete: a present group is a
    dictionary, a linearity entry other than the background has numbers as
    [value] and [nominal], every other entry is a number, and a present
    aggregate next to its group is a number. *)
Definition linearity_entry_ok (entry : pykey * pyval) : bool :=
  orb (key_eqb (fst entry) (KStr "background"))
      (match getattr (snd entry) "value", getattr (snd entry) "nominal" with
       | Returns v, Returns n => andb (is_number v) (is_number n)
       | _, _ => false
       end).

Definition number_entry_ok {K} (entry : K * pyval) : bool :=
  is_number (snd entry).

Definition group_ok (data : pyval) (name : string)
                    (entry_ok : pykey * pyval -> bool) : bool :=
  match getattr data name with
  | Raises _ => true
  | Returns (PyDict items) => forallb entry_ok items
  | Returns _ => false
  end.

Definition aggregate_ok (data : pyval) (group name : string) : bool :=
  orb (negb (hasattr data group))
      (match getattr data name with
       | Raises _ => true
       | Returns v => is_number v
       end).

Definition complete_groups (data : pyval) : bool :=
  (group_ok data "hu_linearity" linearity_entry_ok
   && group_ok data "uniformity" number_entry_ok
   && aggregate_ok data "uniformity" "uniformity_index"
   && group_ok data "mtf" number_entry_ok
   && group_ok data "low_contrast" number_entry_ok
   && aggregate_ok data "low_contrast" "low_contrast_visibility")%bool.

(** ** Sample objects *)

Module Sample.

Definition f (neg : bool) (digits : positive) (k : nat) : pyval :=
  PyFloat (float_literal neg digits k).

(** A results object with the four groups and the two aggregates. *)
Definition data_full : pyval :=
  PyObj [("hu_linearity",
          PyDict [(KStr "Air", PyObj [("value", f true 9986 1);
                                      ("nominal", f true 1000 0)]);
                  (KStr "background", PyNone)]);
         ("uniformity", PyDict [(KStr "Top", f false 53 1)]);
         ("uniformity_index", f true 12 1);
         ("mtf", PyDict [(KInt 50, f false 43 2)]);
         ("low_contrast", PyDict [(KStr "15", f false 1234567 7)]);
         ("low_contrast_visibility", f false 3 0)].

(** A linearity entry without a nominal value. *)
Definition data_no_nominal : pyval :=
  PyObj [("hu_linearity",
          PyDict [(KStr "Air", PyObj [("value", f true 9986 1)])])].

(** A uniformity group without a uniformity index. *)
Definition data_no_index : pyval :=
  PyObj [("uniformity", PyDict [(KStr "Top", f false 53 1)])].

(** The results object of the external library as it is: none of the
    groups the summary looks for. *)
Definition data_empty : pyval := PyObj [("catphan_model", PyStr "504")].

Definition rois : pyval :=
  PyDict [(KStr "Top", PyObj [("pixel_value", f false 53 1)]);
          (KStr "Left", PyObj [("pixel_value", f false 48 1)])].

(** A source object with only the uniformity and MTF modules. *)
Definition phantom_uniformity_mtf : pyval :=
  PyObj [("ctp486", PyObj [("rois", rois); ("results_data", PyMethod)]);
         ("ctp528", PyObj [("mtf", PyObj [("mtf", PyNone); ("lp_mm", PyNone)]);
                           ("plot_mtf", PyMethod)])].

(** The same with the linearity module in front. *)
Definition phantom_with_linearity : pyval :=
  PyObj [("ctp404", PyObj [("plot_linearity", PyMethod)]);
         ("ctp486", PyObj [("rois", rois); ("results_data", PyMethod)]);
         ("ctp528", PyObj [("mtf", PyObj [("mtf", PyNone); ("lp_mm", PyNone)]);
                           ("plot_mtf", PyMethod)])].

(** A library whose analysis gives [data]. *)
Definition lib_giving (phantom data : pyval) : pylinac :=
  mkLib (fun _ _ => Returns phantom) (fun ph => Returns ph)
        (fun _ => Returns data).

Definition corrupt_archive : exn :=
  mkExn "zipfile.BadZipFile" "File is not a zip file" [].

(** An exception whose message has two lines. *)
Definition two_line_error : exn :=
  mkExn "ValueError" ("line one" ++ newline ++ "line two") [].

(** A library whose loader raises it. *)
Definition lib_two_line_error : pylinac :=
  mkLib (fun _ _ => Raises two_line_error) (fun ph => Returns ph)
        (fun _ => Returns data_empty).

(** A library that cannot load the archive. *)
Definition lib_load_fails : pylinac :=
  mkLib (fun _ _ => Raises corrupt_archive) (fun ph => Returns ph)
        (fun _ => Returns data_empty).

Definition worker : QCTAnalysisWorker.t :=
  QCTAnalysisWorker.mk "scan.zip" (Member CATPHAN_504).

Definition controls0 : QCTAnalysisWorksheet.controls :=
  QCTAnalysisWorksheet.mkControls "Analyze CT dataset" true true false false
                                  false false false.

(** A worksheet with one registered, selected dataset and no result. *)
Definition worksheet0 : QCTAnalysisWorksheet.t :=
  QCTAnalysisWorksheet.mk [QCTAnalysisWorksheet.mkItem "scan.zip" None]
                          [0%nat] [0%nat] false IDLE None [] [] [] controls0.

Definition save_ok (r : SimpleReport) (path : string) : py unit := Returns tt.

(** The rows of [data_full]. *)
Definition rows_full : list row :=
  match summarize (Member CATPHAN_504) data_full with
  | Returns rows => rows
  | Raises _ => []
  end.

Definition results_full : results :=
  mkResults rows_full (QCTAnalysis.mk phantom_with_linearity).

(** [worksheet0] after a successful run on its dataset. *)
Definition worksheet1 : QCTAnalysisWorksheet.t :=
  QCTAnalysisWorksheet.show_analysis_results worksheet0 results_full.

End Sample.

(** ** The modules of a phantom and their pages *)

Inductive module_kind : Type := Linearity | Uniformity | MTF | LowContrast.

(** The attribute of the phantom that holds a module. *)
Definition module_attr (k : module_kind) : string :=
  match k with
  | Linearity => "ctp404"
  | Uniformity => "ctp486"
  | MTF => "ctp528"
  | LowContrast => "ctp515"
  end.

(** The module a page of the report was drawn from. *)
Definition figure_module (f : figure) : module_kind :=
  match f with
  | linearity_figure => Linearity
  | uniformity_figure _ _ => Uniformity
  | mtf_figure => MTF
  | low_contrast_figure _ _ => LowContrast
  end.

(** The modules a phantom has, in the order the code visits them. *)
Definition present_modules (phantom : pyval) : list module_kind :=
  filter (fun k => hasattr phantom (module_attr k))
         [Linearity; Uniformity; MTF; LowContrast].

(** A region name that the linearity plot leaves out. *)
Definition is_background_or_air (entry : pykey * pyval) : bool :=
  orb (key_eqb (fst entry) (KStr "background")) (key_eqb (fst entry) (KStr "air")).

(** The row of the region at position [n] (from 1) of the low-contrast
    group. *)
Definition roi_row (entry : nat * spec_float) : row :=
  ["  ROI " ++ str_of_int (Z.of_nat (fst entry)) ++ ":"; format_f 4 (snd entry)].

(** A dictionary of floats. *)
Definition float_dict (items : list (pykey * spec_float)) : pyval :=
  PyDict (map (fun kv => (fst kv, PyFloat (snd kv))) items).

(** A summary row as the form shows it. *)
Definition form_row_of (r : row) : string * string := (nth 0 r "", nth 1 r "").

(** The names of the report images: "Plot 1", "Plot 2", ... *)
Definition plot_names_from (first n : nat) : list string :=
  map (fun k => "Plot " ++ str_of_int (Z.of_nat k)) (seq first n).

Definition plot_names (n : nat) : list string := plot_names_from 1 n.

(** The report that [generate_report] hands to [save]: the title, the date,
    one table with the two-field rows of the cached summary, and the pages of
    [get_publishable_plots] named "Plot 1", "Plot 2", ... in their order. *)
Definition exported_report (today : string) (data : results)
                           (plots : list figure) : SimpleReport :=
  mkReport "CT Analysis Report" today
           [("Analysis Results",
             QCTAnalysisWorksheet.two_field_rows (summary_text data))]
           (combine (plot_names (List.length plots)) plots).

(** ** The worksheet with its list, its selection and the start of a run *)

Module QCTAnalysisWorksheetView.

(** The check mark of a list item and whether the item is highlighted. *)
Record item_state : Type := mkState {
  checkState : bool;
  isSelected : bool
}.

(** The worksheet together with what the list and the configuration box
    show: [item_states] has one entry per item of [datasetListWidget], in
    the order of the list.  Item texts and icons are left out. *)
Record t : Type := mk {
  sheet : QCTAnalysisWorksheet.t;
  item_states : list item_state;
  phantomTypeCB : list string;
  phantomTypeCB_currentText : string;
  analysis_message_label_text : string
}.

(** The list items with their states. *)
Definition items (self : t) : list (nat * item_state) :=
  combine (QCTAnalysisWorksheet.datasetListWidget (sheet self))
          (item_states self).

(** [for phantom in PHANTOM] *)
Definition PHANTOM_members : list PHANTOM :=
  [CATPHAN_503; CATPHAN_504; CATPHAN_600; CATPHAN_604].

(** [setup_config()] *)
Definition setup_config (self : t) : t :=
  mk (sheet self) (item_states self)
     (map PHANTOM_value PHANTOM_members)
     (PHANTOM_value CATPHAN_504)
     (analysis_message_label_text self).

Definition with_analyzeBtn_enabled (w : QCTAnalysisWorksheet.controls)
                                   (enabled : bool)
  : QCTAnalysisWorksheet.controls :=
  QCTAnalysisWorksheet.mkControls
    (QCTAnalysisWorksheet.analyzeBtn_text w) enabled
    (QCTAnalysisWorksheet.addDatasetBtn_enabled w)
    (QCTAnalysisWorksheet.advancedViewBtn_enabled w)
    (QCTAnalysisWorksheet.genReportBtn_enabled w)
    (QCTAnalysisWorksheet.analysis_progress_bar_shown w)
    (QCTAnalysisWorksheet.analysis_message_label_shown w)
    (QCTAnalysisWorksheet.outcomeFrame_shown w).

(** [update_selected_dataset()] *)
Definition update_selected_dataset (self : t) : t :=
  let s := sheet self in
  let selected_dataset :=
    map fst (filter (fun item => checkState (snd item)) (items self)) in
  let enabled :=
    andb (0 <? List.length selected_dataset)%nat
         (negb (QCTAnalysisWorksheet.analysis_in_progress s)) in
  mk (QCTAnalysisWorksheet.mk
        (QCTAnalysisWorksheet.objects s)
        (QCTAnalysisWorksheet.datasetListWidget s)
        selected_dataset
        (QCTAnalysisWorksheet.analysis_in_progress s)
        (QCTAnalysisWorksheet.analysis_state s)
        (QCTAnalysisWorksheet.analysis_message s)
        (QCTAnalysisWorksheet.form_layout s)
        (QCTAnalysisWorksheet.analysis_info_signal s)
        (QCTAnalysisWorksheet.error_dialogs s)
        (with_analyzeBtn_enabled (QCTAnalysisWorksheet.widgets s) enabled))
     (item_states self) (phantomTypeCB self)
     (phantomTypeCB_currentText self) (analysis_message_label_text self).

(** The worksheet with another list: objects, items and their states. *)
Definition with_list (self : t) (objs : list QCTAnalysisWorksheet.itemData)
                     (refs : list nat) (states : list item_state) : t :=
  let s := sheet self in
  mk (QCTAnalysisWorksheet.mk
        objs refs
        (QCTAnalysisWorksheet.selected_dataset s)
        (QCTAnalysisWorksheet.analysis_in_progress s)
        (QCTAnalysisWorksheet.analysis_state s)
        (QCTAnalysisWorksheet.analysis_message s)
        (QCTAnalysisWorksheet.form_layout s)
        (QCTAnalysisWorksheet.analysis_info_signal s)
        (QCTAnalysisWorksheet.error_dialogs s)
        (QCTAnalysisWorksheet.widgets s))
     states (phantomTypeCB self)
     (phantomTypeCB_currentText self) (analysis_message_label_text self).

(** [add_dataset()].  [file_path] is the answer of the file dialog (empty
    when cancelled) and [str_of_path] is [str(Path(file_path))]. *)
Definition add_dataset (str_of_path : string -> string) (file_path : string)
                       (self : t) : t :=
  if String.eqb file_path "" then self else
  let s := sheet self in
  let itemData := QCTAnalysisWorksheet.mkItem (str_of_path file_path) None in
  let ref := List.length (QCTAnalysisWorksheet.objects s) in
  update_selected_dataset
    (with_list self
       (QCTAnalysisWorksheet.objects s ++ [itemData])%list
       (QCTAnalysisWorksheet.datasetListWidget s ++ [ref])%list
       (item_states self ++ [mkState false false])%list).

(** [remove_file()]: the highlighted items are taken out of the list. *)
Definition remove_file (self : t) : t :=
  let kept := filter (fun item => negb (isSelected (snd item))) (items self) in
  update_selected_dataset
    (with_list self (QCTAnalysisWorksheet.objects (sheet self))
               (map fst kept) (map snd kept)).

(** [perform_selection(select_type)] *)
Definition perform_selection (select_type : string) (self : t) : t :=
  let check (st : item_state) :=
    if String.eqb select_type "selectAll"
    then mkState true (isSelected st)
    else mkState false (isSelected st) in
  update_selected_dataset
    (mk (sheet self) (map check (item_states self)) (phantomTypeCB self)
        (phantomTypeCB_currentText self) (analysis_message_label_text self)).

(** The loop of [start_analysis] over [PHANTOM]: the member whose value is
    the text of the configuration box, the CatPhan 504 when there is
    none. *)
Definition phantom_of_text (currentText : string) : PHANTOM :=
  match find (fun phantom => String.eqb (PHANTOM_value phantom) currentText)
             PHANTOM_members with
  | Some phantom => phantom
  | None => CATPHAN_504
  end.

(** [start_analysis()]: the worksheet when it returns, and the worker it
    has started, if any. *)
Definition start_analysis (self : t) : t * option QCTAnalysisWorker.t :=
  let s := sheet self in
  let started :=
    mk (QCTAnalysisWorksheet.mk
          (QCTAnalysisWorksheet.objects s)
          (QCTAnalysisWorksheet.datasetListWidget s)
          (QCTAnalysisWorksheet.selected_dataset s)
          true
          IN_PROGRESS
          None
          []
          (QCTAnalysisWorksheet.analysis_info_signal s
           ++ [(IN_PROGRESS, None)])%list
          (QCTAnalysisWorksheet.error_dialogs s)
          (QCTAnalysisWorksheet.mkControls
             "Analysis in progress..." false false false false true true
             (QCTAnalysisWorksheet.outcomeFrame_shown
                (QCTAnalysisWorksheet.widgets s))))
       (item_states self) (phantomTypeCB self)
       (phantomTypeCB_currentText self) "Analysis in progress" in
  (* Get the selected dataset *)
  match QCTAnalysisWorksheet.selected_dataset s with
  | [] => (started, None)
  | dataset :: _ =>
      match QCTAnalysisWorksheet.file_path_of (QCTAnalysisWorksheet.objects s)
                                              dataset with
      | None => (started, None)
      | Some file_path =>
          (* Get phantom type *)
          let phantom_type := phantom_of_text (phantomTypeCB_currentText self) in
          (started, Some (QCTAnalysisWorker.mk file_path (Member phantom_type)))
      end
  end.

(** [update_analysis_progress(message)] *)
Definition update_analysis_progress (message : string) (self : t) : t :=
  mk (sheet self) (item_states self) (phantomTypeCB self)
     (phantomTypeCB_currentText self) message.

Definition with_sheet (self : t) (s : QCTAnalysisWorksheet.t) : t :=
  mk s (item_states self) (phantomTypeCB self)
     (phantomTypeCB_currentText self) (analysis_message_label_text self).

(** The slots that [start_analysis] connects to the signals of the worker;
    [thread_finished] goes to the thread, not to the worksheet. *)
Definition deliver (self : t) (s : QCTAnalysisWorker.signal) : t :=
  match s with
  | QCTAnalysisWorker.analysis_progress message =>
      update_analysis_progress message self
  | QCTAnalysisWorker.analysis_results_ready r =>
      with_sheet self (QCTAnalysisWorksheet.show_analysis_results (sheet self) r)
  | QCTAnalysisWorker.analysis_failed error_message =>
      with_sheet self
        (QCTAnalysisWorksheet.analysis_failed (sheet self) error_message)
  | QCTAnalysisWorker.thread_finished => self
  end.

(** The signals of a run, delivered in the order of their emission. *)
Definition deliver_all (self : t) (signals : list QCTAnalysisWorker.signal) : t :=
  fold_left deliver signals self.

(** One entry of [item_states] per list item, and every list item and every
    selected dataset refers to a dataset object. *)
Definition consistent (self : t) : Prop :=
  List.length (item_states self)
  = List.length (QCTAnalysisWorksheet.datasetListWidget (sheet self)) /\
  Forall (fun ref => (ref < List.length (QCTAnalysisWorksheet.objects
                                           (sheet self)))%nat)
         (QCTAnalysisWorksheet.datasetListWidget (sheet self)) /\
  Forall (fun ref => (ref < List.length (QCTAnalysisWorksheet.objects
                                           (sheet self)))%nat)
         (QCTAnalysisWorksheet.selected_dataset (sheet self)).

End QCTAnalysisWorksheetView.

(** What the user does with the list between two signals. *)
Inductive list_action : Type :=
| act_add_dataset (str_of_path : string -> string) (file_path : string)
| act_remove_file
| act_perform_selection (select_type : string)
| act_item_clicked.

Definition perform (self : QCTAnalysisWorksheetView.t) (a : list_action)
  : QCTAnalysisWorksheetView.t :=
  match a with
  | act_add_dataset str_of_path file_path =>
      QCTAnalysisWorksheetView.add_dataset str_of_path file_path self
  | act_remove_file => QCTAnalysisWorksheetView.remove_file self
  | act_perform_selection select_type =>
      QCTAnalysisWorksheetView.perform_selection select_type self
  | act_item_clicked => QCTAnalysisWorksheetView.update_selected_dataset self
  end.

Module SampleView.

(** Two registered datasets, the second one checked and selected. *)
Definition sheet2 : QCTAnalysisWorksheet.t :=
  QCTAnalysisWorksheet.mk
    [QCTAnalysisWorksheet.mkItem "a.zip" None;
     QCTAnalysisWorksheet.mkItem "b.zip" None]
    [0%nat; 1%nat] [1%nat] false IDLE None [] [] [] Sample.controls0.

Definition view2 : QCTAnalysisWorksheetView.t :=
  QCTAnalysisWorksheetView.setup_config
    (QCTAnalysisWorksheetView.mk
       sheet2
       [QCTAnalysisWorksheetView.mkState false true;
        QCTAnalysisWorksheetView.mkState true false]
       [] "" "").

(** A worksheet with nothing registered. *)
Definition view0 : QCTAnalysisWorksheetView.t :=
  QCTAnalysisWorksheetView.setup_config
    (QCTAnalysisWorksheetView.mk
       (QCTAnalysisWorksheet.mk [] [] [] false IDLE None [] [] []
                                Sample.controls0)
       [] [] "" "").

End SampleView.

(** * Properties *)

(** ** The layout of the summary *)

Lemma py_for_collect {A} (step : A -> list row -> py (list row))
      (f : A -> py (list row)) :
  (forall x acc, step x acc = (r <- f x ;; Returns (acc ++ r)%list)) ->
  forall xs acc,
    py_for xs acc step = (rs <- collect f xs ;; Returns (acc ++ rs)%list).
Proof.
  intros Hstep xs. induction xs as [|x xs IH]; intros acc; simpl.
  - now rewrite app_nil_r.
  - rewrite Hstep. destruct (f x) as [r|e]; simpl; [|reflexivity].
    rewrite IH. destruct (collect f xs) as [rs|e]; simpl; [|reflexivity].
    now rewrite app_assoc.
Qed.

Lemma linearity_step_row entry acc :
  linearity_step entry acc = (r <- linearity_row entry ;; Returns (acc ++ r)%list).
Proof.
  destruct entry as [material values]. unfold linearity_step, linearity_row. simpl.
  destruct (key_eqb material (KStr "background")); simpl.
  - now rewrite app_nil_r.
  - destruct (getattr values "value") as [v|]; simpl; [|reflexivity].
    destruct (format_spec_f 2 v); simpl; [|reflexivity].
    destruct (getattr values "nominal") as [n|]; simpl; [|reflexivity].
    destruct (format_spec_f 2 n); reflexivity.
Qed.

Lemma uniformity_step_row entry acc :
  uniformity_step entry acc = (r <- uniformity_row entry ;; Returns (acc ++ r)%list).
Proof.
  destruct entry as [k v]. unfold uniformity_step, uniformity_row. simpl.
  destruct (format_spec_f 2 v); reflexivity.
Qed.

Lemma mtf_step_row entry acc :
  mtf_step entry acc = (r <- mtf_row entry ;; Returns (acc ++ r)%list).
Proof.
  destruct entry as [k v]. unfold mtf_step, mtf_row. simpl.
  destruct (format_spec_f 2 v); reflexivity.
Qed.

Lemma low_contrast_step_row entry acc :
  low_contrast_step entry acc
  = (r <- low_contrast_row entry ;; Returns (acc ++ r)%list).
Proof.
  destruct entry as [i v]. unfold low_contrast_step, low_contrast_row. simpl.
  destruct (format_spec_f 4 v); reflexivity.
Qed.

Ltac py_case m := destruct m; simpl; try reflexivity.

Lemma linearity_stage data acc :
  (if hasattr data "hu_linearity" then
     d <- getattr data "hu_linearity" ;;
     items <- dict_items d ;;
     py_for items (append acc ["HU Linearity:"; ""]) linearity_step
   else Returns acc)
  = (b <- linearity_block data ;; Returns (acc ++ b)%list).
Proof.
  unfold linearity_block, append.
  destruct (hasattr data "hu_linearity"); simpl; [|now rewrite app_nil_r].
  py_case (getattr data "hu_linearity"). py_case (dict_items a).
  rewrite (py_for_collect _ _ linearity_step_row).
  py_case (collect linearity_row a0). now rewrite <- app_assoc.
Qed.

Lemma uniformity_stage data acc :
  (if hasattr data "uniformity" then
     d <- getattr data "uniformity" ;;
     items <- dict_items d ;;
     summary_text <- py_for items (append acc ["HU Uniformity:"; ""])
                            uniformity_step ;;
     if hasattr data "uniformity_index" then
       u <- getattr data "uniformity_index" ;;
       su <- format_spec_f 2 u ;;
       Returns (append summary_text ["Uniformity Index:"; su])
     else Returns summary_text
   else Returns acc)
  = (b <- uniformity_block data ;; Returns (acc ++ b)%list).
Proof.
  unfold uniformity_block, aggregate_row, append.
  destruct (hasattr data "uniformity"); simpl; [|now rewrite app_nil_r].
  py_case (getattr data "uniformity"). py_case (dict_items a).
  rewrite (py_for_collect _ _ uniformity_step_row).
  py_case (collect uniformity_row a0).
  destruct (hasattr data "uniformity_index"); simpl.
  - py_case (getattr data "uniformity_index"). py_case (format_spec_f 2 a2).
    now rewrite <- !app_assoc.
  - now rewrite app_nil_r, <- app_assoc.
Qed.

Lemma mtf_stage data acc :
  (if hasattr data "mtf" then
     d <- getattr data "mtf" ;;
     items <- dict_items d ;;
     py_for items (append acc ["Spatial Resolution:"; ""]) mtf_step
   else Returns acc)
  = (b <- mtf_block data ;; Returns (acc ++ b)%list).
Proof.
  unfold mtf_block, append.
  destruct (hasattr data "mtf"); simpl; [|now rewrite app_nil_r].
  py_case (getattr data "mtf"). py_case (dict_items a).
  rewrite (py_for_collect _ _ mtf_step_row).
  py_case (collect mtf_row a0). now rewrite <- app_assoc.
Qed.

Lemma low_contrast_stage data acc :
  (if hasattr data "low_contrast" then
     d <- getattr data "low_contrast" ;;
     values <- dict_values d ;;
     summary_text <- py_for (enumerate values) (append acc ["Low Contrast:"; ""])
                            low_contrast_step ;;
     if hasattr data "low_contrast_visibility" then
       c <- getattr data "low_contrast_visibility" ;;
       sc <- format_spec_f 4 c ;;
       Returns (append summary_text ["Low Contrast Visibility:"; sc])
     else Returns summary_text
   else Returns acc)
  = (b <- low_contrast_block data ;; Returns (acc ++ b)%list).
Proof.
  unfold low_contrast_block, aggregate_row, append.
  destruct (hasattr data "low_contrast"); simpl; [|now rewrite app_nil_r].
  py_case (getattr data "low_contrast"). py_case (dict_values a).
  rewrite (py_for_collect _ _ low_contrast_step_row).
  py_case (collect low_contrast_row (enumerate a0)).
  destruct (hasattr data "low_contrast_visibility"); simpl.
  - py_case (getattr data "low_contrast_visibility").
    py_case (format_spec_f 4 a2). now rewrite <- !app_assoc.
  - now rewrite app_nil_r, <- app_assoc.
Qed.

(** [summarize] builds exactly the rows of [summary_layout], and raises
    exactly when a block of the layout raises. *)
Lemma summarize_layout pt data : summarize pt data = summary_layout pt data.
Proof.
  unfold summarize, summary_layout.
  py_case (phantom_type_value pt).
  rewrite linearity_stage. py_case (linearity_block data).
  rewrite uniformity_stage. py_case (uniformity_block data).
  rewrite mtf_stage. py_case (mtf_block data).
  rewrite low_contrast_stage. py_case (low_contrast_block data).
  unfold append, blank. simpl. now rewrite <- !app_assoc.
Qed.

(** ** The emission protocol of the worker *)

Lemma split_on_pieces (c : ascii) (s : string) : split_on c s <> [].
Proof.
  destruct s as [|a rest]; simpl; [discriminate|].
  destruct (Ascii.eqb a c); [discriminate|].
  destruct (split_on c rest); discriminate.
Qed.

Lemma string_app_assoc (a b c : string) : (a ++ b) ++ c = a ++ (b ++ c).
Proof. induction a as [|x a IH]; simpl; [reflexivity|now rewrite IH]. Qed.

(** The pieces of a text split at its line breaks: either the text is its
    only piece and has no line break, or the last piece has no line break
    and follows a line break of the text. *)
Lemma split_on_last (s : string) :
  (split_on newline_char s = [s] /\ has_newline s = false) \/
  (tl (split_on newline_char s) <> [] /\
   has_newline (last (split_on newline_char s) "") = false /\
   exists b, s = b ++ newline ++ last (split_on newline_char s) "").
Proof.
  induction s as [|a rest IH]; [left; split; reflexivity|].
  cbn [split_on has_newline].
  destruct (Ascii.eqb a newline_char) eqn:Ea.
  - apply Ascii.eqb_eq in Ea. subst a. right.
    pose proof (split_on_pieces newline_char rest) as Hne.
    split; [exact Hne|].
    destruct IH as [[Hl Hn]|(Ht & Hn & b & Hb)].
    + rewrite Hl. simpl. split; [exact Hn|]. exists "". reflexivity.
    + destruct (split_on newline_char rest) as [|p ps] eqn:E; [contradiction|].
      change (last ("" :: p :: ps) "") with (last (p :: ps) "").
      split; [exact Hn|].
      exists (String newline_char b). rewrite Hb at 1. reflexivity.
  - destruct IH as [[Hl Hn]|(Ht & Hn & b & Hb)].
    + left. rewrite Hl. simpl. split; [reflexivity|exact Hn].
    + right. destruct (split_on newline_char rest) as [|p ps] eqn:E;
        [contradiction|].
      simpl in Ht. destruct ps as [|q qs]; [contradiction|].
      change (last (String a p :: q :: qs) "") with (last (p :: q :: qs) "").
      split; [discriminate|]. split; [exact Hn|].
      exists (String a b). rewrite Hb at 1. reflexivity.
Qed.

Lemma split_on_last_line (note : string) :
  is_last_line_of note (last (split_on newline_char note) "").
Proof.
  destruct (split_on_last note) as [[Hl Hn]|(_ & Hn & b & Hb)].
  - rewrite Hl. simpl. split; [exact Hn|]. exists "". split; [reflexivity|].
    now left.
  - split; [exact Hn|]. exists (b ++ newline). split.
    + now rewrite string_app_assoc.
    + right. now exists b.
Qed.

Lemma index_last_cons {A} (x : A) (xs : list A) (d : A) :
  index_last (x :: xs) = Returns (last (x :: xs) d).
Proof.
  unfold index_last.
  destruct (exists_last (l := x :: xs)) as [l' [y ->]]; [discriminate|].
  rewrite rev_app_distr, last_last. reflexivity.
Qed.

Lemma last_note_lines (note : string) (d : string) :
  last (note_lines note) d = last (split_on newline_char note) "" ++ newline.
Proof.
  unfold note_lines.
  destruct (exists_last (split_on_pieces newline_char note)) as [l [piece ->]].
  rewrite map_app. cbn [map]. rewrite !last_last. reflexivity.
Qed.

(** [format_exception_only(err)[-1]] is the text of the failure signal. *)
Lemma index_last_format_exception_only e :
  index_last (format_exception_only e) = Returns (failure_text e).
Proof.
  unfold format_exception_only, failure_text.
  rewrite (index_last_cons _ _ "").
  destruct (exn_notes e) as [|n ns] eqn:E using rev_ind; [reflexivity|].
  rewrite rev_app_distr. simpl rev. cbn [app].
  rewrite flat_map_app. simpl flat_map. rewrite app_nil_r.
  f_equal.
  assert (note_lines n <> []) as Hne.
  { unfold note_lines. intros H. apply map_eq_nil in H.
    now apply (split_on_pieces newline_char n). }
  destruct (exists_last Hne) as [l [y Hy]]. rewrite Hy.
  rewrite app_assoc, app_comm_cons, last_last.
  rewrite <- (last_note_lines n ""), Hy, last_last. reflexivity.
Qed.

(** The handler of [analyze]: a failure signal with the text of the
    exception, the terminal signal, and the exception raised again. *)
Lemma run_cases lib self :
  let load := from_zip lib (analyzer_class (QCTAnalysisWorker._phantom_type self))
                           (QCTAnalysisWorker._path self) in
  let loading := QCTAnalysisWorker.analysis_progress "Loading CT dataset..." in
  let analyzing := QCTAnalysisWorker.analysis_progress "Analyzing CT dataset..." in
  let failed e := [QCTAnalysisWorker.analysis_failed (failure_text e);
                   QCTAnalysisWorker.thread_finished] in
  QCTAnalysisWorker.run lib self =
  match load with
  | Raises e => (loading :: failed e, Raises e)
  | Returns ph =>
      match phantom_analyze lib ph with
      | Raises e => (loading :: analyzing :: failed e, Raises e)
      | Returns ph' =>
          match results_data lib ph' with
          | Raises e => (loading :: analyzing :: failed e, Raises e)
          | Returns data =>
              match summarize (QCTAnalysisWorker._phantom_type self) data with
              | Raises e => (loading :: analyzing :: failed e, Raises e)
              | Returns rows =>
                  ([loading; analyzing;
                    QCTAnalysisWorker.analysis_results_ready
                      (mkResults rows (QCTAnalysis.mk ph'));
                    QCTAnalysisWorker.thread_finished], Returns tt)
              end
          end
      end
  end.
Proof.
  cbv zeta.
  unfold QCTAnalysisWorker.run, QCTAnalysisWorker.analyze, try_except,
    traced_bind, emit, lift, raise.
  simpl.
  destruct (from_zip lib _ _) as [ph|e]; simpl.
  2: { rewrite index_last_format_exception_only. reflexivity. }
  destruct (phantom_analyze lib ph) as [ph'|e]; simpl.
  2: { rewrite index_last_format_exception_only. reflexivity. }
  destruct (results_data lib ph') as [data|e]; simpl.
  2: { rewrite index_last_format_exception_only. reflexivity. }
  destruct (summarize _ data) as [rows|e]; simpl.
  2: { rewrite index_last_format_exception_only. reflexivity. }
  reflexivity.
Qed.

(** C1: every run of [analyze] emits progress signals only, then exactly one
    of the result signal and the failure signal, then exactly one terminal
    [thread_finished].  When the load, analyze and summarize steps all
    return, the one signal is the result they give, [analyze] returns and
    there is no failure signal; when one of them raises, the one signal is
    the failure with the text of that exception, [analyze] raises it again
    and there is no result signal. *)
Theorem analyze_emits_one_outcome_then_finished lib self :
  exists progress outcome,
    fst (QCTAnalysisWorker.run lib self)
    = (progress ++ [outcome; QCTAnalysisWorker.thread_finished])%list /\
    forallb is_progress progress = true /\
    count is_result (fst (QCTAnalysisWorker.run lib self))
    + count is_failure (fst (QCTAnalysisWorker.run lib self)) = 1%nat /\
    count is_finished (fst (QCTAnalysisWorker.run lib self)) = 1%nat /\
    match pipeline lib self with
    | Returns r =>
        outcome = QCTAnalysisWorker.analysis_results_ready r /\
        snd (QCTAnalysisWorker.run lib self) = Returns tt /\
        count is_failure (fst (QCTAnalysisWorker.run lib self)) = 0%nat
    | Raises e =>
        outcome = QCTAnalysisWorker.analysis_failed (failure_text e) /\
        snd (QCTAnalysisWorker.run lib self) = Raises e /\
        count is_result (fst (QCTAnalysisWorker.run lib self)) = 0%nat
    end.
Proof.
  rewrite run_cases. cbv zeta. unfold pipeline.
  destruct (from_zip lib _ _) as [ph|e]; simpl.
  2: { exists [QCTAnalysisWorker.analysis_progress "Loading CT dataset..."].
       eexists. simpl. repeat split; reflexivity. }
  destruct (phantom_analyze lib ph) as [ph'|e]; simpl.
  2: { exists [QCTAnalysisWorker.analysis_progress "Loading CT dataset...";
               QCTAnalysisWorker.analysis_progress "Analyzing CT dataset..."].
       eexists. simpl. repeat split; reflexivity. }
  destruct (results_data lib ph') as [data|e]; simpl.
  2: { exists [QCTAnalysisWorker.analysis_progress "Loading CT dataset...";
               QCTAnalysisWorker.analysis_progress "Analyzing CT dataset..."].
       eexists. simpl. repeat split; reflexivity. }
  destruct (summarize _ data) as [rows|e]; simpl.
  2: { exists [QCTAnalysisWorker.analysis_progress "Loading CT dataset...";
               QCTAnalysisWorker.analysis_progress "Analyzing CT dataset..."].
       eexists. simpl. repeat split; reflexivity. }
  exists [QCTAnalysisWorker.analysis_progress "Loading CT dataset...";
          QCTAnalysisWorker.analysis_progress "Analyzing CT dataset..."].
  eexists. simpl. repeat split; reflexivity.
Qed.

(** C6, as stated, fails: for an exception whose message has two lines the
    failure signal carries both lines, not only the last one. *)
Lemma failure_text_two_lines_counterexample :
  QCTAnalysisWorker.run Sample.lib_two_line_error Sample.worker
  = ([QCTAnalysisWorker.analysis_progress "Loading CT dataset...";
      QCTAnalysisWorker.analysis_failed
        ("ValueError: line one" ++ newline ++ "line two" ++ newline);
      QCTAnalysisWorker.thread_finished],
     Raises Sample.two_line_error) /\
  is_last_line_of ("ValueError: line one" ++ newline ++ "line two") "line two" /\
  "ValueError: line one" ++ newline ++ "line two" ++ newline
  <> "line two" ++ newline.
Proof.
  split; [vm_compute; reflexivity|]. split; [|discriminate].
  split; [reflexivity|]. exists ("ValueError: line one" ++ newline).
  split; [reflexivity|]. right. now exists "ValueError: line one".
Qed.

(** C6, amended: when a step of the load, analyze, summarize pipeline raises
    [e], the run emits progress signals, then one failure signal, then
    [thread_finished]; no result signal and no summary row leaves the
    worker, and [analyze] raises [e] again.  The failure signal carries the
    last string of the formatted exception: without notes the whole
    "Class: message" text (only "Class" for an empty message) and a line
    break, with notes the last line of the last note and a line break. *)
Theorem failure_carries_last_formatted_string lib self e :
  pipeline_raises lib self e ->
  exists progress,
    QCTAnalysisWorker.run lib self
    = ((progress ++ [QCTAnalysisWorker.analysis_failed (failure_text e);
                     QCTAnalysisWorker.thread_finished])%list, Raises e) /\
    forallb is_progress progress = true /\
    count is_result (fst (QCTAnalysisWorker.run lib self)) = 0%nat /\
    count is_failure (fst (QCTAnalysisWorker.run lib self)) = 1%nat /\
    index_last (format_exception_only e) = Returns (failure_text e) /\
    (exn_notes e = [] -> exn_message e <> "" ->
     failure_text e = exn_class e ++ ": " ++ exn_message e ++ newline) /\
    (exn_notes e = [] -> exn_message e = "" ->
     failure_text e = exn_class e ++ newline) /\
    (forall notes note, exn_notes e = (notes ++ [note])%list ->
       exists line,
         failure_text e = line ++ newline /\ is_last_line_of note line).
Proof.
  intros H.
  assert ((exn_notes e = [] -> exn_message e <> "" ->
           failure_text e = exn_class e ++ ": " ++ exn_message e ++ newline) /\
          (exn_notes e = [] -> exn_message e = "" ->
           failure_text e = exn_class e ++ newline) /\
          (forall notes note, exn_notes e = (notes ++ [note])%list ->
             exists line,
               failure_text e = line ++ newline /\ is_last_line_of note line))
    as Htext.
  { unfold failure_text, final_exc_line. split; [|split].
    - intros -> Hm. apply String.eqb_neq in Hm. now rewrite Hm.
    - intros -> ->. reflexivity.
    - intros notes note ->. rewrite rev_app_distr. simpl.
      eexists. split; [reflexivity|apply split_on_last_line]. }
  rewrite run_cases. cbv zeta.
  destruct H as [H1|ph H1 H2|ph ph' H1 H2 H3|ph ph' data H1 H2 H3 H4];
    rewrite H1; try rewrite H2; try rewrite H3; try rewrite H4.
  - exists [QCTAnalysisWorker.analysis_progress "Loading CT dataset..."].
    simpl. repeat split; try reflexivity; try apply Htext.
    apply index_last_format_exception_only.
  - exists [QCTAnalysisWorker.analysis_progress "Loading CT dataset...";
            QCTAnalysisWorker.analysis_progress "Analyzing CT dataset..."].
    simpl. repeat split; try reflexivity; try apply Htext.
    apply index_last_format_exception_only.
  - exists [QCTAnalysisWorker.analysis_progress "Loading CT dataset...";
            QCTAnalysisWorker.analysis_progress "Analyzing CT dataset..."].
    simpl. repeat split; try reflexivity; try apply Htext.
    apply index_last_format_exception_only.
  - exists [QCTAnalysisWorker.analysis_progress "Loading CT dataset...";
            QCTAnalysisWorker.analysis_progress "Analyzing CT dataset..."].
    simpl. repeat split; try reflexivity; try apply Htext.
    apply index_last_format_exception_only.
Qed.

Lemma failure_carries_last_formatted_string_witness :
  exists progress,
    QCTAnalysisWorker.run Sample.lib_load_fails Sample.worker
    = ((progress ++ [QCTAnalysisWorker.analysis_failed
                       (failure_text Sample.corrupt_archive);
                     QCTAnalysisWorker.thread_finished])%list,
       Raises Sample.corrupt_archive) /\
    forallb is_progress progress = true /\
    count is_result (fst (QCTAnalysisWorker.run Sample.lib_load_fails Sample.worker))
    = 0%nat /\
    count is_failure (fst (QCTAnalysisWorker.run Sample.lib_load_fails Sample.worker))
    = 1%nat /\
    index_last (format_exception_only Sample.corrupt_archive)
    = Returns (failure_text Sample.corrupt_archive) /\
    (exn_notes Sample.corrupt_archive = [] ->
     exn_message Sample.corrupt_archive <> "" ->
     failure_text Sample.corrupt_archive
     = exn_class Sample.corrupt_archive ++ ": "
       ++ exn_message Sample.corrupt_archive ++ newline) /\
    (exn_notes Sample.corrupt_archive = [] ->
     exn_message Sample.corrupt_archive = "" ->
     failure_text Sample.corrupt_archive
     = exn_class Sample.corrupt_archive ++ newline) /\
    (forall notes note,
       exn_notes Sample.corrupt_archive = (notes ++ [note])%list ->
       exists line,
         failure_text Sample.corrupt_archive = line ++ newline /\
         is_last_line_of note line).
Proof.
  apply (failure_carries_last_formatted_string
           Sample.lib_load_fails Sample.worker Sample.corrupt_archive).
  apply load_raises. reflexivity.
Defined.

(** ** The phantom registry *)

(** C2, as stated, fails: a value outside the enumeration does not make the
    resolution fail with [UnsupportedPhantom]; it resolves to the analyzer
    of the CatPhan 504. *)
Lemma resolve_outside_enumeration_counterexample :
  resolve (NonMember None) = Returns CatPhan504 /\
  ~ (exists msg, resolve (NonMember None) = Raises (UnsupportedPhantom msg)).
Proof.
  split; [reflexivity|]. intros [msg H]. discriminate H.
Qed.

(** C2, amended: the four phantom kinds resolve to four distinct analyzer
    classes, and every value outside the enumeration resolves to the
    analyzer class of the CatPhan 504, the one the worker then loads the
    archive with. *)
Theorem resolve_members_distinct_others_default :
  resolve (Member CATPHAN_503) = Returns CatPhan503 /\
  resolve (Member CATPHAN_504) = Returns CatPhan504 /\
  resolve (Member CATPHAN_600) = Returns CatPhan600 /\
  resolve (Member CATPHAN_604) = Returns CatPhan604 /\
  NoDup (map analyzer_class [Member CATPHAN_503; Member CATPHAN_504;
                             Member CATPHAN_600; Member CATPHAN_604]) /\
  (forall v, resolve (NonMember v) = Returns CatPhan504) /\
  (forall v, analyzer_class (NonMember v) = analyzer_class (Member CATPHAN_504)).
Proof.
  repeat split; try reflexivity.
  simpl. repeat constructor; simpl; intuition discriminate.
Qed.

(** ** The plots of an analysed phantom *)

(** C3: on a source object without the linearity module ([ctp404]) and with
    the uniformity module ([ctp486]), [get_publishable_plots] returns no
    images: the name [plt], bound only in the linearity branch, is unbound
    where the uniformity branch uses it. *)
Theorem get_publishable_plots_unbound_plt (phantom : pyval) :
  hasattr phantom "ctp404" = false ->
  hasattr phantom "ctp486" = true ->
  QCTAnalysis.get_publishable_plots (QCTAnalysis.mk phantom)
  = Raises (UnboundLocalError
      "cannot access local variable 'plt' where it is not associated with a value").
Proof.
  intros H404 H486. unfold QCTAnalysis.get_publishable_plots. simpl.
  rewrite H404, H486. reflexivity.
Qed.

Lemma get_publishable_plots_unbound_plt_witness :
  QCTAnalysis.get_publishable_plots (QCTAnalysis.mk Sample.phantom_uniformity_mtf)
  = Raises (UnboundLocalError
      "cannot access local variable 'plt' where it is not associated with a value").
Proof.
  apply (get_publishable_plots_unbound_plt Sample.phantom_uniformity_mtf);
    reflexivity.
Defined.

(** With the linearity module in front the same modules give their images,
    in module order, and the interactive grid of the two-module source has
    the uniformity and the MTF plots populated and the other two blank. *)
Lemma plots_of_sample_sources :
  QCTAnalysis.get_publishable_plots (QCTAnalysis.mk Sample.phantom_with_linearity)
  = Returns [linearity_figure;
             uniformity_figure [KStr "Top"; KStr "Left"]
                               [Sample.f false 53 1; Sample.f false 48 1];
             mtf_figure] /\
  QCTAnalysis.get_publishable_plots (QCTAnalysis.mk (PyObj [])) = Returns [] /\
  QCTAnalysis.qplot_analyzed_image true
    (QCTAnalysis.mk Sample.phantom_uniformity_mtf)
  = Returns (Some (mkGrid []
                          [bar_graph [KStr "Top"; KStr "Left"]
                                     [Sample.f false 53 1; Sample.f false 48 1]]
                          [mtf_curve PyNone PyNone;
                           level_line (float_literal false 5 1) "r";
                           level_line (float_literal false 1 1) "g"]
                          [])).
Proof. repeat split; vm_compute; reflexivity. Qed.

(** ** The summary rows *)

Lemma collect_pairs {A} (f : A -> py (list row)) :
  (forall x r, f x = Returns r -> Forall is_pair r) ->
  forall xs rs, collect f xs = Returns rs -> Forall is_pair rs.
Proof.
  intros Hf xs. induction xs as [|x xs IH]; simpl; intros rs H.
  - injection H as <-. constructor.
  - destruct (f x) as [r|] eqn:Hx; simpl in H; [|discriminate].
    destruct (collect f xs) as [rs'|]; simpl in H; [|discriminate].
    injection H as <-. apply Forall_app. split; [eapply Hf; eauto|now apply IH].
Qed.

Ltac py_inv H :=
  repeat match type of H with
         | py_bind ?m _ = Returns _ =>
             let E := fresh "E" in
             destruct m eqn:E; simpl in H; [|discriminate H]
         | (if ?b then _ else _) = Returns _ =>
             let E := fresh "E" in destruct b eqn:E
         | Returns _ = Returns _ => injection H as <-
         end.

Lemma linearity_row_pairs entry r :
  linearity_row entry = Returns r -> Forall is_pair r.
Proof.
  unfold linearity_row. intros H. py_inv H; repeat constructor.
Qed.

Lemma uniformity_row_pairs entry r :
  uniformity_row entry = Returns r -> Forall is_pair r.
Proof. unfold uniformity_row. intros H. py_inv H; repeat constructor. Qed.

Lemma mtf_row_pairs entry r : mtf_row entry = Returns r -> Forall is_pair r.
Proof. unfold mtf_row. intros H. py_inv H; repeat constructor. Qed.

Lemma low_contrast_row_pairs entry r :
  low_contrast_row entry = Returns r -> Forall is_pair r.
Proof. unfold low_contrast_row. intros H. py_inv H; repeat constructor. Qed.

Lemma aggregate_row_pairs data name label p r :
  aggregate_row data name label p = Returns r -> Forall is_pair r.
Proof. unfold aggregate_row. intros H. py_inv H; repeat constructor. Qed.

Lemma linearity_block_pairs data b :
  linearity_block data = Returns b -> Forall is_pair b.
Proof.
  unfold linearity_block. intros H. py_inv H; constructor; [reflexivity|].
  eapply collect_pairs; eauto using linearity_row_pairs.
Qed.

Lemma uniformity_block_pairs data b :
  uniformity_block data = Returns b -> Forall is_pair b.
Proof.
  unfold uniformity_block. intros H. py_inv H; constructor; [reflexivity|].
  apply Forall_app. split.
  - eapply collect_pairs; eauto using uniformity_row_pairs.
  - eapply aggregate_row_pairs; eauto.
Qed.

Lemma mtf_block_pairs data b : mtf_block data = Returns b -> Forall is_pair b.
Proof.
  unfold mtf_block. intros H. py_inv H; constructor; [reflexivity|].
  eapply collect_pairs; eauto using mtf_row_pairs.
Qed.

Lemma low_contrast_block_pairs data b :
  low_contrast_block data = Returns b -> Forall is_pair b.
Proof.
  unfold low_contrast_block. intros H. py_inv H; constructor; [reflexivity|].
  apply Forall_app. split.
  - eapply collect_pairs; eauto using low_contrast_row_pairs.
  - eapply aggregate_row_pairs; eauto.
Qed.

(** A summary that is returned is the layout of four returned blocks. *)
Lemma summarize_returns_blocks pt data rows :
  summarize pt data = Returns rows ->
  exists v lin uni mtf lc,
    phantom_type_value pt = Returns v /\
    linearity_block data = Returns lin /\
    uniformity_block data = Returns uni /\
    mtf_block data = Returns mtf /\
    low_contrast_block data = Returns lc /\
    rows = ([["Phantom Type:"; v]; blank] ++ lin ++ [blank] ++ uni ++ [blank]
            ++ mtf ++ [blank] ++ lc)%list.
Proof.
  rewrite summarize_layout. unfold summary_layout. intros H. py_inv H.
  do 5 eexists. repeat split; reflexivity.
Qed.

Lemma summarize_rows_pairs pt data rows :
  summarize pt data = Returns rows -> Forall is_pair rows.
Proof.
  intros H. apply summarize_returns_blocks in H.
  destruct H as (v & lin & uni & mtf & lc & _ & Hl & Hu & Hm & Hc & ->).
  simpl. unfold blank.
  repeat first [ apply Forall_cons; [reflexivity|]
               | apply Forall_app; split ];
    eauto using linearity_block_pairs, uniformity_block_pairs, mtf_block_pairs,
      low_contrast_block_pairs.
Qed.

Lemma aggregate_row_last data name title p v :
  getattr data name = Returns v ->
  forall index, aggregate_row data name title p = Returns index ->
  exists s, format_spec_f p v = Returns s /\ index = [[title; s]].
Proof.
  intros Hv index. unfold aggregate_row, hasattr. rewrite Hv. cbn [py_bind].
  destruct (format_spec_f p v) as [s|e]; cbn [py_bind]; [|discriminate].
  intros H. injection H as <-. now exists s.
Qed.

Lemma uniformity_block_index_last data uni v :
  uniformity_block data = Returns uni ->
  hasattr data "uniformity" = true ->
  getattr data "uniformity_index" = Returns v ->
  exists rows s,
    format_spec_f 2 v = Returns s /\
    uni = (["HU Uniformity:"; ""] :: rows ++ [["Uniformity Index:"; s]])%list.
Proof.
  unfold uniformity_block. intros H Hg Hv. rewrite Hg in H.
  destruct (getattr data "uniformity") as [d|e]; cbn [py_bind] in H;
    [|discriminate].
  destruct (dict_items d) as [items|e]; cbn [py_bind] in H; [|discriminate].
  destruct (collect uniformity_row items) as [rows|e]; cbn [py_bind] in H;
    [|discriminate].
  destruct (aggregate_row data "uniformity_index" "Uniformity Index:" 2)
    as [index|e] eqn:Hi; cbn [py_bind] in H; [|discriminate].
  destruct (aggregate_row_last _ _ _ _ _ Hv _ Hi) as (s & Hs & ->).
  injection H as <-. now exists rows, s.
Qed.

Lemma low_contrast_block_visibility_last data lc v :
  low_contrast_block data = Returns lc ->
  hasattr data "low_contrast" = true ->
  getattr data "low_contrast_visibility" = Returns v ->
  exists rows s,
    format_spec_f 4 v = Returns s /\
    lc = (["Low Contrast:"; ""] :: rows
          ++ [["Low Contrast Visibility:"; s]])%list.
Proof.
  unfold low_contrast_block. intros H Hg Hv. rewrite Hg in H.
  destruct (getattr data "low_contrast") as [d|e]; cbn [py_bind] in H;
    [|discriminate].
  destruct (dict_values d) as [values|e]; cbn [py_bind] in H; [|discriminate].
  destruct (collect low_contrast_row (enumerate values)) as [rows|e];
    cbn [py_bind] in H; [|discriminate].
  destruct (aggregate_row data "low_contrast_visibility"
                          "Low Contrast Visibility:" 4)
    as [index|e] eqn:Hi; cbn [py_bind] in H; [|discriminate].
  destruct (aggregate_row_last _ _ _ _ _ Hv _ Hi) as (s & Hs & ->).
  injection H as <-. now exists rows, s.
Qed.

(** C5: a run that returns sends, after its two progress signals, one
    result whose rows are, for the results object of the run, in the order
    header, blank, linearity block, blank, uniformity block, blank,
    spatial-resolution block, blank, low-contrast block; the uniformity
    index, when the results object has one, is the last row of the
    uniformity block and the visibility score the last row of the
    low-contrast block; every row is a (label, value) pair. *)
Theorem successful_run_rows_in_order lib self ph ph' data :
  from_zip lib (analyzer_class (QCTAnalysisWorker._phantom_type self))
               (QCTAnalysisWorker._path self) = Returns ph ->
  phantom_analyze lib ph = Returns ph' ->
  results_data lib ph' = Returns data ->
  snd (QCTAnalysisWorker.run lib self) = Returns tt ->
  exists v lin uni mtf lc,
    phantom_type_value (QCTAnalysisWorker._phantom_type self) = Returns v /\
    linearity_block data = Returns lin /\
    uniformity_block data = Returns uni /\
    mtf_block data = Returns mtf /\
    low_contrast_block data = Returns lc /\
    fst (QCTAnalysisWorker.run lib self)
    = [QCTAnalysisWorker.analysis_progress "Loading CT dataset...";
       QCTAnalysisWorker.analysis_progress "Analyzing CT dataset...";
       QCTAnalysisWorker.analysis_results_ready
         (mkResults ([["Phantom Type:"; v]; [""; ""]] ++ lin ++ [[""; ""]]
                     ++ uni ++ [[""; ""]] ++ mtf ++ [[""; ""]] ++ lc)%list
                    (QCTAnalysis.mk ph'));
       QCTAnalysisWorker.thread_finished] /\
    Forall is_pair ([["Phantom Type:"; v]; [""; ""]] ++ lin ++ [[""; ""]]
                    ++ uni ++ [[""; ""]] ++ mtf ++ [[""; ""]] ++ lc)%list /\
    (forall index,
       hasattr data "uniformity" = true ->
       getattr data "uniformity_index" = Returns index ->
       exists rows s,
         format_spec_f 2 index = Returns s /\
         uni = (["HU Uniformity:"; ""] :: rows
                ++ [["Uniformity Index:"; s]])%list) /\
    (forall visibility,
       hasattr data "low_contrast" = true ->
       getattr data "low_contrast_visibility" = Returns visibility ->
       exists rows s,
         format_spec_f 4 visibility = Returns s /\
         lc = (["Low Contrast:"; ""] :: rows
               ++ [["Low Contrast Visibility:"; s]])%list).
Proof.
  intros H1 H2 H3. rewrite run_cases. cbv zeta. rewrite H1, H2, H3.
  destruct (summarize _ data) as [rows|e] eqn:Hs; [|discriminate].
  intros _. pose proof (summarize_rows_pairs _ _ _ Hs) as Hp.
  apply summarize_returns_blocks in Hs.
  destruct Hs as (v & lin & uni & mtf & lc & Hv & Hl & Hu & Hm & Hc & ->).
  exists v, lin, uni, mtf, lc.
  split; [assumption|]. split; [assumption|]. split; [assumption|].
  split; [assumption|]. split; [assumption|]. split; [reflexivity|].
  split; [assumption|]. split.
  - intros index Hg Hi. now apply (uniformity_block_index_last data uni index).
  - intros visibility Hg Hi.
    now apply (low_contrast_block_visibility_last data lc visibility).
Qed.

Lemma successful_run_rows_in_order_witness :
  exists v lin uni mtf lc,
    phantom_type_value (QCTAnalysisWorker._phantom_type Sample.worker)
    = Returns v /\
    linearity_block Sample.data_full = Returns lin /\
    uniformity_block Sample.data_full = Returns uni /\
    mtf_block Sample.data_full = Returns mtf /\
    low_contrast_block Sample.data_full = Returns lc /\
    fst (QCTAnalysisWorker.run (Sample.lib_giving (PyObj []) Sample.data_full)
                               Sample.worker)
    = [QCTAnalysisWorker.analysis_progress "Loading CT dataset...";
       QCTAnalysisWorker.analysis_progress "Analyzing CT dataset...";
       QCTAnalysisWorker.analysis_results_ready
         (mkResults ([["Phantom Type:"; v]; [""; ""]] ++ lin ++ [[""; ""]]
                     ++ uni ++ [[""; ""]] ++ mtf ++ [[""; ""]] ++ lc)%list
                    (QCTAnalysis.mk (PyObj [])));
       QCTAnalysisWorker.thread_finished] /\
    Forall is_pair ([["Phantom Type:"; v]; [""; ""]] ++ lin ++ [[""; ""]]
                    ++ uni ++ [[""; ""]] ++ mtf ++ [[""; ""]] ++ lc)%list /\
    (forall index,
       hasattr Sample.data_full "uniformity" = true ->
       getattr Sample.data_full "uniformity_index" = Returns index ->
       exists rows s,
         format_spec_f 2 index = Returns s /\
         uni = (["HU Uniformity:"; ""] :: rows
                ++ [["Uniformity Index:"; s]])%list) /\
    (forall visibility,
       hasattr Sample.data_full "low_contrast" = true ->
       getattr Sample.data_full "low_contrast_visibility" = Returns visibility ->
       exists rows s,
         format_spec_f 4 visibility = Returns s /\
         lc = (["Low Contrast:"; ""] :: rows
               ++ [["Low Contrast Visibility:"; s]])%list).
Proof.
  apply (successful_run_rows_in_order
           (Sample.lib_giving (PyObj []) Sample.data_full) Sample.worker
           (PyObj []) (PyObj []) Sample.data_full).
  - reflexivity.
  - reflexivity.
  - reflexivity.
  - vm_compute. reflexivity.
Defined.

(** The rows of the sample results object, as the table shows them. *)
Lemma summarize_data_full :
  summarize (Member CATPHAN_504) Sample.data_full
  = Returns [["Phantom Type:"; "CatPhan 504"]; [""; ""];
             ["HU Linearity:"; ""];
             ["  Air:"; "-998.60 HU (Expected: -1000.00 HU)"]; [""; ""];
             ["HU Uniformity:"; ""]; ["  Top:"; "5.30 HU"];
             ["Uniformity Index:"; "-1.20"]; [""; ""];
             ["Spatial Resolution:"; ""]; ["  MTF 50%:"; "0.43 lp/mm"];
             [""; ""];
             ["Low Contrast:"; ""]; ["  ROI 1:"; "0.1235"];
             ["Low Contrast Visibility:"; "3.0000"]].
Proof. vm_compute. reflexivity. Qed.

(** C10: the blank rows do not depend on the blocks.  For every results
    object the summary is the header, a blank row, the linearity block, a
    blank row, the uniformity block, a blank row, the spatial-resolution
    block, a blank row and the low-contrast block, where the block of an
    absent group is empty; with the four groups absent the summary is the
    header and four blank rows. *)
Theorem blank_rows_unconditional (p : PHANTOM) (data : pyval) :
  summarize (Member p) data
  = (lin <- linearity_block data ;;
     uni <- uniformity_block data ;;
     mtf <- mtf_block data ;;
     lc <- low_contrast_block data ;;
     Returns ([["Phantom Type:"; PHANTOM_value p]; [""; ""]] ++ lin
              ++ [[""; ""]] ++ uni ++ [[""; ""]] ++ mtf ++ [[""; ""]]
              ++ lc)%list) /\
  (hasattr data "hu_linearity" = false -> linearity_block data = Returns []) /\
  (hasattr data "uniformity" = false -> uniformity_block data = Returns []) /\
  (hasattr data "mtf" = false -> mtf_block data = Returns []) /\
  (hasattr data "low_contrast" = false ->
   low_contrast_block data = Returns []) /\
  (hasattr data "hu_linearity" = false ->
   hasattr data "uniformity" = false ->
   hasattr data "mtf" = false ->
   hasattr data "low_contrast" = false ->
   summarize (Member p) data
   = Returns [["Phantom Type:"; PHANTOM_value p];
              [""; ""]; [""; ""]; [""; ""]; [""; ""]]).
Proof.
  split; [rewrite summarize_layout; reflexivity|].
  unfold linearity_block, uniformity_block, mtf_block, low_contrast_block.
  repeat split.
  - now intros ->.
  - now intros ->.
  - now intros ->.
  - now intros ->.
  - intros A1 A2 A3 A4. rewrite summarize_layout.
    unfold summary_layout, linearity_block, uniformity_block, mtf_block,
      low_contrast_block.
    rewrite A1, A2, A3, A4. reflexivity.
Qed.

Lemma blank_rows_unconditional_witness :
  summarize (Member CATPHAN_504) Sample.data_empty
  = Returns [["Phantom Type:"; "CatPhan 504"];
             [""; ""]; [""; ""]; [""; ""]; [""; ""]].
Proof.
  apply (proj2 (proj2 (proj2 (proj2 (proj2
           (blank_rows_unconditional CATPHAN_504 Sample.data_empty))))));
    reflexivity.
Defined.

(** ** Partially populated results objects *)

(** C4, as stated, fails: a linearity entry without a nominal value makes
    the building of the rows raise, and the run ends with the failure
    signal instead of a result. *)
Lemma summarize_missing_nominal_counterexample :
  summarize (Member CATPHAN_504) Sample.data_no_nominal
  = Raises (AttributeError "object has no attribute 'nominal'") /\
  QCTAnalysisWorker.run (Sample.lib_giving (PyObj []) Sample.data_no_nominal)
                        Sample.worker
  = ([QCTAnalysisWorker.analysis_progress "Loading CT dataset...";
      QCTAnalysisWorker.analysis_progress "Analyzing CT dataset...";
      QCTAnalysisWorker.analysis_failed
        ("AttributeError: object has no attribute 'nominal'" ++ newline);
      QCTAnalysisWorker.thread_finished],
     Raises (AttributeError "object has no attribute 'nominal'")).
Proof. split; vm_compute; reflexivity. Qed.

Lemma collect_returns {A} (f : A -> py (list row)) (ok : A -> bool) :
  (forall x, ok x = true -> exists r, f x = Returns r) ->
  forall xs, forallb ok xs = true -> exists rs, collect f xs = Returns rs.
Proof.
  intros Hf xs. induction xs as [|x xs IH]; simpl; intros H.
  - eauto.
  - apply andb_prop in H. destruct H as [Hx Hxs].
    destruct (Hf x Hx) as [r ->]. destruct (IH Hxs) as [rs ->]. simpl. eauto.
Qed.

Lemma float_of_int_bool (b : bool) :
  exists x, float_of_int (if b then 1 else 0) = Returns x.
Proof. destruct b; vm_compute; eauto. Qed.

Lemma format_spec_f_number p v :
  is_number v = true -> exists s, format_spec_f p v = Returns s.
Proof.
  destruct v as [ |x|n|b|s|items|attrs| ].
  - discriminate.
  - intros _. cbn [format_spec_f]. eauto.
  - unfold is_number, format_spec_f, float_of_int.
    destruct (float_of_Z n); intros H; try discriminate H;
      cbn [py_bind]; eauto.
  - intros _. cbn [format_spec_f].
    destruct (float_of_int_bool b) as [x ->]. cbn [py_bind]. eauto.
  - discriminate.
  - discriminate.
  - discriminate.
  - discriminate.
Qed.

Lemma linearity_row_returns entry :
  linearity_entry_ok entry = true -> exists r, linearity_row entry = Returns r.
Proof.
  unfold linearity_entry_ok, linearity_row.
  destruct (key_eqb (fst entry) (KStr "background")); simpl; [eauto|].
  destruct (getattr (snd entry) "value") as [v|]; try discriminate.
  destruct (getattr (snd entry) "nominal") as [n|]; try discriminate.
  intros H. apply andb_prop in H. destruct H as [Hv Hn]. simpl.
  destruct (format_spec_f_number 2 v Hv) as [sv ->].
  destruct (format_spec_f_number 2 n Hn) as [sn ->].
  simpl. eauto.
Qed.

Lemma number_row_returns {K} (f : K * pyval -> py (list row)) p
      (mk : K * pyval -> string -> list row) :
  (forall entry, f entry = (sv <- format_spec_f p (snd entry) ;;
                            Returns (mk entry sv))) ->
  forall entry, number_entry_ok entry = true -> exists r, f entry = Returns r.
Proof.
  intros Hf entry H. rewrite Hf. unfold number_entry_ok in H.
  destruct (format_spec_f_number p _ H) as [s ->]. simpl. eauto.
Qed.

Lemma enumerate_numbers (items : list (pykey * pyval)) :
  forallb number_entry_ok items = true ->
  forallb number_entry_ok (enumerate (map snd items)) = true.
Proof.
  unfold enumerate. generalize 0%Z.
  induction items as [|[k v] items IH]; simpl; intros i H; [reflexivity|].
  apply andb_prop in H. destruct H as [Hv Hs].
  apply andb_true_intro. split; [exact Hv|now apply IH].
Qed.

Lemma group_ok_items data name ok :
  group_ok data name ok = true ->
  hasattr data name = true ->
  exists items, getattr data name = Returns (PyDict items) /\
                forallb ok items = true.
Proof.
  unfold group_ok, hasattr.
  destruct (getattr data name) as [[]|]; try discriminate. eauto.
Qed.

Lemma aggregate_row_returns data group name label p :
  aggregate_ok data group name = true ->
  hasattr data group = true ->
  exists r, aggregate_row data name label p = Returns r.
Proof.
  unfold aggregate_ok, aggregate_row. intros H Hg. rewrite Hg in H. simpl in H.
  unfold hasattr in *. destruct (getattr data name) as [v|]; simpl; [|eauto].
  destruct (format_spec_f_number p v H) as [s ->]. simpl. eauto.
Qed.

Lemma complete_groups_blocks data :
  complete_groups data = true ->
  exists lin uni mtf lc,
    linearity_block data = Returns lin /\
    uniformity_block data = Returns uni /\
    mtf_block data = Returns mtf /\
    low_contrast_block data = Returns lc.
Proof.
  unfold complete_groups. intros H.
  repeat (apply andb_prop in H; let H' := fresh "G" in destruct H as [H H']).
  assert (exists lin, linearity_block data = Returns lin) as [lin Hl].
  { unfold linearity_block. destruct (hasattr data "hu_linearity") eqn:E;
      [|eauto].
    destruct (group_ok_items _ _ _ H E) as (items & -> & Hi). simpl.
    destruct (collect_returns _ _ linearity_row_returns _ Hi) as [rs ->].
    simpl. eauto. }
  assert (exists uni, uniformity_block data = Returns uni) as [uni Hu].
  { unfold uniformity_block. destruct (hasattr data "uniformity") eqn:E;
      [|eauto].
    destruct (group_ok_items _ _ _ G3 E) as (items & -> & Hi). simpl.
    destruct (collect_returns uniformity_row _
                (number_row_returns uniformity_row 2 _ (fun _ => eq_refl))
                _ Hi) as [rs ->].
    simpl.
    destruct (aggregate_row_returns data _ _ "Uniformity Index:" 2 G2 E)
      as (r & ->).
    simpl. eauto. }
  assert (exists mtf, mtf_block data = Returns mtf) as [mtf Hm].
  { unfold mtf_block. destruct (hasattr data "mtf") eqn:E; [|eauto].
    destruct (group_ok_items _ _ _ G1 E) as (items & -> & Hi). simpl.
    destruct (collect_returns mtf_row _
                (number_row_returns mtf_row 2 _ (fun _ => eq_refl))
                _ Hi) as [rs ->].
    simpl. eauto. }
  assert (exists lc, low_contrast_block data = Returns lc) as [lc Hc].
  { unfold low_contrast_block. destruct (hasattr data "low_contrast") eqn:E;
      [|eauto].
    destruct (group_ok_items _ _ _ G0 E) as (items & -> & Hi). simpl.
    destruct (collect_returns low_contrast_row _
                (number_row_returns low_contrast_row 4 _ (fun _ => eq_refl))
                _ (enumerate_numbers _ Hi)) as [rs ->].
    simpl.
    destruct (aggregate_row_returns data _ _ "Low Contrast Visibility:" 4 G E)
      as (r & ->).
    simpl. eauto. }
  eauto 10.
Qed.

Lemma collect_Forall {A} (f : A -> py (list row)) (Q : row -> Prop) :
  (forall x r, f x = Returns r -> Forall Q r) ->
  forall xs rs, collect f xs = Returns rs -> Forall Q rs.
Proof.
  intros Hf xs. induction xs as [|x xs IH]; simpl; intros rs H.
  - injection H as <-. constructor.
  - destruct (f x) as [r|] eqn:Hx; simpl in H; [|discriminate].
    destruct (collect f xs) as [rs'|]; simpl in H; [|discriminate].
    injection H as <-. apply Forall_app. split; [eapply Hf; eauto|now apply IH].
Qed.

Ltac indented_label :=
  unfold summary_label; right; left; eexists; reflexivity.

Ltac fixed_label := unfold summary_label; left; simpl; tauto.

Ltac row_labels H :=
  py_inv H; repeat first [apply Forall_nil | apply Forall_cons];
  indented_label.

Lemma linearity_row_labels data entry r :
  linearity_row entry = Returns r ->
  Forall (fun x => summary_label data (label x)) r.
Proof. unfold linearity_row. intros H. row_labels H. Qed.

Lemma uniformity_row_labels data entry r :
  uniformity_row entry = Returns r ->
  Forall (fun x => summary_label data (label x)) r.
Proof. unfold uniformity_row. intros H. row_labels H. Qed.

Lemma mtf_row_labels data entry r :
  mtf_row entry = Returns r ->
  Forall (fun x => summary_label data (label x)) r.
Proof. unfold mtf_row. intros H. row_labels H. Qed.

Lemma low_contrast_row_labels data entry r :
  low_contrast_row entry = Returns r ->
  Forall (fun x => summary_label data (label x)) r.
Proof. unfold low_contrast_row. intros H. row_labels H. Qed.

Lemma aggregate_row_labels data name l p r :
  aggregate_row data name l p = Returns r ->
  r = [] \/ (hasattr data name = true /\ exists s, r = [[l; s]]).
Proof.
  unfold aggregate_row. intros H.
  destruct (hasattr data name) eqn:E; [|left; now injection H as <-].
  right. split; [reflexivity|]. py_inv H. eauto.
Qed.

(** Every label of a summary is one of [summary_label]. *)
Lemma summarize_labels pt data rows :
  summarize pt data = Returns rows ->
  Forall (fun x => summary_label data (label x)) rows.
Proof.
  intros H. apply summarize_returns_blocks in H.
  destruct H as (v & lin & uni & mtf & lc & _ & Hl & Hu & Hm & Hc & ->).
  assert (Forall (fun x => summary_label data (label x)) lin) as Fl.
  { unfold linearity_block in Hl. py_inv Hl;
      [apply Forall_cons; [fixed_label|]|apply Forall_nil].
    eapply collect_Forall; eauto using linearity_row_labels. }
  assert (Forall (fun x => summary_label data (label x)) uni) as Fu.
  { unfold uniformity_block in Hu.
    destruct (hasattr data "uniformity"); [|injection Hu as <-; apply Forall_nil].
    py_inv Hu. apply Forall_cons; [fixed_label|]. apply Forall_app. split.
    - eapply collect_Forall; eauto using uniformity_row_labels.
    - match goal with
      | H : aggregate_row _ _ _ _ = Returns _ |- _ =>
          destruct (aggregate_row_labels _ _ _ _ _ H) as [->|[Ha [s ->]]]
      end; [apply Forall_nil|].
      apply Forall_cons; [|apply Forall_nil].
      unfold summary_label. right. right. left. split; [reflexivity|exact Ha]. }
  assert (Forall (fun x => summary_label data (label x)) mtf) as Fm.
  { unfold mtf_block in Hm. py_inv Hm;
      [apply Forall_cons; [fixed_label|]|apply Forall_nil].
    eapply collect_Forall; eauto using mtf_row_labels. }
  assert (Forall (fun x => summary_label data (label x)) lc) as Fc.
  { unfold low_contrast_block in Hc.
    destruct (hasattr data "low_contrast");
      [|injection Hc as <-; apply Forall_nil].
    py_inv Hc. apply Forall_cons; [fixed_label|]. apply Forall_app. split.
    - eapply collect_Forall; eauto using low_contrast_row_labels.
    - match goal with
      | H : aggregate_row _ _ _ _ = Returns _ |- _ =>
          destruct (aggregate_row_labels _ _ _ _ _ H) as [->|[Ha [s ->]]]
      end; [apply Forall_nil|].
      apply Forall_cons; [|apply Forall_nil].
      unfold summary_label. right. right. right.
      split; [reflexivity|exact Ha]. }
  unfold blank.
  repeat first [ apply Forall_cons; [fixed_label|]
               | apply Forall_app; split ]; assumption.
Qed.

Lemma no_label_without_attribute data rows (l name : string) :
  Forall (fun x => summary_label data (label x)) rows ->
  (l = "Uniformity Index:" /\ name = "uniformity_index" \/
   l = "Low Contrast Visibility:" /\ name = "low_contrast_visibility") ->
  hasattr data name = false ->
  ~ In l (map label rows).
Proof.
  intros F Hl Habs Hin. apply in_map_iff in Hin.
  destruct Hin as (x & Hx & Hin).
  rewrite Forall_forall in F. specialize (F x Hin). rewrite Hx in F.
  destruct Hl as [[-> ->]|[-> ->]];
    destruct F as [F|[[s F]|[[F1 F2]|[F1 F2]]]];
    try discriminate; try congruence;
    simpl in F; intuition discriminate.
Qed.

(** C4, amended: when the groups that are present are complete, building
    the rows does not raise and gives the layout of the four blocks of the
    results object; the block of an absent group is empty, and without a
    uniformity index (or a visibility score) no row of the summary has its
    label, so that a uniformity group without an index does not end the
    run. *)
Theorem summarize_complete_groups_returns (p : PHANTOM) (data : pyval) :
  complete_groups data = true ->
  exists lin uni mtf lc,
    linearity_block data = Returns lin /\
    uniformity_block data = Returns uni /\
    mtf_block data = Returns mtf /\
    low_contrast_block data = Returns lc /\
    summarize (Member p) data
    = Returns ([["Phantom Type:"; PHANTOM_value p]; [""; ""]] ++ lin
               ++ [[""; ""]] ++ uni ++ [[""; ""]] ++ mtf ++ [[""; ""]]
               ++ lc)%list /\
    (hasattr data "hu_linearity" = false -> lin = []) /\
    (hasattr data "uniformity" = false -> uni = []) /\
    (hasattr data "mtf" = false -> mtf = []) /\
    (hasattr data "low_contrast" = false -> lc = []) /\
    (hasattr data "uniformity_index" = false ->
     ~ In "Uniformity Index:"
          (map label ([["Phantom Type:"; PHANTOM_value p]; [""; ""]] ++ lin
                      ++ [[""; ""]] ++ uni ++ [[""; ""]] ++ mtf
                      ++ [[""; ""]] ++ lc)%list)) /\
    (hasattr data "low_contrast_visibility" = false ->
     ~ In "Low Contrast Visibility:"
          (map label ([["Phantom Type:"; PHANTOM_value p]; [""; ""]] ++ lin
                      ++ [[""; ""]] ++ uni ++ [[""; ""]] ++ mtf
                      ++ [[""; ""]] ++ lc)%list)).
Proof.
  intros H.
  destruct (complete_groups_blocks data H)
    as (lin & uni & mtf & lc & Hl & Hu & Hm & Hc).
  exists lin, uni, mtf, lc.
  assert (summarize (Member p) data
          = Returns ([["Phantom Type:"; PHANTOM_value p]; [""; ""]] ++ lin
                     ++ [[""; ""]] ++ uni ++ [[""; ""]] ++ mtf ++ [[""; ""]]
                     ++ lc)%list) as Hs.
  { rewrite summarize_layout. unfold summary_layout. simpl.
    rewrite Hl, Hu, Hm, Hc. reflexivity. }
  pose proof (summarize_labels _ _ _ Hs) as F.
  repeat split; try assumption.
  - intros A. unfold linearity_block in Hl. rewrite A in Hl.
    now injection Hl as <-.
  - intros A. unfold uniformity_block in Hu. rewrite A in Hu.
    now injection Hu as <-.
  - intros A. unfold mtf_block in Hm. rewrite A in Hm. now injection Hm as <-.
  - intros A. unfold low_contrast_block in Hc. rewrite A in Hc.
    now injection Hc as <-.
  - intros A. eapply no_label_without_attribute; eauto.
  - intros A. eapply no_label_without_attribute; eauto.
Qed.

Lemma summarize_complete_groups_returns_witness :
  exists lin uni mtf lc,
    linearity_block Sample.data_no_index = Returns lin /\
    uniformity_block Sample.data_no_index = Returns uni /\
    mtf_block Sample.data_no_index = Returns mtf /\
    low_contrast_block Sample.data_no_index = Returns lc /\
    summarize (Member CATPHAN_504) Sample.data_no_index
    = Returns ([["Phantom Type:"; PHANTOM_value CATPHAN_504]; [""; ""]] ++ lin
               ++ [[""; ""]] ++ uni ++ [[""; ""]] ++ mtf ++ [[""; ""]]
               ++ lc)%list /\
    (hasattr Sample.data_no_index "hu_linearity" = false -> lin = []) /\
    (hasattr Sample.data_no_index "uniformity" = false -> uni = []) /\
    (hasattr Sample.data_no_index "mtf" = false -> mtf = []) /\
    (hasattr Sample.data_no_index "low_contrast" = false -> lc = []) /\
    (hasattr Sample.data_no_index "uniformity_index" = false ->
     ~ In "Uniformity Index:"
          (map label ([["Phantom Type:"; PHANTOM_value CATPHAN_504]; [""; ""]]
                      ++ lin ++ [[""; ""]] ++ uni ++ [[""; ""]] ++ mtf
                      ++ [[""; ""]] ++ lc)%list)) /\
    (hasattr Sample.data_no_index "low_contrast_visibility" = false ->
     ~ In "Low Contrast Visibility:"
          (map label ([["Phantom Type:"; PHANTOM_value CATPHAN_504]; [""; ""]]
                      ++ lin ++ [[""; ""]] ++ uni ++ [[""; ""]] ++ mtf
                      ++ [[""; ""]] ++ lc)%list)).
Proof.
  apply (summarize_complete_groups_returns CATPHAN_504 Sample.data_no_index).
  reflexivity.
Defined.

(** The rows of a uniformity group without an index. *)
Lemma summarize_data_no_index :
  summarize (Member CATPHAN_504) Sample.data_no_index
  = Returns [["Phantom Type:"; "CatPhan 504"]; [""; ""]; [""; ""];
             ["HU Uniformity:"; ""]; ["  Top:"; "5.30 HU"]; [""; ""];
             [""; ""]].
Proof. vm_compute. reflexivity. Qed.

(** ** Fixed precision *)


Lemma length_app s t :
  String.length (s ++ t) = (String.length s + String.length t)%nat.
Proof. induction s as [|c s IH]; simpl; [reflexivity|now rewrite IH]. Qed.












(** The rounding is determined: at most one integer is the nearest, the even
    one on a tie. *)
Lemma nearest_even_unique num den n n' :
  (0 < den)%Z ->
  nearest_even num den n -> nearest_even num den n' -> n = n'.
Proof.
  intros Hd [A1 A2] [B1 B2].
  assert (n' = n - 1 \/ n' = n \/ n' = n + 1)%Z as [E | [E | E]] by nia; subst n'.
  - assert (Z.even n = true) as E1 by (apply A2; nia).
    assert (Z.even (n - 1) = true) as E2 by (apply B2; nia).
    rewrite Z.even_sub, E1 in E2. discriminate.
  - reflexivity.
  - assert (Z.even n = true) as E1 by (apply A2; nia).
    assert (Z.even (n + 1) = true) as E2 by (apply B2; nia).
    rewrite Z.even_add, E1 in E2. discriminate.
Qed.







(** The renderings of the specification in their rows, a tie rounded to
    even, a negative value that rounds to zero, and an integer and a boolean
    in the place of a float. *)
Lemma renderings_in_rows :
  linearity_step (KStr "Air",
                  PyObj [("value", PyFloat (float_literal true 9986 1));
                         ("nominal", PyFloat (float_literal true 1000 0))]) []
  = Returns [["  Air:"; "-998.60 HU (Expected: -1000.00 HU)"]] /\
  uniformity_step (KStr "Top", PyFloat (float_literal true 9986 1)) []
  = Returns [["  Top:"; "-998.60 HU"]] /\
  low_contrast_step (0%Z, PyFloat (float_literal false 1234567 7)) []
  = Returns [["  ROI 1:"; "0.1235"]] /\
  format_f 2 (float_literal false 125 3) = "0.12" /\
  format_f 2 (float_literal false 375 3) = "0.38" /\
  format_f 2 (float_literal true 1 3) = "-0.00" /\
  format_f 2 (S754_infinity false) = "inf" /\
  format_f 2 S754_nan = "nan" /\
  uniformity_step (KStr "Top", PyInt 40) [] = Returns [["  Top:"; "40.00 HU"]] /\
  low_contrast_step (0%Z, PyBool true) [] = Returns [["  ROI 1:"; "1.0000"]].
Proof. repeat split; vm_compute; reflexivity. Qed.

(** ** The worksheet handlers *)

(** C8: handling the failure signal leaves the cached result of every
    dataset as it was: a result attached by an earlier run stays attached
    and identical, the dataset objects, the list items, the selection and
    the displayed rows are untouched, and the run state and the status
    message become the failure and its message. *)
Theorem analysis_failed_keeps_cached_result
        (self : QCTAnalysisWorksheet.t) (error_message : string)
        (ref : nat) (r : results) :
  QCTAnalysisWorksheet.cached_result self ref = Some r ->
  QCTAnalysisWorksheet.cached_result
    (QCTAnalysisWorksheet.analysis_failed self error_message) ref = Some r /\
  (forall d,
      QCTAnalysisWorksheet.cached_result
        (QCTAnalysisWorksheet.analysis_failed self error_message) d
      = QCTAnalysisWorksheet.cached_result self d) /\
  QCTAnalysisWorksheet.objects
    (QCTAnalysisWorksheet.analysis_failed self error_message)
  = QCTAnalysisWorksheet.objects self /\
  QCTAnalysisWorksheet.datasetListWidget
    (QCTAnalysisWorksheet.analysis_failed self error_message)
  = QCTAnalysisWorksheet.datasetListWidget self /\
  QCTAnalysisWorksheet.selected_dataset
    (QCTAnalysisWorksheet.analysis_failed self error_message)
  = QCTAnalysisWorksheet.selected_dataset self /\
  QCTAnalysisWorksheet.form_layout
    (QCTAnalysisWorksheet.analysis_failed self error_message)
  = QCTAnalysisWorksheet.form_layout self /\
  QCTAnalysisWorksheet.analysis_state
    (QCTAnalysisWorksheet.analysis_failed self error_message) = FAILURE /\
  QCTAnalysisWorksheet.analysis_message
    (QCTAnalysisWorksheet.analysis_failed self error_message)
  = Some error_message.
Proof.
  intros H. repeat split; try reflexivity. exact H.
Qed.

Lemma analysis_failed_keeps_cached_result_witness :
  QCTAnalysisWorksheet.cached_result
    (QCTAnalysisWorksheet.analysis_failed Sample.worksheet1 "BadZipFile") 0
  = Some Sample.results_full /\
  (forall d,
      QCTAnalysisWorksheet.cached_result
        (QCTAnalysisWorksheet.analysis_failed Sample.worksheet1 "BadZipFile") d
      = QCTAnalysisWorksheet.cached_result Sample.worksheet1 d) /\
  QCTAnalysisWorksheet.objects
    (QCTAnalysisWorksheet.analysis_failed Sample.worksheet1 "BadZipFile")
  = QCTAnalysisWorksheet.objects Sample.worksheet1 /\
  QCTAnalysisWorksheet.datasetListWidget
    (QCTAnalysisWorksheet.analysis_failed Sample.worksheet1 "BadZipFile")
  = QCTAnalysisWorksheet.datasetListWidget Sample.worksheet1 /\
  QCTAnalysisWorksheet.selected_dataset
    (QCTAnalysisWorksheet.analysis_failed Sample.worksheet1 "BadZipFile")
  = QCTAnalysisWorksheet.selected_dataset Sample.worksheet1 /\
  QCTAnalysisWorksheet.form_layout
    (QCTAnalysisWorksheet.analysis_failed Sample.worksheet1 "BadZipFile")
  = QCTAnalysisWorksheet.form_layout Sample.worksheet1 /\
  QCTAnalysisWorksheet.analysis_state
    (QCTAnalysisWorksheet.analysis_failed Sample.worksheet1 "BadZipFile")
  = FAILURE /\
  QCTAnalysisWorksheet.analysis_message
    (QCTAnalysisWorksheet.analysis_failed Sample.worksheet1 "BadZipFile")
  = Some "BadZipFile".
Proof.
  apply (analysis_failed_keeps_cached_result Sample.worksheet1 "BadZipFile" 0
                                             Sample.results_full).
  reflexivity.
Defined.

(** A successful run attaches its result to the selected dataset, replacing
    the one attached before. *)
Lemma show_analysis_results_attaches self r dataset rest :
  QCTAnalysisWorksheet.selected_dataset self = dataset :: rest ->
  (dataset < List.length (QCTAnalysisWorksheet.objects self))%nat ->
  QCTAnalysisWorksheet.cached_result
    (QCTAnalysisWorksheet.show_analysis_results self r) dataset = Some r.
Proof.
  intros Hs Hlt.
  unfold QCTAnalysisWorksheet.show_analysis_results,
    QCTAnalysisWorksheet.cached_result.
  rewrite Hs. simpl. clear Hs.
  revert dataset Hlt.
  generalize (QCTAnalysisWorksheet.objects self) as objs.
  induction objs as [|o objs IH]; intros [|d] Hlt; simpl in *; try lia;
    [reflexivity|].
  apply IH. lia.
Qed.

(** ** The exported table *)

Lemma two_field_rows_pairs rows :
  Forall is_pair rows -> QCTAnalysisWorksheet.two_field_rows rows = rows.
Proof.
  unfold QCTAnalysisWorksheet.two_field_rows.
  induction 1 as [|r rows Hr _ IH]; simpl; [reflexivity|].
  unfold is_pair in Hr. rewrite Hr. simpl. now rewrite IH.
Qed.

Lemma add_plots_keep_tables plots : forall report,
  exists report',
    py_for plots report QCTAnalysisWorksheet.add_plot = Returns report' /\
    tables report' = tables report /\
    title report' = title report /\ date report' = date report.
Proof.
  induction plots as [|[i plot] plots IH]; intros report; simpl.
  - eauto.
  - destruct (IH (add_image report ("Plot " ++ str_of_int (i + 1)) plot))
      as (report' & Hr & Ht & Hti & Hd).
    exists report'. repeat split; assumption.
Qed.

(** C9: the table of an exported report holds exactly the cached summary
    rows of the run, in their order: when the selected dataset caches the
    rows that [summarize] built, a path is chosen, the plots render and the
    document is written, the saved report has one table, "Analysis
    Results", whose rows are the cached rows, none added, dropped or
    moved. *)
Theorem report_table_is_cached_summary
        (save : SimpleReport -> string -> py unit) (platform : system)
        (today chosen_path : string) (self : QCTAnalysisWorksheet.t)
        (dataset : nat) (rest : list nat) (pt : phantom_type) (data : pyval)
        (rows : list row) (obj : QCTAnalysis.t) (plots : list figure) :
  QCTAnalysisWorksheet.selected_dataset self = dataset :: rest ->
  QCTAnalysisWorksheet.cached_result self dataset = Some (mkResults rows obj) ->
  summarize pt data = Returns rows ->
  chosen_path <> "" ->
  QCTAnalysis.get_publishable_plots obj = Returns plots ->
  (forall report, save report chosen_path = Returns tt) ->
  QCTAnalysisWorksheet.two_field_rows rows = rows /\
  exists report later,
    fst (QCTAnalysisWorksheet.generate_report save platform today chosen_path
                                              self [])
    = QCTAnalysisWorksheet.saved report chosen_path :: later /\
    tables report = [("Analysis Results", rows)] /\
    title report = "CT Analysis Report" /\
    date report = today.
Proof.
  intros Hsel Hc Hs Hp Hplots Hsave.
  pose proof (two_field_rows_pairs rows (summarize_rows_pairs _ _ _ Hs)) as Hrows.
  split; [exact Hrows|].
  unfold QCTAnalysisWorksheet.generate_report.
  rewrite Hsel, Hc.
  apply String.eqb_neq in Hp. rewrite Hp.
  unfold traced_bind, lift, emit, raise. simpl.
  rewrite Hplots, Hrows.
  destruct (add_plots_keep_tables (enumerate plots)
              (add_table (mkReport "CT Analysis Report" today [] [])
                         "Analysis Results" rows))
    as (report & -> & Ht & Hti & Hd).
  rewrite Hsave. exists report.
  destruct platform; simpl; eexists; repeat split; assumption.
Qed.

Lemma report_table_is_cached_summary_witness :
  QCTAnalysisWorksheet.two_field_rows Sample.rows_full = Sample.rows_full /\
  exists report later,
    fst (QCTAnalysisWorksheet.generate_report Sample.save_ok OtherSystem
           "2024-05-01" "report.pdf" Sample.worksheet1 [])
    = QCTAnalysisWorksheet.saved report "report.pdf" :: later /\
    tables report = [("Analysis Results", Sample.rows_full)] /\
    title report = "CT Analysis Report" /\
    date report = "2024-05-01".
Proof.
  apply (report_table_is_cached_summary Sample.save_ok OtherSystem "2024-05-01"
           "report.pdf" Sample.worksheet1 0%nat [] (Member CATPHAN_504)
           Sample.data_full Sample.rows_full
           (QCTAnalysis.mk Sample.phantom_with_linearity)
           [linearity_figure;
            uniformity_figure [KStr "Top"; KStr "Left"]
                              [Sample.f false 53 1; Sample.f false 48 1];
            mtf_figure]).
  - reflexivity.
  - reflexivity.
  - vm_compute. reflexivity.
  - discriminate.
  - vm_compute. reflexivity.
  - reflexivity.
Defined.

(** * Further properties of the code *)

(** ** The pages of the report *)

Ltac py_inv_ctx :=
  repeat match goal with
         | H : py_bind ?m _ = Returns _ |- _ =>
             let E := fresh "E" in
             destruct m eqn:E; simpl in H; [|discriminate H]
         | H : Raises _ = Returns _ |- _ => discriminate H
         | H : (let '(_, _) := ?p in _) = Returns _ |- _ =>
             destruct p; simpl in H
         | H : Returns ?a = Returns ?b |- _ =>
             first [ is_var b; injection H as <- | is_var a; injection H as -> ]
         end.

(** The pages that [get_publishable_plots] returns are one per module the
    phantom has, in the order linearity, uniformity, MTF, low contrast. *)
Theorem get_publishable_plots_module_order (self : QCTAnalysis.t)
        (plots : list figure) :
  QCTAnalysis.get_publishable_plots self = Returns plots ->
  map figure_module plots = present_modules (QCTAnalysis._phantom self).
Proof.
  unfold QCTAnalysis.get_publishable_plots, present_modules. simpl.
  destruct (hasattr (QCTAnalysis._phantom self) "ctp404");
    destruct (hasattr (QCTAnalysis._phantom self) "ctp486");
    destruct (hasattr (QCTAnalysis._phantom self) "ctp528");
    destruct (hasattr (QCTAnalysis._phantom self) "ctp515");
    simpl; intros H; py_inv_ctx; simpl; reflexivity.
Qed.

Lemma get_publishable_plots_module_order_witness :
  map figure_module
      [linearity_figure;
       uniformity_figure [KStr "Top"; KStr "Left"]
                         [Sample.f false 53 1; Sample.f false 48 1];
       mtf_figure]
  = present_modules
      (QCTAnalysis._phantom (QCTAnalysis.mk Sample.phantom_with_linearity)).
Proof.
  apply (get_publishable_plots_module_order
           (QCTAnalysis.mk Sample.phantom_with_linearity)).
  vm_compute. reflexivity.
Defined.

(** Without the linearity module, [get_publishable_plots] returns only for
    a phantom with none of the other modules either, and then it returns no
    page: any of the uniformity, MTF and low-contrast modules makes it
    raise. *)
Theorem get_publishable_plots_without_linearity (phantom : pyval) :
  hasattr phantom "ctp404" = false ->
  ((exists plots,
       QCTAnalysis.get_publishable_plots (QCTAnalysis.mk phantom)
       = Returns plots)
   <-> (hasattr phantom "ctp486" = false /\
        hasattr phantom "ctp528" = false /\
        hasattr phantom "ctp515" = false)) /\
  (forall plots,
      QCTAnalysis.get_publishable_plots (QCTAnalysis.mk phantom)
      = Returns plots -> plots = []).
Proof.
  intros H404. unfold QCTAnalysis.get_publishable_plots. simpl. rewrite H404.
  destruct (hasattr phantom "ctp486"); simpl.
  { split; [split|]; [intros [plots H]| intros (H & _)|intros plots H];
      discriminate H. }
  destruct (hasattr phantom "ctp528"); simpl.
  { split; [split|]; [intros [plots H]| intros (_ & H & _)|intros plots H];
      try discriminate H; py_inv_ctx. }
  destruct (hasattr phantom "ctp515"); simpl.
  { split; [split|]; [intros [plots H]| intros (_ & _ & H)|intros plots H];
      discriminate H. }
  split; [split|]; [auto|eauto|intros plots H; now injection H as <-].
Qed.

Lemma get_publishable_plots_without_linearity_witness :
  ((exists plots,
       QCTAnalysis.get_publishable_plots
         (QCTAnalysis.mk Sample.phantom_uniformity_mtf) = Returns plots)
   <-> (hasattr Sample.phantom_uniformity_mtf "ctp486" = false /\
        hasattr Sample.phantom_uniformity_mtf "ctp528" = false /\
        hasattr Sample.phantom_uniformity_mtf "ctp515" = false)) /\
  (forall plots,
      QCTAnalysis.get_publishable_plots
        (QCTAnalysis.mk Sample.phantom_uniformity_mtf) = Returns plots ->
      plots = []).
Proof.
  apply (get_publishable_plots_without_linearity Sample.phantom_uniformity_mtf).
  reflexivity.
Defined.

(** ** The interactive grid *)

(** In the grid that [qplot_analyzed_image] fills, the plot of a module the
    phantom does not have stays blank. *)
Theorem qplot_absent_module_blank (self : QCTAnalysis.t) (grid : plot_grid) :
  QCTAnalysis.qplot_analyzed_image true self = Returns (Some grid) ->
  (hasattr (QCTAnalysis._phantom self) "ctp404" = false ->
   hu_linearity_plot grid = []) /\
  (hasattr (QCTAnalysis._phantom self) "ctp486" = false ->
   uniformity_plot grid = []) /\
  (hasattr (QCTAnalysis._phantom self) "ctp528" = false ->
   mtf_plot grid = []) /\
  (hasattr (QCTAnalysis._phantom self) "ctp515" = false ->
   low_contrast_plot grid = []).
Proof.
  unfold QCTAnalysis.qplot_analyzed_image. simpl. intros H.
  destruct (hasattr (QCTAnalysis._phantom self) "ctp404") eqn:H404;
    destruct (hasattr (QCTAnalysis._phantom self) "ctp486") eqn:H486;
    destruct (hasattr (QCTAnalysis._phantom self) "ctp528") eqn:H528;
    destruct (hasattr (QCTAnalysis._phantom self) "ctp515") eqn:H515;
    simpl in H; py_inv_ctx;
    match type of H with
    | Returns (Some _) = Returns (Some _) => injection H as <-
    end;
    simpl; repeat split; intros; reflexivity || discriminate.
Qed.

Lemma qplot_absent_module_blank_witness :
  (hasattr Sample.phantom_uniformity_mtf "ctp404" = false ->
   hu_linearity_plot
     (mkGrid [] [bar_graph [KStr "Top"; KStr "Left"]
                           [Sample.f false 53 1; Sample.f false 48 1]]
             [mtf_curve PyNone PyNone;
              level_line (float_literal false 5 1) "r";
              level_line (float_literal false 1 1) "g"] []) = []) /\
  (hasattr Sample.phantom_uniformity_mtf "ctp486" = false ->
   uniformity_plot
     (mkGrid [] [bar_graph [KStr "Top"; KStr "Left"]
                           [Sample.f false 53 1; Sample.f false 48 1]]
             [mtf_curve PyNone PyNone;
              level_line (float_literal false 5 1) "r";
              level_line (float_literal false 1 1) "g"] []) = []) /\
  (hasattr Sample.phantom_uniformity_mtf "ctp528" = false ->
   mtf_plot
     (mkGrid [] [bar_graph [KStr "Top"; KStr "Left"]
                           [Sample.f false 53 1; Sample.f false 48 1]]
             [mtf_curve PyNone PyNone;
              level_line (float_literal false 5 1) "r";
              level_line (float_literal false 1 1) "g"] []) = []) /\
  (hasattr Sample.phantom_uniformity_mtf "ctp515" = false ->
   low_contrast_plot
     (mkGrid [] [bar_graph [KStr "Top"; KStr "Left"]
                           [Sample.f false 53 1; Sample.f false 48 1]]
             [mtf_curve PyNone PyNone;
              level_line (float_literal false 5 1) "r";
              level_line (float_literal false 1 1) "g"] []) = []).
Proof.
  apply (qplot_absent_module_blank
           (QCTAnalysis.mk Sample.phantom_uniformity_mtf)).
  vm_compute. reflexivity.
Defined.

Lemma linearity_roi_skips items : forall acc,
  forallb is_background_or_air items = true ->
  py_for items acc QCTAnalysis.linearity_roi = Returns acc.
Proof.
  induction items as [|[name roi] items IH]; intros [x_data y_data] H; simpl;
    [reflexivity|].
  simpl in H. apply andb_prop in H. destruct H as [Hn Hs].
  unfold is_background_or_air in Hn. simpl in Hn. rewrite Hn. simpl.
  now apply IH.
Qed.

(** When the linearity module has regions but all of them are named
    "background" or "air" (or there is none), [qplot_analyzed_image] raises
    [ValueError]: the reference line is drawn between the minimum and the
    maximum of an empty sequence. *)
Theorem qplot_no_linearity_points_raises (self : QCTAnalysis.t)
        (m : pyval) (items : list (pykey * pyval)) :
  getattr (QCTAnalysis._phantom self) "ctp404" = Returns m ->
  getattr m "rois" = Returns (PyDict items) ->
  forallb is_background_or_air items = true ->
  QCTAnalysis.qplot_analyzed_image true self
  = Raises (ValueError "min() arg is an empty sequence").
Proof.
  intros Hm Hr Hs. unfold QCTAnalysis.qplot_analyzed_image, hasattr. simpl.
  rewrite Hm. simpl. rewrite Hr. simpl.
  rewrite (linearity_roi_skips items ([], []) Hs). reflexivity.
Qed.

Lemma qplot_no_linearity_points_raises_witness :
  QCTAnalysis.qplot_analyzed_image true
    (QCTAnalysis.mk
       (PyObj [("ctp404",
                PyObj [("rois",
                        PyDict [(KStr "background",
                                 PyObj [("nominal_val", Sample.f false 1 0)]);
                                (KStr "air", PyNone)])])]))
  = Raises (ValueError "min() arg is an empty sequence").
Proof.
  apply (qplot_no_linearity_points_raises _
           (PyObj [("rois",
                    PyDict [(KStr "background",
                             PyObj [("nominal_val", Sample.f false 1 0)]);
                            (KStr "air", PyNone)])])
           [(KStr "background", PyObj [("nominal_val", Sample.f false 1 0)]);
            (KStr "air", PyNone)]); reflexivity.
Defined.

(** ** The numbering of the low-contrast rows *)

Lemma collect_low_contrast_numbered (xs : list spec_float) : forall n,
  collect low_contrast_row (enumerate_from (Z.of_nat n) (map PyFloat xs))
  = Returns (map roi_row (combine (seq (S n) (List.length xs)) xs)).
Proof.
  induction xs as [|x xs IH]; intros n; simpl; [reflexivity|].
  replace (Z.of_nat n + 1)%Z with (Z.of_nat (S n)) by lia.
  rewrite IH. reflexivity.
Qed.

(** The low-contrast rows are numbered by position, from "ROI 1", in the
    order of the dictionary; the keys of the dictionary do not appear. *)
Theorem low_contrast_rows_numbered (p : PHANTOM)
        (items : list (pykey * spec_float)) :
  summarize (Member p) (PyObj [("low_contrast", float_dict items)])
  = Returns ([["Phantom Type:"; PHANTOM_value p];
              [""; ""]; [""; ""]; [""; ""]; [""; ""];
              ["Low Contrast:"; ""]]
             ++ map roi_row (combine (seq 1 (List.length items))
                                     (map snd items)))%list.
Proof.
  rewrite summarize_layout.
  unfold summary_layout, linearity_block, uniformity_block, mtf_block,
    low_contrast_block, aggregate_row, float_dict.
  simpl. rewrite map_map. simpl.
  rewrite <- (map_map snd PyFloat).
  unfold enumerate.
  pose proof (collect_low_contrast_numbered (map snd items) 0) as Hc.
  change (Z.of_nat 0) with 0%Z in Hc. rewrite Hc.
  simpl. rewrite length_map, app_nil_r. reflexivity.
Qed.

(** ** A phantom type outside the enumeration *)

(** A worker whose phantom type is an object outside the enumeration and
    without a [value] attribute never sends a result: when the library
    loads (with the CatPhan 504 analyzer) and analyses, building the header
    row raises [AttributeError], and the run ends with the failure signal. *)
Theorem run_with_non_member_fails (lib : pylinac) (path : string) :
  count is_result
        (fst (QCTAnalysisWorker.run lib
                (QCTAnalysisWorker.mk path (NonMember None)))) = 0%nat /\
  (exists e, snd (QCTAnalysisWorker.run lib
                    (QCTAnalysisWorker.mk path (NonMember None))) = Raises e) /\
  (forall ph ph' data,
      from_zip lib CatPhan504 path = Returns ph ->
      phantom_analyze lib ph = Returns ph' ->
      results_data lib ph' = Returns data ->
      QCTAnalysisWorker.run lib (QCTAnalysisWorker.mk path (NonMember None))
      = ([QCTAnalysisWorker.analysis_progress "Loading CT dataset...";
          QCTAnalysisWorker.analysis_progress "Analyzing CT dataset...";
          QCTAnalysisWorker.analysis_failed
            ("AttributeError: object has no attribute 'value'" ++ newline);
          QCTAnalysisWorker.thread_finished],
         Raises (AttributeError "object has no attribute 'value'"))).
Proof.
  rewrite run_cases. cbv zeta. simpl.
  change (analyzer_class (NonMember None)) with CatPhan504.
  unfold summarize. simpl.
  split; [|split].
  - destruct (from_zip lib CatPhan504 path) as [ph|]; [|reflexivity].
    destruct (phantom_analyze lib ph) as [ph'|]; [|reflexivity].
    destruct (results_data lib ph') as [data|]; reflexivity.
  - destruct (from_zip lib CatPhan504 path) as [ph|]; [|simpl; eauto].
    destruct (phantom_analyze lib ph) as [ph'|]; [|simpl; eauto].
    destruct (results_data lib ph') as [data|]; simpl; eauto.
  - intros ph ph' data -> -> ->. reflexivity.
Qed.

(** ** The worksheet after a successful run *)

Lemma set_analysis_data_other objs dataset r : forall d,
  d <> dataset ->
  nth_error (QCTAnalysisWorksheet.set_analysis_data objs dataset r) d
  = nth_error objs d.
Proof.
  revert dataset. induction objs as [|o objs IH]; intros [|dataset] [|d] Hd;
    simpl; try reflexivity; try congruence.
  apply IH. congruence.
Qed.




Lemma form_rows_pairs rows :
  Forall is_pair rows ->
  QCTAnalysisWorksheet.form_rows rows = map form_row_of rows.
Proof.
  unfold QCTAnalysisWorksheet.form_rows.
  induction 1 as [|r rows Hr _ IH]; simpl; [reflexivity|].
  rewrite IH. unfold is_pair in Hr.
  destruct r as [|a [|b [|c r]]]; simpl in Hr; try discriminate. reflexivity.
Qed.

(** The form of the worksheet shows the summary of a run row by row: after
    [show_analysis_results] the form holds, after the rows it had, one row
    for each summary row that [summarize] built, in the same order. *)
Theorem show_analysis_results_displays_summary
        (self : QCTAnalysisWorksheet.t) (pt : phantom_type) (data : pyval)
        (rows : list row) (obj : QCTAnalysis.t) :
  summarize pt data = Returns rows ->
  QCTAnalysisWorksheet.form_layout
    (QCTAnalysisWorksheet.show_analysis_results self (mkResults rows obj))
  = (QCTAnalysisWorksheet.form_layout self ++ map form_row_of rows)%list.
Proof.
  intros H. unfold QCTAnalysisWorksheet.show_analysis_results.
  destruct (QCTAnalysisWorksheet.selected_dataset self); simpl;
    now rewrite (form_rows_pairs rows (summarize_rows_pairs _ _ _ H)).
Qed.

Lemma show_analysis_results_displays_summary_witness :
  QCTAnalysisWorksheet.form_layout
    (QCTAnalysisWorksheet.show_analysis_results
       Sample.worksheet0
       (mkResults Sample.rows_full
                  (QCTAnalysis.mk Sample.phantom_with_linearity)))
  = (QCTAnalysisWorksheet.form_layout Sample.worksheet0
     ++ map form_row_of Sample.rows_full)%list.
Proof.
  apply (show_analysis_results_displays_summary
           Sample.worksheet0 (Member CATPHAN_504) Sample.data_full).
  vm_compute. reflexivity.
Defined.

(** ** Exporting the report *)

(** [generate_report] does nothing (it saves and opens nothing, and returns)
    when no dataset is selected, when the first selected dataset has no
    cached result, or when the save dialog is cancelled. *)
Theorem generate_report_nothing_to_export
        (save : SimpleReport -> string -> py unit) (platform : system)
        (today chosen_path : string) (self : QCTAnalysisWorksheet.t) :
  (QCTAnalysisWorksheet.selected_dataset self = [] \/
   (exists dataset rest,
       QCTAnalysisWorksheet.selected_dataset self = dataset :: rest /\
       QCTAnalysisWorksheet.cached_result self dataset = None) \/
   chosen_path = "") ->
  QCTAnalysisWorksheet.generate_report save platform today chosen_path self []
  = ([], Returns tt).
Proof.
  unfold QCTAnalysisWorksheet.generate_report.
  intros [H|[(dataset & rest & Hs & Hc)|H]].
  - rewrite H. reflexivity.
  - rewrite Hs, Hc. reflexivity.
  - subst chosen_path.
    destruct (QCTAnalysisWorksheet.selected_dataset self) as [|d ds];
      [reflexivity|].
    destruct (QCTAnalysisWorksheet.cached_result self d); reflexivity.
Qed.

Lemma generate_report_nothing_to_export_witness :
  QCTAnalysisWorksheet.generate_report Sample.save_ok Darwin "2024-05-01"
                                       "report.pdf" Sample.worksheet0 []
  = ([], Returns tt).
Proof.
  apply (generate_report_nothing_to_export Sample.save_ok Darwin "2024-05-01"
                                           "report.pdf" Sample.worksheet0).
  right. left. exists 0%nat, []. split; reflexivity.
Defined.

Lemma add_plots_images plots : forall (i : nat) report,
  py_for (enumerate_from (Z.of_nat i) plots) report QCTAnalysisWorksheet.add_plot
  = Returns (mkReport (title report) (date report) (tables report)
               (images report
                ++ combine (plot_names_from (S i) (List.length plots)) plots)%list).
Proof.
  unfold plot_names_from.
  induction plots as [|plot plots IH]; intros i report; simpl.
  - rewrite app_nil_r. destruct report; reflexivity.
  - replace (Z.of_nat i + 1)%Z with (Z.of_nat (S i)) by lia.
    rewrite IH. simpl. now rewrite <- app_assoc.
Qed.

Lemma generate_report_unfold save platform today chosen_path self
      dataset rest data :
  QCTAnalysisWorksheet.selected_dataset self = dataset :: rest ->
  QCTAnalysisWorksheet.cached_result self dataset = Some data ->
  chosen_path <> "" ->
  QCTAnalysisWorksheet.generate_report save platform today chosen_path self []
  = match QCTAnalysis.get_publishable_plots (ct_analysis_obj data) with
    | Raises e => ([], Raises e)
    | Returns plots =>
        match save (exported_report today data plots) chosen_path with
        | Raises e => ([], Raises e)
        | Returns _ =>
            match platform with
            | Windows =>
                ([QCTAnalysisWorksheet.saved (exported_report today data plots)
                                             chosen_path],
                 Raises (mkExn "NameError" "name 'os' is not defined" []))
            | Darwin =>
                ([QCTAnalysisWorksheet.saved (exported_report today data plots)
                                             chosen_path;
                  QCTAnalysisWorksheet.opened "open" chosen_path], Returns tt)
            | OtherSystem =>
                ([QCTAnalysisWorksheet.saved (exported_report today data plots)
                                             chosen_path;
                  QCTAnalysisWorksheet.opened "xdg-open" chosen_path],
                 Returns tt)
            end
        end
    end.
Proof.
  intros Hs Hc Hp. unfold QCTAnalysisWorksheet.generate_report.
  rewrite Hs, Hc. apply String.eqb_neq in Hp. rewrite Hp.
  unfold traced_bind, lift, emit, raise. simpl.
  destruct (QCTAnalysis.get_publishable_plots (ct_analysis_obj data))
    as [plots|e]; [|reflexivity].
  unfold enumerate. change 0%Z with (Z.of_nat 0).
  rewrite add_plots_images. simpl.
  fold (plot_names (List.length plots)).
  fold (exported_report today data plots).
  destruct (save (exported_report today data plots) chosen_path);
    [|reflexivity].
  destruct platform; reflexivity.
Qed.

(** On Windows [generate_report] writes the document and then raises
    [NameError] instead of opening it: the module [os], whose [startfile]
    the Windows branch calls, is not imported. *)
Theorem generate_report_windows_name_error
        (save : SimpleReport -> string -> py unit)
        (today chosen_path : string) (self : QCTAnalysisWorksheet.t)
        (dataset : nat) (rest : list nat) (data : results)
        (plots : list figure) :
  QCTAnalysisWorksheet.selected_dataset self = dataset :: rest ->
  QCTAnalysisWorksheet.cached_result self dataset = Some data ->
  chosen_path <> "" ->
  QCTAnalysis.get_publishable_plots (ct_analysis_obj data) = Returns plots ->
  save (exported_report today data plots) chosen_path = Returns tt ->
  QCTAnalysisWorksheet.generate_report save Windows today chosen_path self []
  = ([QCTAnalysisWorksheet.saved (exported_report today data plots) chosen_path],
     Raises (mkExn "NameError" "name 'os' is not defined" [])).
Proof.
  intros Hs Hc Hp Hplots Hsave.
  rewrite (generate_report_unfold _ _ _ _ _ _ _ _ Hs Hc Hp), Hplots, Hsave.
  reflexivity.
Qed.

Lemma generate_report_windows_name_error_witness :
  QCTAnalysisWorksheet.generate_report Sample.save_ok Windows "2024-05-01"
                                       "report.pdf" Sample.worksheet1 []
  = ([QCTAnalysisWorksheet.saved
        (exported_report "2024-05-01" Sample.results_full
           [linearity_figure;
            uniformity_figure [KStr "Top"; KStr "Left"]
                              [Sample.f false 53 1; Sample.f false 48 1];
            mtf_figure]) "report.pdf"],
     Raises (mkExn "NameError" "name 'os' is not defined" [])).
Proof.
  apply (generate_report_windows_name_error Sample.save_ok "2024-05-01"
           "report.pdf" Sample.worksheet1 0%nat [] Sample.results_full).
  - reflexivity.
  - reflexivity.
  - discriminate.
  - vm_compute. reflexivity.
  - reflexivity.
Defined.

(** When rendering the pages raises, or when writing the document raises,
    [generate_report] raises the same exception and has saved and opened
    nothing. *)
Theorem generate_report_failure_exports_nothing
        (save : SimpleReport -> string -> py unit) (platform : system)
        (today chosen_path : string) (self : QCTAnalysisWorksheet.t)
        (dataset : nat) (rest : list nat) (data : results) (e : exn) :
  QCTAnalysisWorksheet.selected_dataset self = dataset :: rest ->
  QCTAnalysisWorksheet.cached_result self dataset = Some data ->
  chosen_path <> "" ->
  (QCTAnalysis.get_publishable_plots (ct_analysis_obj data) = Raises e \/
   exists plots,
     QCTAnalysis.get_publishable_plots (ct_analysis_obj data) = Returns plots /\
     save (exported_report today data plots) chosen_path = Raises e) ->
  QCTAnalysisWorksheet.generate_report save platform today chosen_path self []
  = ([], Raises e).
Proof.
  intros Hs Hc Hp H.
  rewrite (generate_report_unfold _ _ _ _ _ _ _ _ Hs Hc Hp).
  destruct H as [->|(plots & -> & ->)]; reflexivity.
Qed.

Lemma generate_report_failure_exports_nothing_witness :
  QCTAnalysisWorksheet.generate_report Sample.save_ok Darwin "2024-05-01"
    "report.pdf"
    (QCTAnalysisWorksheet.show_analysis_results Sample.worksheet0
       (mkResults Sample.rows_full
                  (QCTAnalysis.mk Sample.phantom_uniformity_mtf))) []
  = ([], Raises (UnboundLocalError
       "cannot access local variable 'plt' where it is not associated with a value")).
Proof.
  apply (generate_report_failure_exports_nothing Sample.save_ok Darwin
           "2024-05-01" "report.pdf" _ 0%nat []
           (mkResults Sample.rows_full
                      (QCTAnalysis.mk Sample.phantom_uniformity_mtf))).
  - reflexivity.
  - reflexivity.
  - discriminate.
  - left. reflexivity.
Defined.




(** ** The configuration box and the phantom type of a run *)

(** The phantom type [start_analysis] gives the worker is read back from the
    text of the configuration box: the text of a member gives that member,
    any other text gives the CatPhan 504; the box filled by [setup_config]
    lists the four values and shows "CatPhan 504". *)
Theorem phantom_of_text_round_trip :
  (forall p,
      QCTAnalysisWorksheetView.phantom_of_text (PHANTOM_value p) = p) /\
  (forall text,
      ~ In text (map PHANTOM_value QCTAnalysisWorksheetView.PHANTOM_members) ->
      QCTAnalysisWorksheetView.phantom_of_text text = CATPHAN_504) /\
  (forall self,
      QCTAnalysisWorksheetView.phantomTypeCB
        (QCTAnalysisWorksheetView.setup_config self)
      = ["CatPhan 503"; "CatPhan 504"; "CatPhan 600"; "CatPhan 604"] /\
      QCTAnalysisWorksheetView.phantomTypeCB_currentText
        (QCTAnalysisWorksheetView.setup_config self) = "CatPhan 504" /\
      QCTAnalysisWorksheetView.phantom_of_text
        (QCTAnalysisWorksheetView.phantomTypeCB_currentText
           (QCTAnalysisWorksheetView.setup_config self)) = CATPHAN_504).
Proof.
  split; [|split].
  - intros []; reflexivity.
  - intros text H. unfold QCTAnalysisWorksheetView.phantom_of_text.
    cbn -[String.eqb]. cbn in H.
    destruct (String.eqb_spec "CatPhan 503" text) as [E|_]; [tauto|].
    destruct (String.eqb_spec "CatPhan 504" text) as [E|_]; [tauto|].
    destruct (String.eqb_spec "CatPhan 600" text) as [E|_]; [tauto|].
    destruct (String.eqb_spec "CatPhan 604" text) as [E|_]; [tauto|].
    reflexivity.
  - intros self. repeat split; reflexivity.
Qed.

(** ** The list of datasets *)

Lemma Forall_fst_filter_combine {A B} (P : A -> Prop) (f : A * B -> bool)
      (xs : list A) : forall (ys : list B),
  Forall P xs -> Forall P (map fst (filter f (combine xs ys))).
Proof.
  induction xs as [|x xs IH]; intros [|y ys] H; simpl; try constructor.
  inversion H as [|? ? Hx Hxs]; subst.
  destruct (f (x, y)); simpl; [constructor; [assumption|]|]; now apply IH.
Qed.

Lemma Forall_bound_weaken (n m : nat) (refs : list nat) :
  (n <= m)%nat ->
  Forall (fun ref => (ref < n)%nat) refs ->
  Forall (fun ref => (ref < m)%nat) refs.
Proof. intros Hle H. eapply Forall_impl; [|exact H]. simpl. intros; lia. Qed.

Lemma set_analysis_data_length objs r : forall dataset,
  List.length (QCTAnalysisWorksheet.set_analysis_data objs dataset r)
  = List.length objs.
Proof.
  induction objs as [|o objs IH]; intros [|dataset]; simpl; try reflexivity.
  now rewrite IH.
Qed.

Lemma update_first_item_length objs dataset : forall refs,
  List.length (QCTAnalysisWorksheet.update_first_item objs refs dataset)
  = List.length refs.
Proof.
  induction refs as [|ref refs IH]; simpl; [reflexivity|].
  destruct (QCTAnalysisWorksheet.option_string_eqb _ _); simpl;
    [reflexivity|now rewrite IH].
Qed.

Lemma update_first_item_bound objs dataset (P : nat -> Prop) : forall refs,
  P dataset -> Forall P refs ->
  Forall P (QCTAnalysisWorksheet.update_first_item objs refs dataset).
Proof.
  induction refs as [|ref refs IH]; intros Hd H; simpl; [constructor|].
  inversion H as [|? ? Hr Hrs]; subst.
  destruct (QCTAnalysisWorksheet.option_string_eqb _ _);
    constructor; auto.
Qed.

Lemma update_selected_dataset_consistent self :
  QCTAnalysisWorksheetView.consistent self ->
  QCTAnalysisWorksheetView.consistent
    (QCTAnalysisWorksheetView.update_selected_dataset self).
Proof.
  intros (Hl & Hi & Hs). unfold QCTAnalysisWorksheetView.consistent. simpl.
  repeat split; try assumption.
  now apply Forall_fst_filter_combine.
Qed.

Lemma deliver_consistent self s :
  QCTAnalysisWorksheetView.consistent self ->
  QCTAnalysisWorksheetView.consistent (QCTAnalysisWorksheetView.deliver self s).
Proof.
  intros (Hl & Hi & Hs). destruct s as [m|r| |m]; simpl;
    try (repeat split; assumption).
  unfold QCTAnalysisWorksheetView.consistent,
    QCTAnalysisWorksheet.show_analysis_results. simpl.
  destruct (QCTAnalysisWorksheet.selected_dataset
              (QCTAnalysisWorksheetView.sheet self)) as [|dataset rest] eqn:E;
    simpl; [repeat split; assumption|].
  rewrite set_analysis_data_length, update_first_item_length.
  inversion Hs as [|? ? Hd Hrest]; subst.
  repeat split; try assumption.
  apply update_first_item_bound; assumption.
Qed.

(** The operations on the list, the start of a run and the delivery of a
    signal keep the worksheet consistent: one state per list item, and
    every list item and every selected dataset refers to a dataset object. *)
Theorem worksheet_stays_consistent (self : QCTAnalysisWorksheetView.t)
        (a : list_action) (s : QCTAnalysisWorker.signal) :
  QCTAnalysisWorksheetView.consistent self ->
  QCTAnalysisWorksheetView.consistent (perform self a) /\
  QCTAnalysisWorksheetView.consistent
    (fst (QCTAnalysisWorksheetView.start_analysis self)) /\
  QCTAnalysisWorksheetView.consistent (QCTAnalysisWorksheetView.deliver self s).
Proof.
  intros H. split; [|split].
  - destruct H as (Hl & Hi & Hs).
    destruct a as [str_of_path file_path| |select_type|]; simpl.
    + unfold QCTAnalysisWorksheetView.add_dataset.
      destruct (String.eqb file_path ""); [repeat split; assumption|].
      apply update_selected_dataset_consistent.
      unfold QCTAnalysisWorksheetView.consistent. simpl.
      rewrite !List.length_app. simpl. repeat split.
      * lia.
      * apply Forall_app. split.
        -- eapply Forall_bound_weaken; [|exact Hi]. lia.
        -- repeat constructor. lia.
      * eapply Forall_bound_weaken; [|exact Hs]. lia.
    + unfold QCTAnalysisWorksheetView.remove_file.
      apply update_selected_dataset_consistent.
      unfold QCTAnalysisWorksheetView.consistent. simpl.
      rewrite !length_map. repeat split; try assumption.
      now apply Forall_fst_filter_combine.
    + unfold QCTAnalysisWorksheetView.perform_selection.
      apply update_selected_dataset_consistent.
      unfold QCTAnalysisWorksheetView.consistent. simpl.
      rewrite length_map. repeat split; assumption.
    + apply update_selected_dataset_consistent. repeat split; assumption.
  - destruct H as (Hl & Hi & Hs).
    unfold QCTAnalysisWorksheetView.start_analysis.
    destruct (QCTAnalysisWorksheet.selected_dataset
                (QCTAnalysisWorksheetView.sheet self)) as [|dataset rest] eqn:E;
      [repeat split; simpl; try assumption; rewrite E; constructor|].
    destruct (QCTAnalysisWorksheet.file_path_of _ dataset);
      repeat split; simpl; try assumption; rewrite E; assumption.
  - now apply deliver_consistent.
Qed.

Lemma worksheet_stays_consistent_witness :
  QCTAnalysisWorksheetView.consistent (perform SampleView.view2 act_remove_file) /\
  QCTAnalysisWorksheetView.consistent
    (fst (QCTAnalysisWorksheetView.start_analysis SampleView.view2)) /\
  QCTAnalysisWorksheetView.consistent
    (QCTAnalysisWorksheetView.deliver
       SampleView.view2
       (QCTAnalysisWorker.analysis_results_ready Sample.results_full)).
Proof.
  apply (worksheet_stays_consistent SampleView.view2 act_remove_file
           (QCTAnalysisWorker.analysis_results_ready Sample.results_full)).
  unfold QCTAnalysisWorksheetView.consistent. simpl.
  repeat split; repeat constructor; lia.
Defined.

Lemma combine_map_fst_snd {A B} (l : list (A * B)) :
  combine (map fst l) (map snd l) = l.
Proof.
  induction l as [|[a b] l IH]; simpl; [reflexivity|now rewrite IH].
Qed.

Lemma filter_filter_neg {A} (f : A -> bool) (l : list A) :
  filter f (filter f l) = filter f l.
Proof.
  induction l as [|a l IH]; simpl; [reflexivity|].
  destruct (f a) eqn:E; simpl; [rewrite E|]; now rewrite IH.
Qed.

(** [remove_file] takes exactly the highlighted items out of the list: the
    items that stay are the ones that were not highlighted, with their check
    marks and in their order; the selection is the checked ones among them;
    the dataset objects, and so the cached results, are untouched; removing
    again changes nothing more. *)
Theorem remove_file_removes_highlighted (self : QCTAnalysisWorksheetView.t) :
  QCTAnalysisWorksheetView.items (QCTAnalysisWorksheetView.remove_file self)
  = filter (fun item => negb (QCTAnalysisWorksheetView.isSelected (snd item)))
           (QCTAnalysisWorksheetView.items self) /\
  QCTAnalysisWorksheet.selected_dataset
    (QCTAnalysisWorksheetView.sheet (QCTAnalysisWorksheetView.remove_file self))
  = map fst
        (filter (fun item =>
                   andb (negb (QCTAnalysisWorksheetView.isSelected (snd item)))
                        (QCTAnalysisWorksheetView.checkState (snd item)))
                (QCTAnalysisWorksheetView.items self)) /\
  QCTAnalysisWorksheet.objects
    (QCTAnalysisWorksheetView.sheet (QCTAnalysisWorksheetView.remove_file self))
  = QCTAnalysisWorksheet.objects (QCTAnalysisWorksheetView.sheet self) /\
  QCTAnalysisWorksheetView.items
    (QCTAnalysisWorksheetView.remove_file
       (QCTAnalysisWorksheetView.remove_file self))
  = QCTAnalysisWorksheetView.items (QCTAnalysisWorksheetView.remove_file self).
Proof.
  assert (QCTAnalysisWorksheetView.items
            (QCTAnalysisWorksheetView.remove_file self)
          = filter (fun item =>
                      negb (QCTAnalysisWorksheetView.isSelected (snd item)))
                   (QCTAnalysisWorksheetView.items self)) as Hitems.
  { unfold QCTAnalysisWorksheetView.remove_file, QCTAnalysisWorksheetView.items.
    simpl. apply combine_map_fst_snd. }
  split; [exact Hitems|]. split; [|split; [reflexivity|]].
  - unfold QCTAnalysisWorksheetView.remove_file at 1.
    unfold QCTAnalysisWorksheetView.update_selected_dataset. simpl.
    unfold QCTAnalysisWorksheetView.items at 1. simpl.
    rewrite combine_map_fst_snd.
    f_equal.
    generalize (QCTAnalysisWorksheetView.items self) as l.
    induction l as [|[ref st] l IH]; simpl; [reflexivity|].
    destruct (QCTAnalysisWorksheetView.isSelected st); simpl; [exact IH|].
    destruct (QCTAnalysisWorksheetView.checkState st); simpl; now rewrite IH.
  - pose proof Hitems as H2.
    assert (forall v,
      QCTAnalysisWorksheetView.items (QCTAnalysisWorksheetView.remove_file v)
      = filter (fun item =>
                  negb (QCTAnalysisWorksheetView.isSelected (snd item)))
               (QCTAnalysisWorksheetView.items v)) as Hall.
    { intros v. unfold QCTAnalysisWorksheetView.remove_file,
        QCTAnalysisWorksheetView.items. simpl. apply combine_map_fst_snd. }
    rewrite (Hall (QCTAnalysisWorksheetView.remove_file self)), Hitems.
    apply filter_filter_neg.
Qed.

Lemma filter_combine_all {A B} (f : B -> bool) (xs : list A) :
  forall (ys : list B),
  List.length ys = List.length xs ->
  (forall y, In y ys -> f y = true) ->
  map fst (filter (fun item => f (snd item)) (combine xs ys)) = xs.
Proof.
  induction xs as [|x xs IH]; intros [|y ys] Hl Hf; simpl in *;
    try discriminate; [reflexivity|].
  rewrite (Hf y (or_introl eq_refl)). simpl. f_equal.
  apply IH; [now injection Hl|auto].
Qed.

Lemma filter_combine_none {A B} (f : B -> bool) (xs : list A) :
  forall (ys : list B),
  (forall y, In y ys -> f y = false) ->
  filter (fun item => f (snd item)) (combine xs ys) = [].
Proof.
  induction xs as [|x xs IH]; intros [|y ys] Hf; simpl in *; try reflexivity.
  rewrite (Hf y (or_introl eq_refl)). apply IH. auto.
Qed.

Lemma select_all_selects_list (self : QCTAnalysisWorksheetView.t) :
  List.length (QCTAnalysisWorksheetView.item_states self)
  = List.length (QCTAnalysisWorksheet.datasetListWidget
                   (QCTAnalysisWorksheetView.sheet self)) ->
  QCTAnalysisWorksheet.selected_dataset
    (QCTAnalysisWorksheetView.sheet
       (QCTAnalysisWorksheetView.perform_selection "selectAll" self))
  = QCTAnalysisWorksheet.datasetListWidget (QCTAnalysisWorksheetView.sheet self).
Proof.
  intros Hl.
  unfold QCTAnalysisWorksheetView.perform_selection,
    QCTAnalysisWorksheetView.update_selected_dataset,
    QCTAnalysisWorksheetView.items.
  cbn -[Nat.ltb].
  rewrite (filter_combine_all QCTAnalysisWorksheetView.checkState).
  - reflexivity.
  - now rewrite List.length_map.
  - intros y Hy. apply in_map_iff in Hy. destruct Hy as (st & <- & _).
    reflexivity.
Qed.

Lemma start_analysis_keeps_lists (self : QCTAnalysisWorksheetView.t) :
  QCTAnalysisWorksheet.objects
    (QCTAnalysisWorksheetView.sheet
       (fst (QCTAnalysisWorksheetView.start_analysis self)))
  = QCTAnalysisWorksheet.objects (QCTAnalysisWorksheetView.sheet self) /\
  QCTAnalysisWorksheet.datasetListWidget
    (QCTAnalysisWorksheetView.sheet
       (fst (QCTAnalysisWorksheetView.start_analysis self)))
  = QCTAnalysisWorksheet.datasetListWidget (QCTAnalysisWorksheetView.sheet self)
  /\
  QCTAnalysisWorksheet.selected_dataset
    (QCTAnalysisWorksheetView.sheet
       (fst (QCTAnalysisWorksheetView.start_analysis self)))
  = QCTAnalysisWorksheet.selected_dataset (QCTAnalysisWorksheetView.sheet self)
  /\
  QCTAnalysisWorksheetView.item_states
    (fst (QCTAnalysisWorksheetView.start_analysis self))
  = QCTAnalysisWorksheetView.item_states self.
Proof.
  unfold QCTAnalysisWorksheetView.start_analysis.
  destruct (QCTAnalysisWorksheet.selected_dataset
              (QCTAnalysisWorksheetView.sheet self)) as [|dataset rest] eqn:E;
    [simpl; repeat split; reflexivity|].
  destruct (QCTAnalysisWorksheet.file_path_of _ dataset);
    simpl; repeat split; reflexivity.
Qed.

(** On a consistent worksheet, [perform_selection("selectAll")] selects
    every dataset of the list, in the order of the list, and enables the
    analyze button exactly when the list is not empty and no run is in
    progress; with any other argument it unselects every dataset and
    disables the analyze button. *)
Theorem perform_selection_all_or_nothing
        (self : QCTAnalysisWorksheetView.t) (select_type : string) :
  QCTAnalysisWorksheetView.consistent self ->
  (select_type = "selectAll" ->
   QCTAnalysisWorksheet.selected_dataset
     (QCTAnalysisWorksheetView.sheet
        (QCTAnalysisWorksheetView.perform_selection select_type self))
   = QCTAnalysisWorksheet.datasetListWidget (QCTAnalysisWorksheetView.sheet self)
   /\
   QCTAnalysisWorksheet.analyzeBtn_enabled
     (QCTAnalysisWorksheet.widgets
        (QCTAnalysisWorksheetView.sheet
           (QCTAnalysisWorksheetView.perform_selection select_type self)))
   = andb (0 <? List.length (QCTAnalysisWorksheet.datasetListWidget
                               (QCTAnalysisWorksheetView.sheet self)))%nat
          (negb (QCTAnalysisWorksheet.analysis_in_progress
                   (QCTAnalysisWorksheetView.sheet self)))) /\
  (select_type <> "selectAll" ->
   QCTAnalysisWorksheet.selected_dataset
     (QCTAnalysisWorksheetView.sheet
        (QCTAnalysisWorksheetView.perform_selection select_type self)) = [] /\
   QCTAnalysisWorksheet.analyzeBtn_enabled
     (QCTAnalysisWorksheet.widgets
        (QCTAnalysisWorksheetView.sheet
           (QCTAnalysisWorksheetView.perform_selection select_type self)))
   = false).
Proof.
  intros (Hl & _ & _).
  unfold QCTAnalysisWorksheetView.perform_selection,
    QCTAnalysisWorksheetView.update_selected_dataset,
    QCTAnalysisWorksheetView.items.
  cbn -[String.eqb Nat.ltb].
  split.
  - intros ->. rewrite String.eqb_refl.
    rewrite (filter_combine_all QCTAnalysisWorksheetView.checkState).
    + split; reflexivity.
    + now rewrite List.length_map.
    + intros y Hy. apply in_map_iff in Hy. destruct Hy as (st & <- & _).
      reflexivity.
  - intros Hne. apply String.eqb_neq in Hne. rewrite Hne.
    rewrite (filter_combine_none QCTAnalysisWorksheetView.checkState).
    + split; reflexivity.
    + intros y Hy. apply in_map_iff in Hy. destruct Hy as (st & <- & _).
      reflexivity.
Qed.

Lemma perform_selection_all_or_nothing_witness :
  ("selectAll" = "selectAll" ->
   QCTAnalysisWorksheet.selected_dataset
     (QCTAnalysisWorksheetView.sheet
        (QCTAnalysisWorksheetView.perform_selection "selectAll" SampleView.view2))
   = QCTAnalysisWorksheet.datasetListWidget
       (QCTAnalysisWorksheetView.sheet SampleView.view2)
   /\
   QCTAnalysisWorksheet.analyzeBtn_enabled
     (QCTAnalysisWorksheet.widgets
        (QCTAnalysisWorksheetView.sheet
           (QCTAnalysisWorksheetView.perform_selection "selectAll"
                                                       SampleView.view2)))
   = andb (0 <? List.length (QCTAnalysisWorksheet.datasetListWidget
                               (QCTAnalysisWorksheetView.sheet SampleView.view2)))%nat
          (negb (QCTAnalysisWorksheet.analysis_in_progress
                   (QCTAnalysisWorksheetView.sheet SampleView.view2)))) /\
  ("selectAll" <> "selectAll" ->
   QCTAnalysisWorksheet.selected_dataset
     (QCTAnalysisWorksheetView.sheet
        (QCTAnalysisWorksheetView.perform_selection "selectAll" SampleView.view2))
   = [] /\
   QCTAnalysisWorksheet.analyzeBtn_enabled
     (QCTAnalysisWorksheet.widgets
        (QCTAnalysisWorksheetView.sheet
           (QCTAnalysisWorksheetView.perform_selection "selectAll"
                                                       SampleView.view2)))
   = false).
Proof.
  apply (perform_selection_all_or_nothing SampleView.view2 "selectAll").
  unfold QCTAnalysisWorksheetView.consistent. simpl.
  repeat split; repeat constructor; lia.
Defined.

Lemma combine_app_same {A B} (xs : list A) : forall (ys : list B) x y,
  List.length ys = List.length xs ->
  combine (xs ++ [x]) (ys ++ [y]) = (combine xs ys ++ [(x, y)])%list.
Proof.
  induction xs as [|a xs IH]; intros [|b ys] x y Hl; simpl in *;
    try discriminate; [reflexivity|].
  f_equal. apply IH. now injection Hl.
Qed.

Lemma nth_error_app_old {A} (l : list A) (x : A) (d : nat) :
  (d < List.length l)%nat -> nth_error (l ++ [x]) d = nth_error l d.
Proof. intros H. now apply nth_error_app1. Qed.

(** On a consistent worksheet, [add_dataset] with a chosen file appends one
    dataset: a new object with the path and no cached result, a new last
    list item without check mark referring to it; the objects and cached
    results already there are untouched, and the selection is the checked
    items of the list as it was.  With a cancelled dialog it changes
    nothing. *)
Theorem add_dataset_appends_unchecked
        (str_of_path : string -> string) (file_path : string)
        (self : QCTAnalysisWorksheetView.t) :
  QCTAnalysisWorksheetView.consistent self ->
  file_path <> "" ->
  QCTAnalysisWorksheet.objects
    (QCTAnalysisWorksheetView.sheet
       (QCTAnalysisWorksheetView.add_dataset str_of_path file_path self))
  = (QCTAnalysisWorksheet.objects (QCTAnalysisWorksheetView.sheet self)
     ++ [QCTAnalysisWorksheet.mkItem (str_of_path file_path) None])%list /\
  QCTAnalysisWorksheetView.items
    (QCTAnalysisWorksheetView.add_dataset str_of_path file_path self)
  = (QCTAnalysisWorksheetView.items self
     ++ [(List.length (QCTAnalysisWorksheet.objects
                         (QCTAnalysisWorksheetView.sheet self)),
          QCTAnalysisWorksheetView.mkState false false)])%list /\
  QCTAnalysisWorksheet.cached_result
    (QCTAnalysisWorksheetView.sheet
       (QCTAnalysisWorksheetView.add_dataset str_of_path file_path self))
    (List.length (QCTAnalysisWorksheet.objects
                    (QCTAnalysisWorksheetView.sheet self))) = None /\
  (forall d,
      (d < List.length (QCTAnalysisWorksheet.objects
                          (QCTAnalysisWorksheetView.sheet self)))%nat ->
      QCTAnalysisWorksheet.cached_result
        (QCTAnalysisWorksheetView.sheet
           (QCTAnalysisWorksheetView.add_dataset str_of_path file_path self)) d
      = QCTAnalysisWorksheet.cached_result
          (QCTAnalysisWorksheetView.sheet self) d) /\
  QCTAnalysisWorksheet.selected_dataset
    (QCTAnalysisWorksheetView.sheet
       (QCTAnalysisWorksheetView.add_dataset str_of_path file_path self))
  = map fst (filter (fun item => QCTAnalysisWorksheetView.checkState (snd item))
                    (QCTAnalysisWorksheetView.items self)) /\
  QCTAnalysisWorksheetView.add_dataset str_of_path "" self = self.
Proof.
  intros (Hl & _ & _) Hp. apply String.eqb_neq in Hp.
  unfold QCTAnalysisWorksheetView.add_dataset. rewrite Hp.
  unfold QCTAnalysisWorksheetView.items,
    QCTAnalysisWorksheetView.update_selected_dataset,
    QCTAnalysisWorksheetView.items, QCTAnalysisWorksheet.cached_result.
  cbn -[Nat.ltb String.eqb].
  rewrite (combine_app_same _ _ _ _ Hl).
  repeat split.
  - rewrite nth_error_app2 by lia. rewrite Nat.sub_diag. reflexivity.
  - intros d Hd. now rewrite nth_error_app_old.
  - rewrite filter_app. simpl. now rewrite app_nil_r.
Qed.

Lemma add_dataset_appends_unchecked_witness :
  QCTAnalysisWorksheet.objects
    (QCTAnalysisWorksheetView.sheet
       (QCTAnalysisWorksheetView.add_dataset (fun p => p) "c.zip"
                                             SampleView.view2))
  = (QCTAnalysisWorksheet.objects (QCTAnalysisWorksheetView.sheet SampleView.view2)
     ++ [QCTAnalysisWorksheet.mkItem "c.zip" None])%list /\
  QCTAnalysisWorksheetView.items
    (QCTAnalysisWorksheetView.add_dataset (fun p => p) "c.zip" SampleView.view2)
  = (QCTAnalysisWorksheetView.items SampleView.view2
     ++ [(List.length (QCTAnalysisWorksheet.objects
                         (QCTAnalysisWorksheetView.sheet SampleView.view2)),
          QCTAnalysisWorksheetView.mkState false false)])%list /\
  QCTAnalysisWorksheet.cached_result
    (QCTAnalysisWorksheetView.sheet
       (QCTAnalysisWorksheetView.add_dataset (fun p => p) "c.zip"
                                             SampleView.view2))
    (List.length (QCTAnalysisWorksheet.objects
                    (QCTAnalysisWorksheetView.sheet SampleView.view2))) = None /\
  (forall d,
      (d < List.length (QCTAnalysisWorksheet.objects
                          (QCTAnalysisWorksheetView.sheet SampleView.view2)))%nat ->
      QCTAnalysisWorksheet.cached_result
        (QCTAnalysisWorksheetView.sheet
           (QCTAnalysisWorksheetView.add_dataset (fun p => p) "c.zip"
                                                 SampleView.view2)) d
      = QCTAnalysisWorksheet.cached_result
          (QCTAnalysisWorksheetView.sheet SampleView.view2) d) /\
  QCTAnalysisWorksheet.selected_dataset
    (QCTAnalysisWorksheetView.sheet
       (QCTAnalysisWorksheetView.add_dataset (fun p => p) "c.zip"
                                             SampleView.view2))
  = map fst (filter (fun item => QCTAnalysisWorksheetView.checkState (snd item))
                    (QCTAnalysisWorksheetView.items SampleView.view2)) /\
  QCTAnalysisWorksheetView.add_dataset (fun p => p) "" SampleView.view2
  = SampleView.view2.
Proof.
  apply (add_dataset_appends_unchecked (fun p => p) "c.zip" SampleView.view2).
  - unfold QCTAnalysisWorksheetView.consistent. simpl.
    repeat split; repeat constructor; lia.
  - discriminate.
Defined.

(** ** A run in progress *)

Lemma perform_keeps_in_progress (self : QCTAnalysisWorksheetView.t)
      (a : list_action) :
  QCTAnalysisWorksheet.analysis_in_progress (QCTAnalysisWorksheetView.sheet self)
  = true ->
  QCTAnalysisWorksheet.analyzeBtn_enabled
    (QCTAnalysisWorksheet.widgets (QCTAnalysisWorksheetView.sheet self)) = false ->
  QCTAnalysisWorksheet.analysis_in_progress
    (QCTAnalysisWorksheetView.sheet (perform self a)) = true /\
  QCTAnalysisWorksheet.analyzeBtn_enabled
    (QCTAnalysisWorksheet.widgets
       (QCTAnalysisWorksheetView.sheet (perform self a))) = false.
Proof.
  intros Hp Hb.
  destruct a as [str_of_path file_path| |select_type|]; simpl.
  - unfold QCTAnalysisWorksheetView.add_dataset.
    destruct (String.eqb file_path ""); [split; assumption|].
    cbn -[Nat.ltb]. rewrite Hp. split; [reflexivity|apply andb_false_r].
  - cbn -[Nat.ltb]. rewrite Hp. split; [reflexivity|apply andb_false_r].
  - cbn -[Nat.ltb String.eqb]. rewrite Hp.
    split; [reflexivity|apply andb_false_r].
  - cbn -[Nat.ltb]. rewrite Hp. split; [reflexivity|apply andb_false_r].
Qed.

Lemma start_analysis_in_progress (self : QCTAnalysisWorksheetView.t) :
  QCTAnalysisWorksheet.analysis_in_progress
    (QCTAnalysisWorksheetView.sheet
       (fst (QCTAnalysisWorksheetView.start_analysis self))) = true /\
  QCTAnalysisWorksheet.analyzeBtn_enabled
    (QCTAnalysisWorksheet.widgets
       (QCTAnalysisWorksheetView.sheet
          (fst (QCTAnalysisWorksheetView.start_analysis self)))) = false.
Proof.
  unfold QCTAnalysisWorksheetView.start_analysis.
  destruct (QCTAnalysisWorksheet.selected_dataset
              (QCTAnalysisWorksheetView.sheet self)) as [|dataset rest];
    [split; reflexivity|].
  destruct (QCTAnalysisWorksheet.file_path_of _ dataset); split; reflexivity.
Qed.

(** After [start_analysis], whatever the user does with the list (adding,
    removing, checking, clicking), the worksheet stays in progress and the
    analyze button stays disabled: only a signal of the worker ends that.
    When no dataset is selected, [start_analysis] starts no worker, so the
    worksheet then stays in progress. *)
Theorem analyze_button_locked_while_in_progress
        (self : QCTAnalysisWorksheetView.t) (actions : list list_action) :
  QCTAnalysisWorksheet.analysis_in_progress
    (QCTAnalysisWorksheetView.sheet
       (fold_left perform actions
                  (fst (QCTAnalysisWorksheetView.start_analysis self)))) = true /\
  QCTAnalysisWorksheet.analyzeBtn_enabled
    (QCTAnalysisWorksheet.widgets
       (QCTAnalysisWorksheetView.sheet
          (fold_left perform actions
                     (fst (QCTAnalysisWorksheetView.start_analysis self)))))
  = false /\
  (QCTAnalysisWorksheet.selected_dataset (QCTAnalysisWorksheetView.sheet self)
   = [] ->
   snd (QCTAnalysisWorksheetView.start_analysis self) = None).
Proof.
  assert (forall v,
    QCTAnalysisWorksheet.analysis_in_progress (QCTAnalysisWorksheetView.sheet v)
    = true ->
    QCTAnalysisWorksheet.analyzeBtn_enabled
      (QCTAnalysisWorksheet.widgets (QCTAnalysisWorksheetView.sheet v)) = false ->
    QCTAnalysisWorksheet.analysis_in_progress
      (QCTAnalysisWorksheetView.sheet (fold_left perform actions v)) = true /\
    QCTAnalysisWorksheet.analyzeBtn_enabled
      (QCTAnalysisWorksheet.widgets
         (QCTAnalysisWorksheetView.sheet (fold_left perform actions v)))
    = false) as Hfold.
  { induction actions as [|a actions IH]; intros v Hp Hb; simpl;
      [split; assumption|].
    destruct (perform_keeps_in_progress v a Hp Hb) as [Hp' Hb'].
    now apply IH. }
  destruct (start_analysis_in_progress self) as [Hp Hb].
  destruct (Hfold _ Hp Hb) as [Hp' Hb'].
  split; [exact Hp'|]. split; [exact Hb'|].
  intros E. unfold QCTAnalysisWorksheetView.start_analysis. rewrite E.
  reflexivity.
Qed.

(** ** A whole run, from the analyze button to the last signal *)

Lemma file_path_of_bound objs ref path :
  QCTAnalysisWorksheet.file_path_of objs ref = Some path ->
  (ref < List.length objs)%nat.
Proof.
  unfold QCTAnalysisWorksheet.file_path_of. intros H.
  apply nth_error_Some. destruct (nth_error objs ref); [discriminate|].
  discriminate H.
Qed.

(** Starting a run on a worksheet whose first selected dataset has path
    [file_path] starts a worker on that path with the phantom type of the
    configuration box; once the signals of the run are delivered, whatever
    the library did, the worksheet is no longer in progress and the analyze
    and add buttons are enabled again.  After a run that returned, the state
    is the success, the result is cached on the dataset, the form shows its
    rows and the report button is enabled.  After a run that raised, the
    state is the failure with the text of the failure signal as message,
    every cached result is as before the run, the form is empty and the
    report button stays disabled. *)
Theorem run_cycle_releases_worksheet
        (lib : pylinac) (self : QCTAnalysisWorksheetView.t)
        (dataset : nat) (rest : list nat) (file_path : string) :
  QCTAnalysisWorksheet.selected_dataset (QCTAnalysisWorksheetView.sheet self)
  = dataset :: rest ->
  QCTAnalysisWorksheet.file_path_of
    (QCTAnalysisWorksheet.objects (QCTAnalysisWorksheetView.sheet self)) dataset
  = Some file_path ->
  exists worker after,
    worker = QCTAnalysisWorker.mk file_path
               (Member (QCTAnalysisWorksheetView.phantom_of_text
                          (QCTAnalysisWorksheetView.phantomTypeCB_currentText
                             self))) /\
    snd (QCTAnalysisWorksheetView.start_analysis self) = Some worker /\
    after = QCTAnalysisWorksheetView.sheet
              (QCTAnalysisWorksheetView.deliver_all
                 (fst (QCTAnalysisWorksheetView.start_analysis self))
                 (fst (QCTAnalysisWorker.run lib worker))) /\
    QCTAnalysisWorksheet.analysis_in_progress after = false /\
    QCTAnalysisWorksheet.analyzeBtn_enabled (QCTAnalysisWorksheet.widgets after)
    = true /\
    QCTAnalysisWorksheet.addDatasetBtn_enabled (QCTAnalysisWorksheet.widgets after)
    = true /\
    QCTAnalysisWorksheet.analysis_progress_bar_shown
      (QCTAnalysisWorksheet.widgets after) = false /\
    match pipeline lib worker with
    | Returns r =>
        QCTAnalysisWorksheet.analysis_state after = SUCCESS /\
        QCTAnalysisWorksheet.genReportBtn_enabled
          (QCTAnalysisWorksheet.widgets after) = true /\
        QCTAnalysisWorksheet.cached_result after dataset = Some r /\
        QCTAnalysisWorksheet.form_layout after
        = map form_row_of (summary_text r)
    | Raises e =>
        QCTAnalysisWorksheet.analysis_state after = FAILURE /\
        QCTAnalysisWorksheet.analysis_message after = Some (failure_text e) /\
        index_last (format_exception_only e) = Returns (failure_text e) /\
        QCTAnalysisWorksheet.genReportBtn_enabled
          (QCTAnalysisWorksheet.widgets after) = false /\
        QCTAnalysisWorksheet.form_layout after = [] /\
        forall d,
          QCTAnalysisWorksheet.cached_result after d
          = QCTAnalysisWorksheet.cached_result
              (QCTAnalysisWorksheetView.sheet self) d
    end.
Proof.
  intros Hs Hf. eexists. eexists. split; [reflexivity|].
  split.
  { unfold QCTAnalysisWorksheetView.start_analysis. rewrite Hs, Hf. reflexivity. }
  split; [reflexivity|].
  pose proof (file_path_of_bound _ _ _ Hf) as Hb.
  unfold QCTAnalysisWorksheetView.start_analysis. rewrite Hs, Hf.
  rewrite run_cases. cbv zeta. unfold pipeline.
  unfold QCTAnalysisWorksheetView.deliver_all.
  destruct (from_zip lib _ _) as [ph|e]; cbn [py_bind];
    [|simpl; repeat split; reflexivity || apply index_last_format_exception_only].
  destruct (phantom_analyze lib ph) as [ph'|e]; cbn [py_bind];
    [|simpl; repeat split; reflexivity || apply index_last_format_exception_only].
  destruct (results_data lib ph') as [data|e]; cbn [py_bind];
    [|simpl; repeat split; reflexivity || apply index_last_format_exception_only].
  destruct (summarize _ data) as [rows|e] eqn:Hsum; cbn [py_bind];
    [|simpl; repeat split; reflexivity || apply index_last_format_exception_only].
  cbn [fst snd fold_left QCTAnalysisWorksheetView.deliver
       QCTAnalysisWorksheetView.update_analysis_progress
       QCTAnalysisWorksheetView.with_sheet QCTAnalysisWorksheetView.sheet
       QCTAnalysisWorksheetView.item_states].
  cbn [py_bind]. repeat split.
  - apply (show_analysis_results_attaches _ _ dataset rest); [reflexivity|].
    exact Hb.
  - unfold QCTAnalysisWorksheet.show_analysis_results. simpl.
    now rewrite (form_rows_pairs rows (summarize_rows_pairs _ _ _ Hsum)).
Qed.

Lemma run_cycle_releases_worksheet_witness :
  exists worker after,
    worker = QCTAnalysisWorker.mk "b.zip"
               (Member (QCTAnalysisWorksheetView.phantom_of_text
                          (QCTAnalysisWorksheetView.phantomTypeCB_currentText
                             SampleView.view2))) /\
    snd (QCTAnalysisWorksheetView.start_analysis SampleView.view2) = Some worker /\
    after = QCTAnalysisWorksheetView.sheet
              (QCTAnalysisWorksheetView.deliver_all
                 (fst (QCTAnalysisWorksheetView.start_analysis SampleView.view2))
                 (fst (QCTAnalysisWorker.run (Sample.lib_giving (PyObj []) Sample.data_full) worker))) /\
    QCTAnalysisWorksheet.analysis_in_progress after = false /\
    QCTAnalysisWorksheet.analyzeBtn_enabled (QCTAnalysisWorksheet.widgets after)
    = true /\
    QCTAnalysisWorksheet.addDatasetBtn_enabled (QCTAnalysisWorksheet.widgets after)
    = true /\
    QCTAnalysisWorksheet.analysis_progress_bar_shown
      (QCTAnalysisWorksheet.widgets after) = false /\
    match pipeline (Sample.lib_giving (PyObj []) Sample.data_full) worker with
    | Returns r =>
        QCTAnalysisWorksheet.analysis_state after = SUCCESS /\
        QCTAnalysisWorksheet.genReportBtn_enabled
          (QCTAnalysisWorksheet.widgets after) = true /\
        QCTAnalysisWorksheet.cached_result after 1%nat = Some r /\
        QCTAnalysisWorksheet.form_layout after
        = map form_row_of (summary_text r)
    | Raises e =>
        QCTAnalysisWorksheet.analysis_state after = FAILURE /\
        QCTAnalysisWorksheet.analysis_message after = Some (failure_text e) /\
        index_last (format_exception_only e) = Returns (failure_text e) /\
        QCTAnalysisWorksheet.genReportBtn_enabled
          (QCTAnalysisWorksheet.widgets after) = false /\
        QCTAnalysisWorksheet.form_layout after = [] /\
        forall d,
          QCTAnalysisWorksheet.cached_result after d
          = QCTAnalysisWorksheet.cached_result
              (QCTAnalysisWorksheetView.sheet SampleView.view2) d
    end.
Proof.
  apply (run_cycle_releases_worksheet
           (Sample.lib_giving (PyObj []) Sample.data_full) SampleView.view2
           1%nat [] "b.zip"); reflexivity.
Defined.

(** The result of a run is cached on the dataset that is first in the
    selection when the result arrives, which need not be the dataset the
    worker analysed: when a run is started on the selected dataset [b] and
    "Select All" then puts another dataset [a] first, delivering the result
    caches it on [a] and leaves the cached result of [b] as it was. *)
Theorem result_goes_to_first_selected_on_arrival
        (self : QCTAnalysisWorksheetView.t) (r : results)
        (a b : nat) (others rest : list nat) (path_b : string) :
  QCTAnalysisWorksheetView.consistent self ->
  QCTAnalysisWorksheet.datasetListWidget (QCTAnalysisWorksheetView.sheet self)
  = a :: others ->
  QCTAnalysisWorksheet.selected_dataset (QCTAnalysisWorksheetView.sheet self)
  = b :: rest ->
  QCTAnalysisWorksheet.file_path_of
    (QCTAnalysisWorksheet.objects (QCTAnalysisWorksheetView.sheet self)) b
  = Some path_b ->
  a <> b ->
  snd (QCTAnalysisWorksheetView.start_analysis self)
  = Some (QCTAnalysisWorker.mk path_b
            (Member (QCTAnalysisWorksheetView.phantom_of_text
                       (QCTAnalysisWorksheetView.phantomTypeCB_currentText
                          self)))) /\
  QCTAnalysisWorksheet.cached_result
    (QCTAnalysisWorksheetView.sheet
       (QCTAnalysisWorksheetView.deliver
          (QCTAnalysisWorksheetView.perform_selection "selectAll"
             (fst (QCTAnalysisWorksheetView.start_analysis self)))
          (QCTAnalysisWorker.analysis_results_ready r))) a = Some r /\
  QCTAnalysisWorksheet.cached_result
    (QCTAnalysisWorksheetView.sheet
       (QCTAnalysisWorksheetView.deliver
          (QCTAnalysisWorksheetView.perform_selection "selectAll"
             (fst (QCTAnalysisWorksheetView.start_analysis self)))
          (QCTAnalysisWorker.analysis_results_ready r))) b
  = QCTAnalysisWorksheet.cached_result (QCTAnalysisWorksheetView.sheet self) b.
Proof.
  intros (Hl & Hi & Hsel) Hitems Hs Hf Hab.
  split.
  { unfold QCTAnalysisWorksheetView.start_analysis. rewrite Hs, Hf. reflexivity. }
  destruct (start_analysis_keeps_lists self) as (Ho & Hw & _ & Hst).
  set (v1 := fst (QCTAnalysisWorksheetView.start_analysis self)) in *.
  assert (QCTAnalysisWorksheet.selected_dataset
            (QCTAnalysisWorksheetView.sheet
               (QCTAnalysisWorksheetView.perform_selection "selectAll" v1))
          = a :: others) as Hsel2.
  { rewrite select_all_selects_list; [now rewrite Hw|].
    now rewrite Hst, Hw. }
  assert (QCTAnalysisWorksheet.objects
            (QCTAnalysisWorksheetView.sheet
               (QCTAnalysisWorksheetView.perform_selection "selectAll" v1))
          = QCTAnalysisWorksheet.objects (QCTAnalysisWorksheetView.sheet self))
    as Hobj2.
  { unfold QCTAnalysisWorksheetView.perform_selection. cbn -[Nat.ltb].
    exact Ho. }
  assert (a < List.length (QCTAnalysisWorksheet.objects
                             (QCTAnalysisWorksheetView.sheet self)))%nat as Ha.
  { rewrite Hitems in Hi. now inversion Hi. }
  set (v2 := QCTAnalysisWorksheetView.perform_selection "selectAll" v1) in *.
  cbn [QCTAnalysisWorksheetView.deliver QCTAnalysisWorksheetView.with_sheet
       QCTAnalysisWorksheetView.sheet].
  split.
  - apply (show_analysis_results_attaches _ r a others Hsel2).
    now rewrite Hobj2.
  - unfold QCTAnalysisWorksheet.show_analysis_results,
      QCTAnalysisWorksheet.cached_result.
    rewrite Hsel2. cbn [QCTAnalysisWorksheet.objects].
    rewrite set_analysis_data_other by congruence.
    now rewrite Hobj2.
Qed.

Lemma result_goes_to_first_selected_on_arrival_witness :
  snd (QCTAnalysisWorksheetView.start_analysis SampleView.view2)
  = Some (QCTAnalysisWorker.mk "b.zip"
            (Member (QCTAnalysisWorksheetView.phantom_of_text
                       (QCTAnalysisWorksheetView.phantomTypeCB_currentText
                          SampleView.view2)))) /\
  QCTAnalysisWorksheet.cached_result
    (QCTAnalysisWorksheetView.sheet
       (QCTAnalysisWorksheetView.deliver
          (QCTAnalysisWorksheetView.perform_selection "selectAll"
             (fst (QCTAnalysisWorksheetView.start_analysis SampleView.view2)))
          (QCTAnalysisWorker.analysis_results_ready Sample.results_full)))
    0%nat = Some Sample.results_full /\
  QCTAnalysisWorksheet.cached_result
    (QCTAnalysisWorksheetView.sheet
       (QCTAnalysisWorksheetView.deliver
          (QCTAnalysisWorksheetView.perform_selection "selectAll"
             (fst (QCTAnalysisWorksheetView.start_analysis SampleView.view2)))
          (QCTAnalysisWorker.analysis_results_ready Sample.results_full)))
    1%nat
  = QCTAnalysisWorksheet.cached_result
      (QCTAnalysisWorksheetView.sheet SampleView.view2) 1%nat.
Proof.
  apply (result_goes_to_first_selected_on_arrival
           SampleView.view2 Sample.results_full 0%nat 1%nat [1%nat] [] "b.zip").
  - unfold QCTAnalysisWorksheetView.consistent. simpl.
    repeat split; repeat constructor; lia.
  - reflexivity.
  - reflexivity.
  - reflexivity.
  - discriminate.
Defined.
